(** * Inventory reconciliation: a model of [transformation.py]

    The tabular engine of the repository normalises two ledgers (stock
    inflow and release), buckets their records by calendar month and walks
    the months in chronological order to carry balances forward.  This file
    embeds that engine and proves the properties its specification states;
    it then embeds the transport around it (worksheets read, frames
    prepared and uploaded, [main]) and proves further properties of both.

    Modelling conventions.
    - A pandas [DataFrame] is a list of labelled columns, a column a list of
      cells.  A cell is a string, a number, the missing value [NaN], a
      timestamp or [NaT].
    - Float arithmetic and the per-cell parsers of pandas are not part of the
      repository: they are taken through the classes [Numeric] and
      [DateParser], so every theorem holds for any arithmetic and any
      parser, and the examples instantiate them with integers.
    - Strings are byte strings; [lower] and [strip] act on ASCII.
    - An exception is [None] inside a function body; the [try]/[except] that
      closes every function of the source turns it into
      [DataProcessingError].
    - What lies outside the process (the environment, the credentials file,
      the Sheets service) is a record [World]; [main] gives its outcome and
      the trace of the calls it made. *)

From Stdlib Require Import String Ascii List Bool Arith NArith ZArith Lia.
From Stdlib Require Import Sorting.Sorted Sorting.Permutation.
From Stdlib Require DecimalString.
Import ListNotations.
Local Open Scope string_scope.
Local Open Scope list_scope.

Set Implicit Arguments.

(** ** Results and exceptions *)

Inductive result (A : Type) : Type :=
| Ok (a : A)
| DataProcessingError (msg : string).

Arguments Ok {A} a.
Arguments DataProcessingError {A} msg.

Definition try_except {A : Type} (msg : string) (body : option A) : result A :=
  match body with
  | Some a => Ok a
  | None => DataProcessingError msg
  end.

(** Calling a function that may raise, from inside another body. *)
Definition call {A : Type} (r : result A) : option A :=
  match r with
  | Ok a => Some a
  | DataProcessingError _ => None
  end.

Definition bind {A B : Type} (m : option A) (k : A -> option B) : option B :=
  match m with
  | Some a => k a
  | None => None
  end.

Notation "x <- m ;; k" := (bind m (fun x => k))
  (at level 61, m at next level, right associativity).

(** ** String operations used by the source *)

Module Str.

Definition is_upper (c : ascii) : bool :=
  (65 <=? N_of_ascii c)%N && (N_of_ascii c <=? 90)%N.

Definition lower_ascii (c : ascii) : ascii :=
  if is_upper c then ascii_of_N (N_of_ascii c + 32) else c.

(** [str.lower] *)
Fixpoint lower (s : string) : string :=
  match s with
  | EmptyString => EmptyString
  | String c s' => String (lower_ascii c) (lower s')
  end.

(** The ASCII characters for which [str.isspace] holds. *)
Definition is_space (c : ascii) : bool :=
  let n := N_of_ascii c in
  ((9 <=? n)%N && (n <=? 13)%N) || ((28 <=? n)%N && (n <=? 32)%N).

Fixpoint lstrip (s : string) : string :=
  match s with
  | EmptyString => EmptyString
  | String c s' => if is_space c then lstrip s' else s
  end.

Fixpoint rstrip (s : string) : string :=
  match s with
  | EmptyString => EmptyString
  | String c s' =>
      match rstrip s' with
      | EmptyString => if is_space c then EmptyString else String c EmptyString
      | r => String c r
      end
  end.

(** [str.strip] *)
Definition strip (s : string) : string := rstrip (lstrip s).

(** [str.replace(old, new)] for a one-character [old]. *)
Fixpoint replace (old : ascii) (new : string) (s : string) : string :=
  match s with
  | EmptyString => EmptyString
  | String c s' =>
      if Ascii.eqb c old then new ++ replace old new s'
      else String c (replace old new s')
  end.

(** Substring test. *)
Fixpoint contains (sub s : string) : bool :=
  String.prefix sub s ||
  match s with
  | EmptyString => false
  | String _ s' => contains sub s'
  end.

(** [str.contains(pat, case=False)] for a pattern without metacharacters. *)
Definition contains_nocase (pat s : string) : bool :=
  contains (lower pat) (lower s).

(** [str.split(sep)] for a one-character separator. *)
Fixpoint split (sep : ascii) (s : string) : list string :=
  match s with
  | EmptyString => [EmptyString]
  | String c s' =>
      if Ascii.eqb c sep then EmptyString :: split sep s'
      else match split sep s' with
           | h :: t => String c h :: t
           | [] => [String c EmptyString]
           end
  end.

End Str.

(** ** Constants of the source *)

Definition WHOLE_CHICKEN : string := "whole chicken".
Definition GIZZARD : string := "gizzard".

Definition DATE_FORMATS : list string := ["%d %b %Y"; "%d/%m/%y"; "%d-%b-%Y"].

(** ** Calendar dates *)

Inductive month_name : Type :=
| Jan | Feb | Mar | Apr | May | Jun | Jul | Aug | Sep | Oct | Nov | Dec.

Record date : Type := mkDate { dt_year : N; dt_month : month_name; dt_day : N }.

Definition month_number (m : month_name) : N :=
  match m with
  | Jan => 1 | Feb => 2 | Mar => 3 | Apr => 4 | May => 5 | Jun => 6
  | Jul => 7 | Aug => 8 | Sep => 9 | Oct => 10 | Nov => 11 | Dec => 12
  end%N.

(** [%b] in the C locale. *)
Definition month_abbr (m : month_name) : string :=
  match m with
  | Jan => "Jan" | Feb => "Feb" | Mar => "Mar" | Apr => "Apr"
  | May => "May" | Jun => "Jun" | Jul => "Jul" | Aug => "Aug"
  | Sep => "Sep" | Oct => "Oct" | Nov => "Nov" | Dec => "Dec"
  end.

Definition all_months : list month_name :=
  [Jan; Feb; Mar; Apr; May; Jun; Jul; Aug; Sep; Oct; Nov; Dec].

Definition month_of_abbr (s : string) : option month_name :=
  find (fun m => String.eqb (month_abbr m) s) all_months.

Definition digit (n : N) : ascii := ascii_of_N (48 + n mod 10).

Definition digit_value (c : ascii) : option N :=
  let n := N_of_ascii c in
  if (48 <=? n)%N && (n <=? 57)%N then Some (n - 48)%N else None.

(** [%Y]: four digits, zero padded; a longer year is written in full. *)
Definition strftime_Y (y : N) : string :=
  if (y <? 10000)%N then
    String (digit (y / 1000)) (String (digit (y / 100))
      (String (digit (y / 10)) (String (digit y) EmptyString)))
  else DecimalString.NilEmpty.string_of_uint (N.to_uint y).

(** [%m]: two digits. *)
Definition strftime_m (m : month_name) : string :=
  String (digit (month_number m / 10)) (String (digit (month_number m)) EmptyString).

(** A calendar month: the part of a timestamp that [%Y-%b] keeps. *)
Definition year_month_t : Type := (N * month_name)%type.

(** [strftime('%Y-%b')], the internal bucket key. *)
Definition strftime_Yb (d : year_month_t) : string :=
  strftime_Y (fst d) ++ "-" ++ month_abbr (snd d).

(** [strftime('%Y-%m')], the rendering of the summary. *)
Definition strftime_Ym (d : year_month_t) : string :=
  strftime_Y (fst d) ++ "-" ++ strftime_m (snd d).

(** [pd.to_datetime(s, format='%Y-%b')] on one bucket key.  The keys the
    engine hands to it are outputs of [strftime_Yb]; the model accepts
    exactly four digits, a hyphen and the abbreviation as [%b] prints it.
    (pandas also accepts other letter cases and maps null-like strings to
    NaT; no key produced by [standardize_dates] has either shape, and the
    model reports them as a failure.) *)
Definition strptime_Yb (s : string) : option year_month_t :=
  match s with
  | String a (String b (String c (String d (String "-" rest)))) =>
      match digit_value a, digit_value b, digit_value c, digit_value d,
            month_of_abbr rest with
      | Some a, Some b, Some c, Some d, Some m =>
          Some (1000 * a + 100 * b + 10 * c + d, m)%N
      | _, _, _, _, _ => None
      end
  | _ => None
  end.

(** The chronological rank of a month: the sort key of [sort_date]. *)
Definition rank (d : year_month_t) : N := (12 * fst d + month_number (snd d))%N.

(** ** What pandas contributes *)

(** Numbers and their arithmetic ([float64] in the source).  [to_number] is
    [pd.to_numeric] on one non-empty string: [None] is its [ValueError]. *)
Class Numeric (num : Type) : Type := {
  zero : num;
  add : num -> num -> num;
  sub : num -> num -> num;
  to_number : string -> option num;
  add_zero_zero : add zero zero = zero
}.

(** The outcome of [pd.to_datetime] on one cell. *)
Inductive parsed (A : Type) : Type :=
| Parsed (d : A)
| Null            (* a null-like value: the result is NaT, with no error *)
| Unparsed.       (* ValueError *)

Arguments Parsed {A} d.
Arguments Null {A}.
Arguments Unparsed {A}.

Section Engine.

Context {num : Type} {numeric : Numeric num}.

(** ** Cells, columns and frames *)

Inductive cell : Type :=
| Str (s : string)
| Num (x : num)
| NaN
| Timestamp (d : date)
| NaT.

Definition column : Type := list cell.

(** A frame: its columns with their labels, in order.  Labels may repeat,
    as in pandas. *)
Definition DataFrame : Type := list (string * column).

(** A worksheet as [read_worksheet_to_df] delivers it: text cells only. *)
Definition RawFrame : Type := list (string * list string).

(** [pd.to_datetime] on one cell with an explicit format, and with
    [format='mixed', dayfirst=True]. *)
Class DateParser : Type := {
  to_datetime : string -> cell -> parsed date;
  to_datetime_mixed : cell -> parsed date
}.

Context {date_parser : DateParser}.

Definition labels {C : Type} (df : list (string * C)) : list string := map fst df.

Definition has_label {C : Type} (l : string) (df : list (string * C)) : bool :=
  existsb (String.eqb l) (labels df).

(** The column bears the label. *)
Definition bears {C : Type} (l : string) (lc : string * C) : bool :=
  String.eqb (fst lc) l.

(** [df[label]] as a series: [KeyError] when the label is absent.  A label
    borne by several columns selects a frame; every use below needs a
    series and that case is reported as a failure too. *)
Definition get_col (l : string) (df : DataFrame) : option column :=
  match filter (bears l) df with
  | [(_, c)] => Some c
  | _ => None
  end.

(** [df[label] = c]: overwrite the column that bears the label, or append
    one. *)
Definition set_col (l : string) (c : column) (df : DataFrame) : DataFrame :=
  if has_label l df
  then map (fun lc => if String.eqb (fst lc) l then (fst lc, c) else lc) df
  else df ++ [(l, c)].

(** [df.rename(columns={old: new})]: relabels, keeps every column. *)
Definition rename {C : Type} (old new : string) (df : list (string * C))
  : list (string * C) :=
  map (fun lc => (if String.eqb (fst lc) old then new else fst lc, snd lc)) df.

(** Selection of the positions of [c] where the mask holds. *)
Fixpoint select {A : Type} (mask : list bool) (c : list A) : list A :=
  match mask, c with
  | b :: mask', x :: c' => if b then x :: select mask' c' else select mask' c'
  | _, _ => []
  end.

(** [df[mask]]: the rows where the mask holds. *)
Definition filter_rows (mask : list bool) (df : DataFrame) : DataFrame :=
  map (fun lc => (fst lc, select mask (snd lc))) df.

Definition nrows (df : DataFrame) : nat :=
  match df with
  | [] => 0
  | (_, c) :: _ => length c
  end.

(** [df.empty] *)
Definition empty (df : DataFrame) : bool :=
  match df with
  | [] => true
  | _ => Nat.eqb (nrows df) 0
  end.

Definition is_str (c : cell) : bool :=
  match c with Str _ => true | _ => false end.

Definition is_numeric (c : cell) : bool :=
  match c with Num _ | NaN => true | _ => false end.

(** [c == s] for a string [s]. *)
Definition eq_str (s : string) (c : cell) : bool :=
  match c with Str t => String.eqb t s | _ => false end.

Fixpoint unique (l : list string) : bool :=
  match l with
  | [] => true
  | x :: l' => negb (existsb (String.eqb x) l') && unique l'
  end.

(** ** standardize_dataframe *)

(** Column labels: lower, strip, spaces and hyphens to underscores. *)
Definition canonical_label (s : string) : string :=
  Str.replace "-" "_" (Str.replace " " "_" (Str.strip (Str.lower s))).

(** [.astype(str).str.strip().str.lower()] on a text cell. *)
Definition clean (s : string) : string := Str.lower (Str.strip s).

(** What is handed to [pd.to_numeric]. *)
Definition prepared (s : string) : string := Str.replace "," "" s.

(** [pd.to_numeric] on one string of an object column: the empty string
    becomes NaN, any other string is parsed or raises. *)
Definition to_numeric_cell (s : string) : option cell :=
  if String.eqb s "" then Some NaN
  else match to_number s with
       | Some x => Some (Num x)
       | None => None
       end.

(** [pd.to_numeric] on a column: one failure raises for the whole call. *)
Fixpoint to_numeric (l : list string) : option column :=
  match l with
  | [] => Some []
  | s :: l' =>
      c <- to_numeric_cell s ;;
      cs <- to_numeric l' ;;
      Some (c :: cs)
  end.

(** The body of the loop over columns. *)
Definition standardize_column (c : list string) : column :=
  let cleaned := map clean c in
  match to_numeric (map prepared cleaned) with
  | Some numeric_values => numeric_values
  | None => map Str cleaned
  end.

Definition standardize_dataframe (df : RawFrame) : result DataFrame :=
  try_except "Failed to standardize dataframe" (
    let df_clean := map (fun lc => (canonical_label (fst lc), snd lc)) df in
    let df_clean :=
      if has_label "weight_in_kg" df_clean
      then rename "weight_in_kg" "weight" df_clean
      else df_clean in
    (* df_clean[column] of a repeated label is a frame, which has no .str *)
    if unique (labels df_clean)
    then Some (map (fun lc => (fst lc, standardize_column (snd lc))) df_clean)
    else None).

(** ** standardize_dates *)

(** [pd.to_datetime(column, format=...)]: [None] when a cell raises. *)
Fixpoint parse_column (p : cell -> parsed date) (c : column) : option column :=
  match c with
  | [] => Some []
  | x :: c' =>
      match p x with
      | Unparsed => None
      | Parsed d => cs <- parse_column p c' ;; Some (Timestamp d :: cs)
      | Null => cs <- parse_column p c' ;; Some (NaT :: cs)
      end
  end.

(** The loop over [DATE_FORMATS]: the first format that parses the whole
    column, if any. *)
Fixpoint try_formats (formats : list string) (c : column) : option column :=
  match formats with
  | [] => None
  | f :: formats' =>
      match parse_column (to_datetime f) c with
      | Some parsed_dates => Some parsed_dates
      | None => try_formats formats' c
      end
  end.

Definition parse_dates (c : column) : option column :=
  match try_formats DATE_FORMATS c with
  | Some parsed_dates => Some parsed_dates
  | None => parse_column to_datetime_mixed c
  end.

Definition isna (c : cell) : bool :=
  match c with NaN | NaT => true | _ => false end.

(** [.dt.strftime('%b').str.lower()] and [.dt.strftime('%Y-%b')]; a column
    without NaT is all timestamps. *)
Definition month_cell (c : cell) : cell :=
  match c with
  | Timestamp d => Str (Str.lower (month_abbr (dt_month d)))
  | _ => NaN
  end.

Definition year_month_cell (c : cell) : cell :=
  match c with
  | Timestamp d => Str (strftime_Yb (dt_year d, dt_month d))
  | _ => NaN
  end.

Definition standardize_dates (df : DataFrame) : result DataFrame :=
  if empty df then Ok df
  else try_except "Failed to standardize dates" (
    dates <- get_col "date" df ;;
    dates <- parse_dates dates ;;
    if existsb isna dates then None
    else
      let df := set_col "date" dates df in
      let df := set_col "month" (map month_cell dates) df in
      let df := set_col "year_month" (map year_month_cell dates) df in
      Some df).

(** ** The gizzard correction of process_sheets_data *)

(** The product of the record contains the gizzard name, in any letter
    case; a cell that is not a string does not ([na=False]). *)
Definition is_gizzard (c : cell) : bool :=
  match c with
  | Str s => Str.contains_nocase GIZZARD s
  | _ => false
  end.

(** [column.str.contains(GIZZARD, case=False, na=False)].  The [.str]
    accessor exists on text columns only: a column that holds cells, none
    of them a string, has a numeric dtype and the access raises. *)
Definition gizzard_mask (c : column) : option (list bool) :=
  match c with
  | [] => Some []
  | _ => if existsb is_str c then Some (map is_gizzard c) else None
  end.

Fixpoint assign (mask : list bool) (v : cell) (c : column) : column :=
  match mask, c with
  | b :: mask', x :: c' => (if b then v else x) :: assign mask' v c'
  | _, _ => c
  end.

(** [df.loc[mask, label] = v].  A missing label is added, NaN where the
    mask does not hold; pandas refuses that on a frame without rows. *)
Definition loc_assign (mask : list bool) (l : string) (v : cell) (df : DataFrame)
  : option DataFrame :=
  if has_label l df
  then Some (map (fun lc => if String.eqb (fst lc) l
                            then (fst lc, assign mask v (snd lc)) else lc) df)
  else if Nat.eqb (nrows df) 0 then None
  else Some (df ++ [(l, map (fun b : bool => if b then v else NaN) mask)]).

Definition zero_gizzard_quantity (release_df : DataFrame) : option DataFrame :=
  product <- get_col "product" release_df ;;
  mask <- gizzard_mask product ;;
  loc_assign mask "quantity" (Num zero) release_df.

(** ** create_summary_df *)

Fixpoint traverse {A B : Type} (f : A -> option B) (l : list A) : option (list B) :=
  match l with
  | [] => Some []
  | x :: l' =>
      y <- f x ;;
      ys <- traverse f l' ;;
      Some (y :: ys)
  end.

Definition str_value (c : cell) : option string :=
  match c with Str s => Some s | _ => None end.

Fixpoint insert {A : Type} (leb : A -> A -> bool) (x : A) (l : list A) : list A :=
  match l with
  | [] => [x]
  | y :: l' => if leb x y then x :: l else y :: insert leb x l'
  end.

(** Sorting.  The keys sorted below are pairwise distinct (lemma
    [sort_dates_distinct]), so the result does not depend on the
    algorithm. *)
Definition sort {A : Type} (leb : A -> A -> bool) (l : list A) : list A :=
  fold_right (insert leb) [] l.

(** [sorted(list(set(a) | set(b)))] on strings. *)
Definition sorted_set (l : list string) : list string :=
  sort String.leb (nodup string_dec l).

(** A series indexed by bucket key. *)
Definition Series : Type := list (string * num).

Fixpoint lookup {V : Type} (k : string) (s : list (string * V)) : option V :=
  match s with
  | [] => None
  | (k', v) :: s' => if String.eqb k' k then Some v else lookup k s'
  end.

(** ['sum'] over the cells of one group: NaN is skipped.  The sum of a
    group that holds text is not a number: pandas concatenates or raises,
    and the balance arithmetic raises on the result; both end in the same
    [DataProcessingError]. *)
Fixpoint sum_from (acc : num) (cells : column) : option num :=
  match cells with
  | [] => Some acc
  | Num x :: cells' => sum_from (add acc x) cells'
  | NaN :: cells' => sum_from acc cells'
  | _ :: _ => None
  end.

Definition sum_skipna (cells : column) : option num := sum_from zero cells.

(** The group keys of [groupby('year_month')]: the distinct bucket keys. *)
Fixpoint str_values (c : column) : list string :=
  match c with
  | [] => []
  | Str s :: c' => s :: str_values c'
  | _ :: c' => str_values c'
  end.

(** [df.groupby('year_month').agg({metric: 'sum', ...})]: one series per
    metric. *)
Definition groupby_sum (df : DataFrame) (metrics : list string)
  : option (list (string * Series)) :=
  keys <- get_col "year_month" df ;;
  traverse (fun metric =>
    values <- get_col metric df ;;
    series <- traverse (fun k =>
                total <- sum_skipna (select (map (eq_str k) keys) values) ;;
                Some (k, total))
              (sorted_set (str_values keys)) ;;
    Some (metric, series)) metrics.

(** [df[df[product_label] == product].groupby('year_month').agg(...)] *)
Definition product_summary (df : DataFrame) (product_label product : string)
                           (metrics : list string)
  : option (list (string * Series)) :=
  products <- get_col product_label df ;;
  groupby_sum (filter_rows (map (eq_str product) products) df) metrics.

Record SummaryRow : Type := mkSummaryRow {
  month : cell;
  year_month : string;
  total_chicken_inflow_quantity : num;
  total_chicken_inflow_weight : num;
  total_chicken_release_quantity : num;
  total_chicken_release_weight : num;
  total_gizzard_inflow_weight : num;
  total_gizzard_release_weight : num;
  chicken_quantity_opening_stock : num;
  chicken_weight_opening_stock : num;
  gizzard_weight_opening_stock : num;
  chicken_quantity_stock_balance : num;
  chicken_weight_stock_balance : num;
  gizzard_weight_stock_balance : num
}.

Definition set_opening_stock (a b c : num) (r : SummaryRow) : SummaryRow :=
  mkSummaryRow (month r) (year_month r)
    (total_chicken_inflow_quantity r) (total_chicken_inflow_weight r)
    (total_chicken_release_quantity r) (total_chicken_release_weight r)
    (total_gizzard_inflow_weight r) (total_gizzard_release_weight r)
    a b c
    (chicken_quantity_stock_balance r) (chicken_weight_stock_balance r)
    (gizzard_weight_stock_balance r).

Definition set_stock_balance (a b c : num) (r : SummaryRow) : SummaryRow :=
  mkSummaryRow (month r) (year_month r)
    (total_chicken_inflow_quantity r) (total_chicken_inflow_weight r)
    (total_chicken_release_quantity r) (total_chicken_release_weight r)
    (total_gizzard_inflow_weight r) (total_gizzard_release_weight r)
    (chicken_quantity_opening_stock r) (chicken_weight_opening_stock r)
    (gizzard_weight_opening_stock r)
    a b c.

Definition set_year_month (s : string) (r : SummaryRow) : SummaryRow :=
  mkSummaryRow (month r) s
    (total_chicken_inflow_quantity r) (total_chicken_inflow_weight r)
    (total_chicken_release_quantity r) (total_chicken_release_weight r)
    (total_gizzard_inflow_weight r) (total_gizzard_release_weight r)
    (chicken_quantity_opening_stock r) (chicken_weight_opening_stock r)
    (gizzard_weight_opening_stock r)
    (chicken_quantity_stock_balance r) (chicken_weight_stock_balance r)
    (gizzard_weight_stock_balance r).

(** [summary_df['year_month'].map(summary[metric]).fillna(0)] on one key,
    and the constant 0 when the aggregate has no such metric. *)
Definition summary_column (product_summaries : list (string * list (string * Series)))
                          (summary_key metric k : string) : option num :=
  summary <- lookup summary_key product_summaries ;;
  match lookup metric summary with
  | Some series =>
      match lookup k series with
      | Some total => Some total
      | None => Some zero
      end
  | None => Some zero
  end.

(** [.str.split('-').str[1].str.lower()] *)
Definition month_of_key (k : string) : cell :=
  match Str.split "-" k with
  | _ :: m :: _ => Str (Str.lower m)
  | _ => NaN
  end.

(** A row of the working table: the summary row and its [sort_date]. *)
Definition WorkRow : Type := (year_month_t * SummaryRow)%type.

(** [df.iloc[i, ...] = ...] on the row at position [i]. *)
Fixpoint set_iloc (i : nat) (f : SummaryRow -> SummaryRow) (df : list WorkRow)
  : list WorkRow :=
  match df, i with
  | [], _ => []
  | (d, r) :: df', O => (d, f r) :: df'
  | x :: df', S i' => x :: set_iloc i' f df'
  end.

(** One turn of the loop over [range(len(summary_df))]. *)
Definition balance_step (df : list WorkRow) (i : nat) : list WorkRow :=
  let df :=
    if Nat.eqb i 0 then set_iloc i (set_opening_stock zero zero zero) df
    else match nth_error df (i - 1) with
         | Some (_, prev) =>
             set_iloc i (set_opening_stock
                           (chicken_quantity_stock_balance prev)
                           (chicken_weight_stock_balance prev)
                           (gizzard_weight_stock_balance prev)) df
         | None => df
         end in
  set_iloc i (fun r =>
    set_stock_balance
      (sub (add (chicken_quantity_opening_stock r) (total_chicken_inflow_quantity r))
           (total_chicken_release_quantity r))
      (sub (add (chicken_weight_opening_stock r) (total_chicken_inflow_weight r))
           (total_chicken_release_weight r))
      (sub (add (gizzard_weight_opening_stock r) (total_gizzard_inflow_weight r))
           (total_gizzard_release_weight r))
      r) df.

Definition running_balances (df : list WorkRow) : list WorkRow :=
  fold_left balance_step (seq 0 (length df)) df.

Definition ascending (a b : WorkRow) : bool := (rank (fst a) <=? rank (fst b))%N.
Definition descending (a b : WorkRow) : bool := (rank (fst b) <=? rank (fst a))%N.

(** The four aggregates, as the dictionary [product_summaries]. *)
Definition product_summaries_of (stock_inflow_df release_df : DataFrame)
  : option (list (string * list (string * Series))) :=
  chicken_inflow <- product_summary stock_inflow_df "product_type" WHOLE_CHICKEN
                      ["quantity"; "weight"] ;;
  chicken_release <- product_summary release_df "product" WHOLE_CHICKEN
                      ["quantity"; "weight"] ;;
  gizzard_inflow <- product_summary stock_inflow_df "product_type" GIZZARD
                      ["weight"] ;;
  gizzard_release <- product_summary release_df "product" GIZZARD
                      ["weight"] ;;
  Some [("chicken_inflow", chicken_inflow); ("chicken_release", chicken_release);
        ("gizzard_inflow", gizzard_inflow); ("gizzard_release", gizzard_release)].

(** The row of one bucket key before the balances are computed: its month,
    the six totals, its [sort_date], and 0.0 in the six balance columns. *)
Definition summary_row (product_summaries : list (string * list (string * Series)))
                       (k : string) : option WorkRow :=
  ciq <- summary_column product_summaries "chicken_inflow" "quantity" k ;;
  ciw <- summary_column product_summaries "chicken_inflow" "weight" k ;;
  crq <- summary_column product_summaries "chicken_release" "quantity" k ;;
  crw <- summary_column product_summaries "chicken_release" "weight" k ;;
  giw <- summary_column product_summaries "gizzard_inflow" "weight" k ;;
  grw <- summary_column product_summaries "gizzard_release" "weight" k ;;
  sort_date <- strptime_Yb k ;;
  Some (sort_date,
        mkSummaryRow (month_of_key k) k ciq ciw crq crw giw grw
                     zero zero zero zero zero zero).

(** The output form of a row: [year_month] re-rendered from [sort_date],
    and [sort_date] dropped. *)
Definition rendered (dr : WorkRow) : SummaryRow :=
  set_year_month (strftime_Ym (fst dr)) (snd dr).

Definition create_summary_df (stock_inflow_df release_df : DataFrame)
  : result (list SummaryRow) :=
  try_except "Failed to create summary" (
    inflow_keys <- get_col "year_month" stock_inflow_df ;;
    release_keys <- get_col "year_month" release_df ;;
    (* a key that is not a string makes sorted() or the .str accessor raise *)
    keys <- traverse str_value (inflow_keys ++ release_keys) ;;
    let all_year_months := sorted_set keys in
    product_summaries <- product_summaries_of stock_inflow_df release_df ;;
    summary_df <- traverse (summary_row product_summaries) all_year_months ;;
    let summary_df := sort ascending summary_df in
    let summary_df := running_balances summary_df in
    let summary_df := sort descending summary_df in
    Some (map rendered summary_df)).

(** ** process_sheets_data *)

(** [df[df['date'].notna() & (df['date'] != '')]] *)
Definition dated (c : cell) : bool :=
  negb (isna c) && negb (eq_str "" c).

Definition drop_undated (df : DataFrame) : option DataFrame :=
  dates <- get_col "date" df ;;
  Some (filter_rows (map dated dates) df).

(** The inflow ledger after [standardize_dataframe] and the rename of the
    delivery weight. *)
Definition inflow_renamed (stock_inflow_df : RawFrame) : option DataFrame :=
  stock_inflow_df <- call (standardize_dataframe stock_inflow_df) ;;
  Some (if has_label "weight_at_delivery" stock_inflow_df
        then rename "weight_at_delivery" "weight" stock_inflow_df
        else stock_inflow_df).

Definition process_sheets_data (stock_inflow_df release_df : RawFrame)
  : result (DataFrame * DataFrame * list SummaryRow) :=
  try_except "Failed to process sheets data" (
    stock_inflow_df <- inflow_renamed stock_inflow_df ;;
    release_df <- call (standardize_dataframe release_df) ;;
    stock_inflow_df <- drop_undated stock_inflow_df ;;
    release_df <- drop_undated release_df ;;
    stock_inflow_df <- call (standardize_dates stock_inflow_df) ;;
    release_df <- call (standardize_dates release_df) ;;
    release_df <- zero_gizzard_quantity release_df ;;
    summary_df <- call (create_summary_df stock_inflow_df release_df) ;;
    Some (stock_inflow_df, release_df, summary_df)).

(** * Vocabulary of the statements *)

(** The cell a string becomes when its column is converted. *)
Definition numeric_cell (s : string) (c : cell) : Prop :=
  (prepared s = "" /\ c = NaN) \/
  (prepared s <> "" /\ exists x, to_number (prepared s) = Some x /\ c = Num x).

(** A cleaned cell value coerces cleanly, or is empty. *)
Definition coerces (s : string) : Prop :=
  prepared s <> "" -> to_number (prepared s) <> None.

(** What [standardize_column] guarantees for one column. *)
Definition coercion_all_or_nothing (raw : list string) (out : column) : Prop :=
  let cleaned := map clean raw in
  (forallb is_numeric out = true <-> Forall coerces cleaned) /\
  (Forall coerces cleaned -> Forall2 numeric_cell cleaned out) /\
  (~ Forall coerces cleaned -> out = map Str cleaned).

(** The columns that bear the label [weight]. *)
Definition weight_columns (df : DataFrame) : DataFrame :=
  filter (bears "weight") df.

(** [out] is the column [c] parsed cell by cell with the one parser [p]. *)
Definition parsed_by (p : cell -> parsed date) (c out : column) : Prop :=
  Forall2 (fun x y => match p x with
                      | Parsed d => y = Timestamp d
                      | Null => y = NaT
                      | Unparsed => False
                      end) c out.


(** Ascending and descending calendar order of the months. *)
Definition before (a b : year_month_t) : Prop := (rank a < rank b)%N.
Definition after (a b : year_month_t) : Prop := (rank b < rank a)%N.

(** The three running quantities and their columns. *)
Inductive tracked : Type := ChickenQuantity | ChickenWeight | GizzardWeight.

Definition opening_stock (q : tracked) (r : SummaryRow) : num :=
  match q with
  | ChickenQuantity => chicken_quantity_opening_stock r
  | ChickenWeight => chicken_weight_opening_stock r
  | GizzardWeight => gizzard_weight_opening_stock r
  end.

Definition stock_balance (q : tracked) (r : SummaryRow) : num :=
  match q with
  | ChickenQuantity => chicken_quantity_stock_balance r
  | ChickenWeight => chicken_weight_stock_balance r
  | GizzardWeight => gizzard_weight_stock_balance r
  end.

Definition total_inflow (q : tracked) (r : SummaryRow) : num :=
  match q with
  | ChickenQuantity => total_chicken_inflow_quantity r
  | ChickenWeight => total_chicken_inflow_weight r
  | GizzardWeight => total_gizzard_inflow_weight r
  end.

Definition total_release (q : tracked) (r : SummaryRow) : num :=
  match q with
  | ChickenQuantity => total_chicken_release_quantity r
  | ChickenWeight => total_chicken_release_weight r
  | GizzardWeight => total_gizzard_release_weight r
  end.

(** The two rows agree on the month and on the six totals. *)
Definition same_totals (r r' : SummaryRow) : Prop :=
  month r = month r' /\
  total_chicken_inflow_quantity r = total_chicken_inflow_quantity r' /\
  total_chicken_inflow_weight r = total_chicken_inflow_weight r' /\
  total_chicken_release_quantity r = total_chicken_release_quantity r' /\
  total_chicken_release_weight r = total_chicken_release_weight r' /\
  total_gizzard_inflow_weight r = total_gizzard_inflow_weight r' /\
  total_gizzard_release_weight r = total_gizzard_release_weight r'.

(** Additive consistency of one row. *)
Definition balanced (r : SummaryRow) : Prop :=
  forall q, stock_balance q r =
            sub (add (opening_stock q r) (total_inflow q r)) (total_release q r).

(** The opening stock of [r] is the balance of [prev]. *)
Definition carried (prev r : SummaryRow) : Prop :=
  forall q, opening_stock q r = stock_balance q prev.

Definition opens_at_zero (r : SummaryRow) : Prop :=
  forall q, opening_stock q r = zero.

(** [pd.to_datetime] read back from the rendering of the summary: four
    digits, a hyphen, two digits. *)
Definition strptime_Ym (s : string) : option (N * N) :=
  match s with
  | String a (String b (String c (String d (String "-"
      (String m1 (String m2 EmptyString)))))) =>
      match digit_value a, digit_value b, digit_value c, digit_value d,
            digit_value m1, digit_value m2 with
      | Some a, Some b, Some c, Some d, Some m1, Some m2 =>
          Some (1000 * a + 100 * b + 10 * c + d, 10 * m1 + m2)%N
      | _, _, _, _, _, _ => None
      end
  | _ => None
  end.

(** The calendar rank of an output row, from its [year_month]. *)
Definition calendar_rank (r : SummaryRow) : N :=
  match strptime_Ym (year_month r) with
  | Some (y, m) => 12 * y + m
  | None => 0
  end%N.

(** The rows of a summary in ascending true calendar order. *)
Definition chronological (s : list SummaryRow) : list SummaryRow :=
  sort (fun a b => (calendar_rank a <=? calendar_rank b)%N) s.

(** What the loop has established once the rows before position [n] are
    done, starting from the table [df]. *)
Definition balances_done (n : nat) (df cur : list WorkRow) : Prop :=
  length cur = length df /\
  (forall j d r, nth_error df j = Some (d, r) ->
     exists r', nth_error cur j = Some (d, r') /\ same_totals r r') /\
  (forall j d r, j < n -> nth_error cur j = Some (d, r) ->
     balanced r /\
     (j = 0 -> opens_at_zero r) /\
     (forall i d' prev, j = S i -> nth_error cur i = Some (d', prev) -> carried prev r)).

(** The ledger holds a record of the product in the bucket [k]. *)
Definition has_record (df : DataFrame) (product_label product k : string) : Prop :=
  exists products keys i,
    get_col product_label df = Some products /\
    get_col "year_month" df = Some keys /\
    nth_error products i = Some (Str product) /\
    nth_error keys i = Some (Str k).

(** The product of the record is one of the two the aggregates select. *)
Definition tracked_product (c : cell) : bool :=
  eq_str WHOLE_CHICKEN c || eq_str GIZZARD c.

(** The two columns hold the same cells wherever the mask holds. *)
Definition same_where (mask : list bool) (c c' : column) : Prop :=
  length c = length c' /\
  forall i, nth_error mask i = Some true -> nth_error c i = nth_error c' i.

(** [df'] is the ledger [df] with other quantities and weights in records
    whose product is neither of the tracked two; nothing else differs. *)
Definition differs_in_untracked (product_label : string) (df df' : DataFrame) : Prop :=
  exists products,
    get_col product_label df = Some products /\
    Forall2 (fun lc lc' =>
      fst lc = fst lc' /\
      (snd lc = snd lc' \/
       ((fst lc = "quantity" \/ fst lc = "weight") /\
        same_where (map tracked_product products) (snd lc) (snd lc')))) df df'.

(** The sheet has no row with a non-blank date. *)
Definition undated (sheet : RawFrame) : Prop :=
  forall l c, In (l, c) sheet -> canonical_label l = "date" ->
              Forall (fun s => clean s = "") c.

(** No column of the sheet is labelled [year_month] once canonical. *)
Definition lacks_bucket_key (sheet : RawFrame) : Prop :=
  ~ In "year_month" (map canonical_label (labels sheet)).

(** Conjunction of two masks. *)
Fixpoint both (m1 m2 : list bool) : list bool :=
  match m1, m2 with
  | a :: m1', b :: m2' => (a && b) :: both m1' m2'
  | _, _ => []
  end.

(** The sum of a metric over the records of the ledger whose product is
    exactly [product] and whose bucket is exactly [k]. *)
Definition exact_total (df : DataFrame) (product_label product metric k : string)
  : option num :=
  products <- get_col product_label df ;;
  keys <- get_col "year_month" df ;;
  values <- get_col metric df ;;
  sum_skipna (select (both (map (eq_str product) products) (map (eq_str k) keys)) values).

End Engine.

Arguments cell num : clear implicits.
Arguments column num : clear implicits.
Arguments DataFrame num : clear implicits.
Arguments SummaryRow num : clear implicits.
Arguments WorkRow num : clear implicits.
Arguments Series num : clear implicits.
Arguments DateParser num : clear implicits.

(** * Transport: worksheets in, worksheets out *)

(** [str()] of a number and of a timestamp, as [astype(str)] applies it. *)
Class Repr (num : Type) : Type := {
  str_num : num -> string;
  str_timestamp : date -> string
}.

(** A request sent to the Sheets service. *)
Inductive request : Type :=
| Clear (spreadsheet_id range : string)
| Update (spreadsheet_id range : string) (values : list (list string)).

(** A call that leaves the process, in the order [main] makes them. *)
Inductive event : Type :=
| Credentials (credentials_file : string)
| Connect (spreadsheet_id : string)
| Build
| Worksheet (spreadsheet_id worksheet_name : string)
| Sent (r : request).

(** How [main] ends: it returns, or raises a [DataProcessingError] with a
    message, or lets an exception of the client library through. *)
Inductive outcome : Type :=
| Returned
| Raised (msg : string)
| RaisedByLibrary.

(** What is outside the program.  [service sent r] tells whether the
    request [r] is executed without an exception after the requests [sent]. *)
Record World : Type := {
  getenv : string -> option string;
  credentials_found : string -> bool;
  spreadsheet_opens : string -> bool;
  service_builds : bool;
  get_all_values : string -> string -> option (list (list string));
  service : list request -> request -> bool
}.

Definition SHEET_STOCK_INFLOW : string := "stock_inflow".
Definition SHEET_RELEASE : string := "release".
Definition SHEET_STOCK_INFLOW_CLEAN : string := "stock_inflow_clean".
Definition SHEET_RELEASE_CLEAN : string := "release_clean".
Definition SHEET_SUMMARY : string := "summary".

Section Transport.

Context {num : Type} {numeric : Numeric num} {date_parser : DateParser num}
        {repr : Repr num}.

(** ** read_worksheet_to_df *)

(** The columns of a table given by rows of width [n] (and the rows of a
    table given by columns of height [n]). *)
Fixpoint transpose {A : Type} (d : A) (n : nat) (rows : list (list A)) : list (list A) :=
  match n with
  | O => []
  | S n' => map (hd d) rows :: transpose d n' (map (@tl A) rows)
  end.

Definition rectangular {A : Type} (n : nat) (rows : list (list A)) : bool :=
  forallb (fun row => Nat.eqb (length row) n) rows.

(** [worksheet] is what [spreadsheet.worksheet(name).get_all_values()]
    gives, [None] when it raises.  gspread pads the rows to one width, that
    of the header row.  [pd.DataFrame(data, columns=headers)] raises on a
    row wider than the header and would fill a narrower one with [None];
    rows of another width do not reach the function and the model refuses
    them. *)
Definition read_worksheet_to_df (worksheet : option (list (list string)))
  : result RawFrame :=
  try_except "Failed to read worksheet" (
    all_values <- worksheet ;;
    match all_values with
    | [] => None
    | headers :: data =>
        if rectangular (length headers) data
        then Some (combine headers (transpose "" (length headers) data))
        else None
    end).

(** ** prepare_df_for_upload *)

Definition two_digits (n : N) : string :=
  String (digit (n / 10)) (String (digit n) EmptyString).

(** [strftime('%Y-%m-%d')] *)
Definition strftime_Ymd (d : date) : string :=
  strftime_Y (dt_year d) ++ "-" ++ strftime_m (dt_month d) ++ "-" ++ two_digits (dt_day d).

Definition is_time (c : cell num) : bool :=
  match c with Timestamp _ | NaT => true | _ => false end.

(** The column has the dtype [datetime64].  (A column without cells is
    left as it is by either branch.) *)
Definition is_datetime (c : column num) : bool := forallb is_time c.

(** [.dt.strftime('%Y-%m-%d')] on one cell: NaT gives a missing value. *)
Definition dt_strftime (c : cell num) : cell num :=
  match c with
  | Timestamp d => Str (strftime_Ymd d)
  | _ => NaN
  end.

(** [.fillna('')] on one cell. *)
Definition fillna (c : cell num) : cell num :=
  if isna c then Str "" else c.

(** [.astype(str)] on one cell. *)
Definition astype_str (c : cell num) : string :=
  match c with
  | Str s => s
  | Num x => str_num x
  | Timestamp d => str_timestamp d
  | NaN => "nan"
  | NaT => "NaT"
  end.

(** [.replace('nan', '')]: a cell that is exactly ['nan']. *)
Definition replace_nan (s : string) : string :=
  if String.eqb s "nan" then "" else s.

Definition prepare_column (c : column num) : list string :=
  let c := if is_datetime c then map dt_strftime c else c in
  map (fun x => replace_nan (astype_str (fillna x))) c.

Definition prepare_df_for_upload (df : DataFrame num) : RawFrame :=
  map (fun lc => (fst lc, prepare_column (snd lc))) df.

(** ** upload_df_to_gsheet *)

Definition height {C : Type} (df : list (string * list C)) : nat :=
  match df with
  | [] => 0
  | (_, c) :: _ => length c
  end.

(** [df.values.tolist()] *)
Definition tolist (df : RawFrame) : list (list string) :=
  transpose "" (height df) (map snd df).

(** The body of the update request: the header, then the rows. *)
Definition upload_values (df : DataFrame num) : list (list string) :=
  let df_to_upload := prepare_df_for_upload df in
  labels df_to_upload :: tolist df_to_upload.

(** The requests already sent are threaded through; the result is the
    boolean the function returns and the requests sent so far. *)
Definition upload_df_to_gsheet (w : World) (df : DataFrame num)
           (spreadsheet_id sheet_name : string) (sent : list request)
  : bool * list request :=
  let values := upload_values df in
  let clear := Clear spreadsheet_id (sheet_name ++ "!A1:ZZ") in
  if service w sent clear then
    let update := Update spreadsheet_id (sheet_name ++ "!A1") values in
    if service w (sent ++ [clear]) update
    then (true, sent ++ [clear; update])
    else (false, sent ++ [clear; update])
  else (false, sent ++ [clear]).

(** ** main *)

(** The summary as the frame that is uploaded: the columns in the order
    [create_summary_df] builds them, [sort_date] dropped. *)
Definition summary_frame (s : list (SummaryRow num)) : DataFrame num :=
  let numbers (f : SummaryRow num -> num) := map (fun r => Num (f r)) s in
  [("month", map (@month num) s);
   ("year_month", map (fun r => Str (year_month r)) s);
   ("total_chicken_inflow_quantity", numbers (@total_chicken_inflow_quantity num));
   ("total_chicken_inflow_weight", numbers (@total_chicken_inflow_weight num));
   ("total_chicken_release_quantity", numbers (@total_chicken_release_quantity num));
   ("total_chicken_release_weight", numbers (@total_chicken_release_weight num));
   ("total_gizzard_inflow_weight", numbers (@total_gizzard_inflow_weight num));
   ("total_gizzard_release_weight", numbers (@total_gizzard_release_weight num));
   ("chicken_quantity_opening_stock", numbers (@chicken_quantity_opening_stock num));
   ("chicken_weight_opening_stock", numbers (@chicken_weight_opening_stock num));
   ("gizzard_weight_opening_stock", numbers (@gizzard_weight_opening_stock num));
   ("chicken_quantity_stock_balance", numbers (@chicken_quantity_stock_balance num));
   ("chicken_weight_stock_balance", numbers (@chicken_weight_stock_balance num));
   ("gizzard_weight_stock_balance", numbers (@gizzard_weight_stock_balance num))].

(** [if not value]: unset, or set to the empty string. *)
Definition unset (v : option string) : bool :=
  match v with
  | None => true
  | Some s => String.eqb s ""
  end.

(** The loop over [upload_tasks]: every task is tried; [success] records
    whether all returned [True]. *)
Fixpoint upload_all (w : World) (output_spreadsheet_id : string)
         (tasks : list (DataFrame num * string)) (success : bool) (sent : list request)
  : bool * list request :=
  match tasks with
  | [] => (success, sent)
  | (df, sheet_name) :: tasks' =>
      let (uploaded, sent) := upload_df_to_gsheet w df output_spreadsheet_id sheet_name sent in
      upload_all w output_spreadsheet_id tasks' (if uploaded then success else false) sent
  end.

Definition CREDENTIALS_FILE : string := "credentials.json".

(** The value of a variable that is set. *)
Definition value (v : option string) : string :=
  match v with
  | Some s => s
  | None => ""
  end.

(** [main], with the calls that leave the process in a trace. *)
Definition main (w : World) : outcome * list event :=
  let source_spreadsheet_id := getenv w "SOURCE_SPREADSHEET_ID" in
  let output_spreadsheet_id := getenv w "OUTPUT_SPREADSHEET_ID" in
  if unset source_spreadsheet_id
  then (Raised "SOURCE_SPREADSHEET_ID environment variable not set", [])
  else if unset output_spreadsheet_id
  then (Raised "OUTPUT_SPREADSHEET_ID environment variable not set", [])
  else
    let source := value source_spreadsheet_id in
    let output := value output_spreadsheet_id in
    let trace := [Credentials CREDENTIALS_FILE] in
    if negb (credentials_found w CREDENTIALS_FILE)
    then (Raised "Failed to create credentials", trace)
    else
    let trace := trace ++ [Connect source] in
    if negb (spreadsheet_opens w source)
    then (Raised "Failed to connect to Google Sheets", trace)
    else
    let trace := trace ++ [Build] in
    if negb (service_builds w) then (RaisedByLibrary, trace)
    else
    let trace := trace ++ [Worksheet source SHEET_STOCK_INFLOW] in
    match read_worksheet_to_df (get_all_values w source SHEET_STOCK_INFLOW) with
    | DataProcessingError msg => (Raised msg, trace)
    | Ok stock_inflow_df =>
    let trace := trace ++ [Worksheet source SHEET_RELEASE] in
    match read_worksheet_to_df (get_all_values w source SHEET_RELEASE) with
    | DataProcessingError msg => (Raised msg, trace)
    | Ok release_df =>
    match process_sheets_data stock_inflow_df release_df with
    | DataProcessingError msg => (Raised msg, trace)
    | Ok (stock_inflow_df, release_df, summary_df) =>
        let upload_tasks :=
          [(stock_inflow_df, SHEET_STOCK_INFLOW_CLEAN);
           (release_df, SHEET_RELEASE_CLEAN);
           (summary_frame summary_df, SHEET_SUMMARY)] in
        let (success, sent) := upload_all w output upload_tasks true [] in
        let trace := trace ++ map Sent sent in
        if success then (Returned, trace)
        else (Raised "Failed to upload one or more datasets", trace)
    end end end.

(** * Vocabulary of the further statements *)

(** The labels [standardize_dataframe] gives to the columns of a sheet. *)
Definition final_labels (sheet : RawFrame) : list string :=
  map (fun l => if String.eqb l "weight_in_kg" then "weight" else l)
      (map canonical_label (labels sheet)).

(** The running balance after the given months, from the totals alone. *)
Definition net_flow (q : tracked) (months : list (SummaryRow num)) : num :=
  fold_left (fun acc r => sub (add acc (total_inflow q r)) (total_release q r))
            months zero.

(** The string does not start with white space. *)
Definition starts_clean (s : string) : Prop :=
  match s with
  | EmptyString => True
  | String c _ => Str.is_space c = false
  end.

(** The requests of a trace, in the order they were sent. *)
Fixpoint requests (trace : list event) : list request :=
  match trace with
  | [] => []
  | Sent r :: trace' => r :: requests trace'
  | _ :: trace' => requests trace'
  end.

Definition is_clear (r : request) : bool :=
  match r with Clear _ _ => true | Update _ _ _ => false end.

(** The service executed every one of the requests [new], sent after the
    requests [sent]. *)
Fixpoint accepted (w : World) (sent new : list request) : bool :=
  match new with
  | [] => true
  | r :: new' => service w sent r && accepted w (sent ++ [r]) new'
  end.

(** Every column of the frame has the height of the frame. *)
Definition table {C : Type} (df : list (string * list C)) : Prop :=
  Forall (fun lc => length (snd lc) = height df) df.

End Transport.

(** ** A concrete instance: integer quantities, three date formats *)

Module Example.

Fixpoint digits_value (acc : N) (s : string) : option N :=
  match s with
  | EmptyString => Some acc
  | String c s' =>
      match digit_value c with
      | Some d => digits_value (10 * acc + d) s'
      | None => None
      end
  end.

(** Decimal integers, with an optional minus sign. *)
Definition parse_Z (s : string) : option Z :=
  match s with
  | EmptyString => None
  | String "-" (String c s') =>
      option_map (fun n => Z.opp (Z.of_N n)) (digits_value 0 (String c s'))
  | _ => option_map Z.of_N (digits_value 0 s)
  end.

#[export] Instance Z_numeric : Numeric Z := {
  zero := 0%Z;
  add := Z.add;
  sub := Z.sub;
  to_number := parse_Z;
  add_zero_zero := eq_refl
}.

Definition month_of_lower (s : string) : option month_name :=
  find (fun m => String.eqb (Str.lower (month_abbr m)) s) all_months.

(** Day, separator, month, separator, year, each of fixed width. *)
Definition parse_d_b_Y (sep : ascii) (s : string) : parsed date :=
  match s with
  | String d1 (String d2 (String s1 (String m1 (String m2 (String m3
      (String s2 y)))))) =>
      if Ascii.eqb s1 sep && Ascii.eqb s2 sep && Nat.eqb (String.length y) 4 then
        match digits_value 0 (String d1 (String d2 EmptyString)),
              month_of_lower (String m1 (String m2 (String m3 EmptyString))),
              digits_value 0 y with
        | Some d, Some m, Some y => Parsed (mkDate y m d)
        | _, _, _ => Unparsed
        end
      else Unparsed
  | _ => Unparsed
  end.

Definition month_of_number (n : N) : option month_name :=
  find (fun m => N.eqb (month_number m) n) all_months.

Definition parse_d_m_y (s : string) : parsed date :=
  match s with
  | String d1 (String d2 (String "/" (String m1 (String m2 (String "/"
      (String y1 (String y2 EmptyString))))))) =>
      match digits_value 0 (String d1 (String d2 EmptyString)),
            option_map month_of_number
              (digits_value 0 (String m1 (String m2 EmptyString))),
            digits_value 0 (String y1 (String y2 EmptyString)) with
      | Some d, Some (Some m), Some y =>
          Parsed (mkDate (if (y <? 69)%N then 2000 + y else 1900 + y) m d)
      | _, _, _ => Unparsed
      end
  | _ => Unparsed
  end.

Definition parse_with (f : string) (c : cell Z) : parsed date :=
  match c with
  | Str "nan" => Null
  | Str s =>
      if String.eqb f "%d %b %Y" then parse_d_b_Y " " s
      else if String.eqb f "%d/%m/%y" then parse_d_m_y s
      else if String.eqb f "%d-%b-%Y" then parse_d_b_Y "-" s
      else Unparsed
  | _ => Unparsed
  end.

(** The lenient parser of the instance reads ISO dates only. *)
Definition parse_iso (c : cell Z) : parsed date :=
  match c with
  | Str "nan" => Null
  | Str (String y1 (String y2 (String y3 (String y4 (String "-" (String m1
      (String m2 (String "-" (String d1 (String d2 EmptyString)))))))))) =>
      match digits_value 0 (String y1 (String y2 (String y3 (String y4 EmptyString)))),
            option_map month_of_number
              (digits_value 0 (String m1 (String m2 EmptyString))),
            digits_value 0 (String d1 (String d2 EmptyString)) with
      | Some y, Some (Some m), Some d => Parsed (mkDate y m d)
      | _, _, _ => Unparsed
      end
  | _ => Unparsed
  end.

#[export] Instance Z_dates : DateParser Z := {
  to_datetime := parse_with;
  to_datetime_mixed := parse_iso
}.

(** The scenario of the specification. *)
Definition inflow_sheet : RawFrame :=
  [("Date", ["15 Jan 2024"]); ("Product Type", ["Whole Chicken"]);
   ("Quantity", ["100"]); ("Weight in kg", ["150"])].

Definition release_sheet : RawFrame :=
  [("Date", ["10 Feb 2024"]); ("Product", ["Whole Chicken"]);
   ("Quantity", ["30"]); ("Weight", ["45"])].

(** A sheet that carries both weight columns. *)
Definition both_weights_sheet : RawFrame :=
  [("Date", ["15 Jan 2024"]); ("Product Type", ["Whole Chicken"]);
   ("Quantity", ["100"]); ("Weight in kg", ["150"]);
   ("Weight at delivery", ["148"])].

(** A release sheet whose rows have no date. *)
Definition blank_release_sheet : RawFrame :=
  [("Date", [""; " "]); ("Product", ["Whole Chicken"; "Gizzard"]);
   ("Quantity", ["30"; "7"]); ("Weight", ["45"; "4"])].

(** A release sheet with the columns of a cleaned ledger, whose only row
    has no date. *)
Definition undated_release_sheet : RawFrame :=
  [("date", [""]); ("product", ["whole chicken"]);
   ("quantity", ["30"]); ("weight", ["45"]);
   ("month", ["feb"]); ("year_month", ["2024-Feb"])].

(** Two ledgers over four months, with both products, a gizzard release
    that carries a quantity, a product that merely contains a tracked name
    and a row without a date. *)
Definition inflow_book : RawFrame :=
  [("Date", ["05 Dec 2023"; "15 Jan 2024"; "20 Jan 2024"; "02 Apr 2024"]);
   ("Product Type", ["Whole Chicken"; "Whole Chicken"; "Gizzard"; "Chicken Gizzard"]);
   ("Quantity", ["40"; "100"; ""; "9"]);
   ("Weight in kg", ["60"; "150"; "12"; "5"])].

Definition release_book : RawFrame :=
  [("Date", ["10 Jan 2024"; "10 Feb 2024"; "11 Feb 2024"; " "]);
   ("Product", ["Whole Chicken"; "Whole Chicken"; "Gizzard"; "Whole Chicken"]);
   ("Quantity", ["30"; "20"; "7"; "1"]);
   ("Weight", ["45"; "30"; "4"; "2"])].

Definition inflow_ledger : DataFrame Z :=
  Eval vm_compute in
    match process_sheets_data inflow_book release_book with
    | Ok (inflow, _, _) => inflow
    | DataProcessingError _ => []
    end.

Definition release_ledger : DataFrame Z :=
  Eval vm_compute in
    match process_sheets_data inflow_book release_book with
    | Ok (_, release, _) => release
    | DataProcessingError _ => []
    end.

Definition summary : list (SummaryRow Z) :=
  Eval vm_compute in
    match process_sheets_data inflow_book release_book with
    | Ok (_, _, summary) => summary
    | DataProcessingError _ => []
    end.

(** The inflow ledger with another quantity and weight in the record of
    the untracked product. *)
Definition inflow_ledger' : DataFrame Z :=
  [("date", [Timestamp (mkDate 2023 Dec 5); Timestamp (mkDate 2024 Jan 15);
             Timestamp (mkDate 2024 Jan 20); Timestamp (mkDate 2024 Apr 2)]);
   ("product_type", [Str "whole chicken"; Str "whole chicken"; Str "gizzard";
                     Str "chicken gizzard"]);
   ("quantity", [Num 40%Z; Num 100%Z; NaN; Num 900%Z]);
   ("weight", [Num 60%Z; Num 150%Z; Num 12%Z; Num 500%Z]);
   ("month", [Str "dec"; Str "jan"; Str "jan"; Str "apr"]);
   ("year_month", [Str "2023-Dec"; Str "2024-Jan"; Str "2024-Jan"; Str "2024-Apr"])].

(** [str] of a number and of a timestamp, for the examples. *)
#[export] Instance Z_repr : Repr Z := {
  str_num := fun z => DecimalString.NilZero.string_of_int (Z.to_int z);
  str_timestamp := fun d => (strftime_Ymd d ++ " 00:00:00")%string
}.

(** The release sheet of the scenario once standardized, and once its
    dates are parsed. *)
Definition release_standardized : DataFrame Z :=
  Eval vm_compute in
    match standardize_dataframe release_sheet with
    | Ok df => df
    | DataProcessingError _ => []
    end.

Definition release_dated : DataFrame Z :=
  Eval vm_compute in
    match standardize_dates release_standardized with
    | Ok df => df
    | DataProcessingError _ => []
    end.

(** A release sheet that records weights only. *)
Definition release_by_weight : RawFrame :=
  [("Date", ["10 Feb 2024"; "11 Feb 2024"]); ("Product", ["Whole Chicken"; "Gizzard"]);
   ("Weight", ["45"; "4"])].

Definition inflow_table : DataFrame Z :=
  Eval vm_compute in
    match process_sheets_data inflow_sheet release_by_weight with
    | Ok (inflow, _, _) => inflow
    | DataProcessingError _ => []
    end.

Definition release_table : DataFrame Z :=
  Eval vm_compute in
    match process_sheets_data inflow_sheet release_by_weight with
    | Ok (_, release, _) => release
    | DataProcessingError _ => []
    end.

Definition summary_by_weight : list (SummaryRow Z) :=
  Eval vm_compute in
    match process_sheets_data inflow_sheet release_by_weight with
    | Ok (_, _, summary) => summary
    | DataProcessingError _ => []
    end.

(** The two worksheets of the scenario as the service delivers them. *)
Definition inflow_values : list (list string) :=
  [["Date"; "Product Type"; "Quantity"; "Weight in kg"];
   ["15 Jan 2024"; "Whole Chicken"; "100"; "150"]].

Definition release_values : list (list string) :=
  [["Date"; "Product"; "Quantity"; "Weight"];
   ["10 Feb 2024"; "Whole Chicken"; "30"; "45"]].

(** A run in which everything outside the program works, except that the
    service may refuse the requests for one output sheet. *)
Definition office (refused_range : string) : World := {|
  getenv := fun name =>
    if String.eqb name "SOURCE_SPREADSHEET_ID" then Some "ledgers"
    else if String.eqb name "OUTPUT_SPREADSHEET_ID" then Some "reports"
    else None;
  credentials_found := fun _ => true;
  spreadsheet_opens := fun _ => true;
  service_builds := true;
  get_all_values := fun _ worksheet_name =>
    if String.eqb worksheet_name SHEET_STOCK_INFLOW then Some inflow_values
    else if String.eqb worksheet_name SHEET_RELEASE then Some release_values
    else None;
  service := fun _ r =>
    match r with
    | Clear _ range => negb (String.eqb range refused_range)
    | Update _ _ _ => true
    end
|}.

(** A run without the output spreadsheet id. *)
Definition unconfigured : World := {|
  getenv := fun name =>
    if String.eqb name "SOURCE_SPREADSHEET_ID" then Some "ledgers" else None;
  credentials_found := fun _ => true;
  spreadsheet_opens := fun _ => true;
  service_builds := true;
  get_all_values := fun _ _ => None;
  service := fun _ _ => true
|}.

End Example.

(** * Properties *)

Ltac inv_bind H :=
  repeat match type of H with
  | bind ?m _ = Some _ =>
      let E := fresh "E" in destruct m eqn:E; simpl in H; [ | discriminate H ]
  end.

Section Properties.

Context {num : Type} {numeric : Numeric num} {date_parser : DateParser num}.

Local Abbreviation cell := (cell num).
Local Abbreviation column := (column num).
Local Abbreviation DataFrame := (DataFrame num).
Local Abbreviation SummaryRow := (SummaryRow num).
Local Abbreviation WorkRow := (WorkRow num).
Local Abbreviation Series := (Series num).

(** ** Generic facts *)

Lemma try_except_ok (A : Type) (msg : string) (body : option A) (a : A) :
  try_except msg body = Ok a <-> body = Some a.
Proof.
  destruct body; simpl; split; intros H; inversion H; reflexivity.
Qed.

Lemma call_some (A : Type) (r : result A) (a : A) :
  call r = Some a <-> r = Ok a.
Proof.
  destruct r; simpl; split; intros H; inversion H; reflexivity.
Qed.

Lemma traverse_Forall2 (A B : Type) (f : A -> option B) (l : list A) (l' : list B) :
  traverse f l = Some l' -> Forall2 (fun a b => f a = Some b) l l'.
Proof.
  revert l'; induction l as [ | a l IH ]; simpl; intros l' H.
  - inversion H; constructor.
  - inv_bind H. inversion H; subst. constructor; auto.
Qed.

Lemma Forall2_traverse (A B : Type) (f : A -> option B) (l : list A) (l' : list B) :
  Forall2 (fun a b => f a = Some b) l l' -> traverse f l = Some l'.
Proof.
  induction 1 as [ | a b l l' Hab _ IH ]; simpl; [ reflexivity | ].
  rewrite Hab; simpl. rewrite IH; reflexivity.
Qed.

Lemma traverse_ext (A B : Type) (f g : A -> option B) (l : list A) :
  (forall a, In a l -> f a = g a) -> traverse f l = traverse g l.
Proof.
  induction l as [ | a l IH ]; simpl; intros H; [ reflexivity | ].
  rewrite (H a) by auto. rewrite IH by auto. reflexivity.
Qed.

(** ** Column coercion *)

Lemma to_numeric_cell_spec (s : string) (c : cell) :
  to_numeric_cell (prepared s) = Some c -> numeric_cell s c /\ coerces s.
Proof.
  unfold to_numeric_cell, numeric_cell, coerces.
  destruct (String.eqb_spec (prepared s) "") as [E | E].
  - intros H; inversion H. split; [ left; auto | congruence ].
  - destruct (to_number (prepared s)) as [x | ]; intros H; inversion H.
    split; [ right; split; [ assumption | exists x; auto ] | discriminate ].
Qed.

Lemma to_numeric_cell_none (s : string) :
  to_numeric_cell (prepared s) = None -> ~ coerces s.
Proof.
  unfold to_numeric_cell, coerces.
  destruct (String.eqb_spec (prepared s) "") as [E | E]; [ discriminate | ].
  destruct (to_number (prepared s)); [ discriminate | ].
  intros _ H. apply (H E). reflexivity.
Qed.

Lemma to_numeric_some (l : list string) (cs : column) :
  to_numeric (map prepared l) = Some cs ->
  Forall2 numeric_cell l cs /\ Forall coerces l.
Proof.
  revert cs; induction l as [ | s l IH ]; simpl; intros cs H.
  - inversion H; split; constructor.
  - inv_bind H. inversion H; subst.
    destruct (to_numeric_cell_spec _ E) as [Hc Hs].
    destruct (IH _ eq_refl) as [H1 H2].
    split; constructor; assumption.
Qed.

Lemma to_numeric_none (l : list string) :
  to_numeric (map prepared l) = None -> Exists (fun s => ~ coerces s) l.
Proof.
  induction l as [ | s l IH ]; simpl; intros H; [ discriminate | ].
  destruct (to_numeric_cell (prepared s)) eqn:E; simpl in H.
  - destruct (to_numeric (map prepared l)); simpl in H; [ discriminate | ].
    right; apply IH; reflexivity.
  - left. apply to_numeric_cell_none; assumption.
Qed.

Lemma numeric_cell_is_numeric (l : list string) (cs : column) :
  Forall2 numeric_cell l cs -> forallb is_numeric cs = true.
Proof.
  induction 1 as [ | s c l cs Hc _ IH ]; simpl; [ reflexivity | ].
  rewrite IH, andb_true_r.
  destruct Hc as [[_ ->] | [_ [x [_ ->]]]]; reflexivity.
Qed.

Lemma standardize_column_spec (raw : list string) :
  coercion_all_or_nothing raw (standardize_column raw).
Proof.
  unfold coercion_all_or_nothing, standardize_column.
  destruct (to_numeric (map prepared (map clean raw))) as [cs | ] eqn:E.
  - destruct (to_numeric_some _ E) as [H1 H2].
    split; [ | split ]; auto.
    + split; auto. intros _. eapply numeric_cell_is_numeric; eassumption.
    + intros H; contradiction.
  - pose proof (to_numeric_none _ E) as Hex.
    assert (Hno : ~ Forall coerces (map clean raw)).
    { intros Hall. apply Exists_exists in Hex. destruct Hex as [s [Hin Hs]].
      rewrite Forall_forall in Hall. apply Hs, Hall, Hin. }
    split; [ | split ]; auto.
    + split; [ | intros H; contradiction ].
      intros Hnum. exfalso.
      apply Exists_exists in Hex. destruct Hex as [s [Hin _]].
      destruct (map clean raw) as [ | s0 l ]; [ destruct Hin | ].
      simpl in Hnum. discriminate.
    + intros H; contradiction.
Qed.

Lemma standardize_dataframe_columns (raw : RawFrame) (df : DataFrame) :
  standardize_dataframe raw = Ok df ->
  Forall2 (fun rc lc => snd lc = standardize_column (snd rc)) raw df.
Proof.
  unfold standardize_dataframe. rewrite try_except_ok.
  set (df0 := map (fun lc => (canonical_label (fst lc), snd lc)) raw).
  assert (H0 : Forall2 (fun rc lc => snd lc = snd rc) raw df0).
  { subst df0. induction raw; simpl; constructor; auto. }
  set (df1 := if has_label "weight_in_kg" df0 then _ else df0).
  assert (H1 : Forall2 (fun rc lc => snd lc = snd rc) raw df1).
  { subst df1. destruct (has_label "weight_in_kg" df0); [ | assumption ].
    unfold rename. clear -H0. induction H0; simpl; constructor; auto. }
  destruct (unique (labels df1)); [ | discriminate ].
  intros H; inversion H; subst df. clear -H1.
  induction H1; simpl; constructor; auto.
  simpl. congruence.
Qed.

(** C6. Column coercion is all-or-nothing and ignores empty cells: in the
    frame returned by [standardize_dataframe], a column is numeric if and
    only if every value of the sheet column that is non-empty after
    trimming, lower-casing and comma stripping coerces to a number; it
    then holds NaN for the empty cells and the number for the others, and
    otherwise it holds the trimmed, lower-cased text of every cell. *)
Theorem column_coercion_all_or_nothing (raw : RawFrame) (df : DataFrame) :
  standardize_dataframe raw = Ok df ->
  Forall2 (fun rc lc => coercion_all_or_nothing (snd rc) (snd lc)) raw df.
Proof.
  intros H. apply standardize_dataframe_columns in H.
  induction H as [ | rc lc raw' df' Hc _ IH ]; constructor; auto.
  rewrite Hc. apply standardize_column_spec.
Qed.

(** ** Columns of a frame *)

Lemma get_col_filter (l : string) (df : DataFrame) (c : column) :
  get_col l df = Some c <-> filter (bears l) df = [(l, c)].
Proof.
  unfold get_col.
  pose proof (fun x => proj1 (filter_In (bears l) x df)) as Hin.
  destruct (filter (bears l) df) as [ | [l' c'] t ].
  - split; discriminate.
  - destruct (Hin (l', c') (or_introl eq_refl)) as [_ Hl].
    unfold bears in Hl; simpl in Hl. apply String.eqb_eq in Hl. subst l'.
    destruct t; split; intros H; inversion H; reflexivity.
Qed.

Lemma get_col_In (l : string) (df : DataFrame) (c : column) :
  get_col l df = Some c -> In (l, c) df.
Proof.
  intros H. apply get_col_filter in H.
  assert (Hin : In (l, c) (filter (bears l) df)) by (rewrite H; left; reflexivity).
  apply filter_In in Hin. tauto.
Qed.

Lemma has_label_false (l : string) (df : DataFrame) :
  has_label l df = false <-> filter (bears l) df = [].
Proof.
  unfold has_label, labels. induction df as [ | [l' c] df IH ]; simpl.
  - tauto.
  - unfold bears at 1; simpl. rewrite (String.eqb_sym l l').
    destruct (String.eqb l' l); simpl; [ split; discriminate | exact IH ].
Qed.

Lemma get_col_has_label (l : string) (df : DataFrame) (c : column) :
  get_col l df = Some c -> has_label l df = true.
Proof.
  intros H. apply get_col_filter in H.
  destruct (has_label l df) eqn:E; [ reflexivity | ].
  apply has_label_false in E. congruence.
Qed.

Lemma filter_bears_map (l : string) (g : string * column -> string * column)
      (df : DataFrame) :
  (forall lc, fst (g lc) = fst lc) ->
  filter (bears l) (map g df) = map g (filter (bears l) df).
Proof.
  intros Hg. induction df as [ | lc df IH ]; simpl; [ reflexivity | ].
  assert (E : bears l (g lc) = bears l lc) by (unfold bears; rewrite Hg; reflexivity).
  rewrite E. destruct (bears l lc); simpl; rewrite IH; reflexivity.
Qed.

Lemma get_col_map (l : string) (g : string * column -> string * column)
      (df : DataFrame) (c : column) :
  (forall lc, fst (g lc) = fst lc) ->
  get_col l df = Some c -> get_col l (map g df) = Some (snd (g (l, c))).
Proof.
  intros Hg H. apply get_col_filter in H. apply get_col_filter.
  rewrite filter_bears_map, H by assumption. simpl.
  rewrite (surjective_pairing (g (l, c))) at 1. rewrite Hg. reflexivity.
Qed.

Lemma get_col_map_none (l : string) (g : string * column -> string * column)
      (df : DataFrame) :
  (forall lc, fst (g lc) = fst lc) ->
  get_col l df = None -> get_col l (map g df) = None.
Proof.
  intros Hg. unfold get_col.
  rewrite filter_bears_map by assumption.
  destruct (filter (bears l) df) as [ | [l' c'] t ]; simpl; [ reflexivity | ].
  destruct t as [ | y t ]; simpl; [ discriminate | ].
  intros _. destruct (g (l', c')); reflexivity.
Qed.

Lemma get_col_set_col_same (l : string) (c old : column) (df : DataFrame) :
  get_col l df = Some old -> get_col l (set_col l c df) = Some c.
Proof.
  intros H. unfold set_col. rewrite (get_col_has_label _ _ H).
  erewrite get_col_map; [ | | eassumption ].
  - simpl. rewrite String.eqb_refl. reflexivity.
  - intros lc. destruct (String.eqb (fst lc) l); reflexivity.
Qed.

Lemma filter_bears_set_col_other (l l' : string) (c : column) (df : DataFrame) :
  l <> l' -> filter (bears l) (set_col l' c df) = filter (bears l) df.
Proof.
  intros Hne. unfold set_col. destruct (has_label l' df).
  - induction df as [ | lc df IH ]; simpl; [ reflexivity | ].
    destruct (String.eqb_spec (fst lc) l') as [E | E].
    + assert (E1 : bears l (fst lc, c) = false).
      { unfold bears; simpl. rewrite E. apply String.eqb_neq. congruence. }
      assert (E2 : bears l lc = false).
      { unfold bears. rewrite E. apply String.eqb_neq. congruence. }
      rewrite E1, E2. exact IH.
    + destruct (bears l lc); rewrite IH; reflexivity.
  - rewrite filter_app. simpl.
    assert (E1 : bears l (l', c) = false).
    { unfold bears; simpl. apply String.eqb_neq. congruence. }
    rewrite E1. apply app_nil_r.
Qed.

Lemma get_col_set_col_other (l l' : string) (c : column) (df : DataFrame) :
  l <> l' -> get_col l (set_col l' c df) = get_col l df.
Proof.
  intros Hne. unfold get_col.
  rewrite filter_bears_set_col_other by assumption. reflexivity.
Qed.

(** ** The delivery weight *)

Lemma filter_rename (old new : string) (df : DataFrame) :
  filter (bears new) (rename old new df) =
  rename old new (filter (fun lc => bears new lc || bears old lc) df).
Proof.
  induction df as [ | [l c] df IH ]; simpl; [ reflexivity | ].
  unfold bears in *; simpl.
  destruct (String.eqb_spec l old) as [E | E]; simpl.
  - rewrite String.eqb_refl, orb_true_r. simpl.
    destruct (String.eqb_spec l old); [ | contradiction ]. rewrite IH; reflexivity.
  - rewrite orb_false_r. destruct (String.eqb l new); simpl; rewrite IH; [ | reflexivity ].
    destruct (String.eqb_spec l old); [ contradiction | reflexivity ].
Qed.

Lemma filter_either (old new : string) (df : DataFrame) :
  old <> new ->
  length (filter (fun lc => bears new lc || bears old lc) df) =
  length (filter (bears new) df) + length (filter (bears old) df).
Proof.
  intros Hne. induction df as [ | [l c] df IH ]; simpl; [ reflexivity | ].
  unfold bears in *; simpl.
  destruct (String.eqb_spec l new); destruct (String.eqb_spec l old); simpl;
    try congruence; rewrite IH; lia.
Qed.

Lemma rename_length (old new : string) (df : DataFrame) :
  length (rename old new df) = length df.
Proof. unfold rename. apply length_map. Qed.

Lemma rename_columns (old new : string) (df : DataFrame) :
  map snd (rename old new df) = map snd df.
Proof.
  unfold rename. rewrite map_map. reflexivity.
Qed.

(** The rename of the delivery weight only relabels.  The delivery weight
    bears the label [weight] after the generic rename, and every column
    keeps its cells.  When the sheet has no generic weight column the
    delivery weight is then the weight column; when it has one, both
    columns bear the label [weight], each with its own cells, and no
    single weight column is left. *)
Lemma delivery_weight_rename (raw : RawFrame) (df delivery : DataFrame)
        (delivery_weight : column) :
  standardize_dataframe raw = Ok df ->
  get_col "weight_at_delivery" df = Some delivery_weight ->
  inflow_renamed raw = Some delivery ->
  delivery = rename "weight_at_delivery" "weight" df /\
  map snd delivery = map snd df /\
  In ("weight", delivery_weight) delivery /\
  (has_label "weight" df = false ->
   get_col "weight" delivery = Some delivery_weight) /\
  (forall generic_weight, get_col "weight" df = Some generic_weight ->
   In ("weight", generic_weight) delivery /\
   length (weight_columns delivery) = 2 /\
   get_col "weight" delivery = None).
Proof.
  intros Hstd Hdel Hren.
  unfold inflow_renamed in Hren. rewrite Hstd in Hren. simpl in Hren.
  rewrite (get_col_has_label _ _ Hdel) in Hren. inversion Hren; subst delivery; clear Hren.
  split; [ reflexivity | ]. split; [ apply rename_columns | ].
  assert (Hw : filter (bears "weight") (rename "weight_at_delivery" "weight" df) =
               rename "weight_at_delivery" "weight"
                 (filter (fun lc => bears "weight" lc || bears "weight_at_delivery" lc) df))
    by apply filter_rename.
  split; [ | split ].
  - apply get_col_In in Hdel. unfold rename.
    apply in_map_iff. exists ("weight_at_delivery", delivery_weight). split; auto.
  - intros Hno. apply get_col_filter. rewrite Hw.
    apply has_label_false in Hno. apply get_col_filter in Hdel.
    replace (filter (fun lc => bears "weight" lc || bears "weight_at_delivery" lc) df)
      with (filter (bears "weight_at_delivery") df).
    + rewrite Hdel. reflexivity.
    + apply filter_ext_in. intros lc Hin.
      destruct (bears "weight" lc) eqn:E; [ | reflexivity ].
      assert (Hf : In lc (filter (bears "weight") df)) by (apply filter_In; auto).
      rewrite Hno in Hf. destruct Hf.
  - intros generic_weight Hgen.
    assert (Hlen : length (weight_columns (rename "weight_at_delivery" "weight" df)) = 2).
    { unfold weight_columns.
      rewrite Hw, rename_length, filter_either by discriminate.
      apply get_col_filter in Hgen. apply get_col_filter in Hdel.
      rewrite Hgen, Hdel. reflexivity. }
    split; [ | split ]; auto.
    + apply get_col_In in Hgen. unfold rename.
      apply in_map_iff. exists ("weight", generic_weight). split; auto.
    + unfold get_col. unfold weight_columns in Hlen.
      destruct (filter _ _) as [ | [l' c'] t ]; simpl in Hlen; [ reflexivity | ].
      destruct t; [ discriminate | reflexivity ].
Qed.

(** ** Date parsing *)

Lemma parse_column_some (p : cell -> parsed date) (c out : column) :
  parse_column p c = Some out <-> parsed_by p c out.
Proof.
  unfold parsed_by. revert out; induction c as [ | x c IH ]; simpl; intros out.
  - split; intros H; inversion H; (reflexivity || constructor).
  - destruct (p x) eqn:E.
    + split; intros H.
      * inv_bind H. inversion H; subst. constructor; [ rewrite E; reflexivity | ].
        apply IH; reflexivity.
      * inversion H as [ | ? y ? out' Hy Hrest ]; subst. rewrite E in Hy; subst y.
        apply IH in Hrest. rewrite Hrest. reflexivity.
    + split; intros H.
      * inv_bind H. inversion H; subst. constructor; [ rewrite E; reflexivity | ].
        apply IH; reflexivity.
      * inversion H as [ | ? y ? out' Hy Hrest ]; subst. rewrite E in Hy; subst y.
        apply IH in Hrest. rewrite Hrest. reflexivity.
    + split; intros H; [ discriminate | ].
      inversion H as [ | ? y ? out' Hy Hrest ]; subst. rewrite E in Hy. destruct Hy.
Qed.





Lemma try_formats_some (formats : list string) (c out : column) :
  try_formats formats c = Some out ->
  exists f, In f formats /\ parsed_by (to_datetime f) c out.
Proof.
  induction formats as [ | g l IH ]; simpl; [ discriminate | ].
  destruct (parse_column (to_datetime g) c) eqn:E.
  - intros H; inversion H; subst. exists g. split; [ auto | ].
    apply parse_column_some; assumption.
  - intros H. destruct (IH H) as [f [Hin Hf]]. exists f; auto.
Qed.


Lemma parse_dates_cells (c out : column) :
  parse_dates c = Some out ->
  Forall (fun y => y = NaT \/ exists d, y = Timestamp d) out.
Proof.
  assert (Hp : forall p, parsed_by p c out ->
               Forall (fun y => y = NaT \/ exists d, y = Timestamp d) out).
  { intros p H. induction H as [ | x y c' out' Hxy _ IH ]; constructor; auto.
    destruct (p x); [ right; eauto | left; assumption | destruct Hxy ]. }
  unfold parse_dates. destruct (try_formats DATE_FORMATS c) eqn:E.
  - intros H; inversion H; subst.
    destruct (try_formats_some _ _ E) as [f [_ Hf]]. eapply Hp; eassumption.
  - intros H. apply parse_column_some in H. eapply Hp; eassumption.
Qed.


(** ** The gizzard correction *)

Lemma gizzard_mask_some (c : column) (mask : list bool) :
  gizzard_mask c = Some mask -> mask = map is_gizzard c.
Proof.
  destruct c as [ | x c ]; simpl.
  - intros H; inversion H; reflexivity.
  - destruct (is_str x || existsb is_str c); intros H; inversion H; reflexivity.
Qed.

Lemma get_col_set_col_new (l : string) (c : column) (df : DataFrame) :
  has_label l df = false -> get_col l (set_col l c df) = Some c.
Proof.
  intros H. unfold set_col. rewrite H. apply get_col_filter.
  rewrite filter_app. apply has_label_false in H. rewrite H. simpl.
  unfold bears; simpl. rewrite String.eqb_refl. reflexivity.
Qed.

Lemma get_col_map_inv (l : string) (g : string * column -> string * column)
      (df : DataFrame) (c : column) :
  (forall lc, fst (g lc) = fst lc) ->
  get_col l (map g df) = Some c ->
  exists c0, get_col l df = Some c0 /\ c = snd (g (l, c0)).
Proof.
  intros Hg H. destruct (get_col l df) as [c0 | ] eqn:E.
  - exists c0. split; [ reflexivity | ].
    rewrite (get_col_map _ _ _ Hg E) in H. inversion H; reflexivity.
  - rewrite (get_col_map_none _ _ _ Hg E) in H. discriminate.
Qed.

Lemma assign_zeroes (products quantities : column) :
  Forall (fun pq => is_gizzard (fst pq) = true -> snd pq = Num zero)
         (combine products (assign (map is_gizzard products) (Num zero) quantities)).
Proof.
  revert quantities; induction products as [ | p products IH ]; intros quantities.
  - constructor.
  - destruct quantities as [ | q quantities ]; simpl; [ constructor | ].
    constructor; [ | apply IH ].
    simpl. destruct (is_gizzard p); [ reflexivity | discriminate ].
Qed.

Lemma fresh_zeroes (products : column) :
  Forall (fun pq => is_gizzard (fst pq) = true -> snd pq = Num zero)
         (combine products
            (map (fun b : bool => if b then Num zero else NaN) (map is_gizzard products))).
Proof.
  induction products as [ | p products IH ]; simpl; constructor; auto.
  simpl. destruct (is_gizzard p); [ reflexivity | discriminate ].
Qed.

Lemma zero_gizzard_quantity_spec (df out : DataFrame) (quantities : column) :
  zero_gizzard_quantity df = Some out ->
  get_col "quantity" out = Some quantities ->
  exists products,
    get_col "product" out = Some products /\
    Forall (fun pq => is_gizzard (fst pq) = true -> snd pq = Num zero)
           (combine products quantities).
Proof.
  unfold zero_gizzard_quantity. intros H Hq. inv_bind H.
  rename c into products. apply gizzard_mask_some in E0. subst l.
  exists products. unfold loc_assign in H.
  set (g := fun lc : string * column =>
              if String.eqb (fst lc) "quantity"
              then (fst lc, assign (map is_gizzard products) (Num zero) (snd lc))
              else lc) in H.
  assert (Hg : forall lc, fst (g lc) = fst lc).
  { intros lc. unfold g. destruct (String.eqb (fst lc) "quantity"); reflexivity. }
  destruct (has_label "quantity" df) eqn:Hl.
  - inversion H; subst out; clear H.
    destruct (get_col_map_inv _ _ _ Hg Hq) as [q0 [_ ->]].
    rewrite (get_col_map _ _ _ Hg E). split; [ reflexivity | ].
    unfold g; simpl. apply assign_zeroes.
  - destruct (Nat.eqb (nrows df) 0); [ discriminate | ].
    inversion H; subst out; clear H.
    assert (Hset : df ++ [("quantity",
                           map (fun b : bool => if b then Num zero else NaN)
                               (map is_gizzard products))] =
                   set_col "quantity"
                     (map (fun b : bool => if b then Num zero else NaN)
                          (map is_gizzard products)) df)
      by (unfold set_col; rewrite Hl; reflexivity).
    rewrite Hset in *.
    rewrite get_col_set_col_new in Hq by assumption. inversion Hq; subst quantities.
    rewrite get_col_set_col_other by discriminate.
    split; [ assumption | apply fresh_zeroes ].
Qed.

Lemma select_Forall (A : Type) (P : A -> Prop) (mask : list bool) (l : list A) :
  Forall P l -> Forall P (select mask l).
Proof.
  intros H. revert mask. induction H as [ | x l Hx _ IH ]; intros mask.
  - destruct mask; constructor.
  - destruct mask as [ | [ | ] mask ]; simpl; [ constructor | constructor; auto | auto ].
Qed.

Lemma sum_zeroes (cells : column) :
  Forall (fun c => c = Num zero) cells -> sum_skipna cells = Some zero.
Proof.
  unfold sum_skipna. induction 1 as [ | c cells -> _ IH ]; simpl; [ reflexivity | ].
  rewrite add_zero_zero. exact IH.
Qed.

Lemma select_gizzard_zero (products quantities : column) :
  Forall (fun pq => is_gizzard (fst pq) = true -> snd pq = Num zero)
         (combine products quantities) ->
  Forall (fun c => c = Num zero) (select (map is_gizzard products) quantities).
Proof.
  revert quantities; induction products as [ | p products IH ]; intros quantities H.
  - constructor.
  - destruct quantities as [ | q quantities ]; simpl in *; [ constructor | ].
    inversion H as [ | ? ? Hpq Hrest ]; subst. simpl in Hpq.
    destruct (is_gizzard p); [ constructor | ]; auto.
Qed.

Lemma traverse_In (A B : Type) (f : A -> option B) (l : list A) (l' : list B) (a : A) :
  traverse f l = Some l' -> In a l -> exists b, f a = Some b /\ In b l'.
Proof.
  intros H. apply traverse_Forall2 in H.
  induction H as [ | x y l l' Hxy _ IH ]; intros Hin; [ destruct Hin | ].
  destruct Hin as [-> | Hin].
  - exists y. split; [ assumption | left; reflexivity ].
  - destruct (IH Hin) as [b [Hb Hin']]. exists b. split; [ assumption | right; assumption ].
Qed.

Lemma get_col_filter_rows (l : string) (mask : list bool) (df : DataFrame) :
  get_col l (filter_rows mask df) = option_map (select mask) (get_col l df).
Proof.
  unfold filter_rows. destruct (get_col l df) as [c | ] eqn:E; simpl.
  - erewrite get_col_map; [ reflexivity | reflexivity | eassumption ].
  - apply get_col_map_none; [ reflexivity | assumption ].
Qed.

Lemma product_summary_needs (df : DataFrame) (product_label product m : string)
      (metrics : list string) (ps : list (string * Series)) :
  product_summary df product_label product metrics = Some ps ->
  In m metrics ->
  exists c, get_col m df = Some c.
Proof.
  unfold product_summary. intros H Hin. inv_bind H.
  unfold groupby_sum in H. inv_bind H.
  destruct (traverse_In _ _ m H Hin) as [b [Hb _]].
  destruct (get_col m df) as [c1 | ] eqn:Em; [ eauto | exfalso ].
  rewrite get_col_filter_rows, Em in Hb. discriminate.
Qed.

Lemma create_summary_needs (l : string) (inflow release : DataFrame)
      (s : list SummaryRow) :
  create_summary_df inflow release = Ok s ->
  l = "quantity" \/ l = "weight" ->
  exists c, get_col l release = Some c.
Proof.
  intros H Hl. unfold create_summary_df in H. apply try_except_ok in H.
  inv_bind H. clear H.
  match goal with
  | Hps : product_summaries_of _ _ = Some _ |- _ =>
      unfold product_summaries_of in Hps; inv_bind Hps
  end.
  match goal with
  | Hps : product_summary release "product" WHOLE_CHICKEN _ = Some _ |- _ =>
      apply (product_summary_needs _ _ _ l _ Hps)
  end.
  simpl. destruct Hl; auto.
Qed.

(** C4. Gizzard quantity suppression: in the release table returned by
    [process_sheets_data], from which the summary is computed, every record
    whose product contains the gizzard product name, whatever the letter
    case, has the quantity 0; so the quantities of any selection of such
    records sum to 0, whatever the sheet held. *)
Theorem gizzard_quantity_suppression (inflow_sheet release_sheet : RawFrame)
        (inflow release : DataFrame) (summary : list SummaryRow) :
  process_sheets_data inflow_sheet release_sheet = Ok (inflow, release, summary) ->
  create_summary_df inflow release = Ok summary /\
  exists products quantities,
    get_col "product" release = Some products /\
    get_col "quantity" release = Some quantities /\
    Forall (fun pq => forall p, fst pq = Str p ->
                      Str.contains_nocase GIZZARD p = true -> snd pq = Num zero)
           (combine products quantities) /\
    forall mask,
      sum_skipna (select mask (select (map is_gizzard products) quantities)) = Some zero.
Proof.
  unfold process_sheets_data. rewrite try_except_ok. intros H.
  inv_bind H. inversion H; subst; clear H.
  apply call_some in E6. split; [ assumption | ].
  destruct (create_summary_needs _ _ E6 (or_introl eq_refl)) as [quantities Hq].
  destruct (zero_gizzard_quantity_spec _ E5 Hq) as [products [Hp Hz]].
  exists products, quantities. split; [ assumption | ]. split; [ assumption | ]. split.
  - rewrite Forall_forall in *. intros pq Hin p Hfst Hgiz.
    apply (Hz pq Hin). rewrite Hfst. exact Hgiz.
  - intros mask. apply sum_zeroes, select_Forall, select_gizzard_zero. assumption.
Qed.

(** ** Bucket keys *)

Ltac div_mod := zify; Z.to_euclidean_division_equations; lia.

Lemma digit_value_inv (c : ascii) (n : N) :
  digit_value c = Some n -> (n < 10)%N /\ c = ascii_of_N (48 + n).
Proof.
  unfold digit_value.
  destruct ((48 <=? N_of_ascii c)%N && (N_of_ascii c <=? 57)%N) eqn:E; [ | discriminate ].
  apply andb_prop in E. destruct E as [Hlo Hhi].
  apply N.leb_le in Hlo, Hhi.
  intros Hn; inversion Hn; subst n. split; [ lia | ].
  replace (48 + (N_of_ascii c - 48))%N with (N_of_ascii c) by lia.
  symmetry. apply ascii_N_embedding.
Qed.

Lemma digit_value_digit (n : N) : digit_value (digit n) = Some (n mod 10)%N.
Proof.
  unfold digit_value, digit.
  rewrite N_ascii_embedding by div_mod.
  assert (E : ((48 <=? 48 + n mod 10)%N && (48 + n mod 10 <=? 57)%N) = true).
  { apply andb_true_intro. split; apply N.leb_le; div_mod. }
  rewrite E. f_equal. div_mod.
Qed.

Lemma month_of_abbr_inv (s : string) (m : month_name) :
  month_of_abbr s = Some m -> s = month_abbr m.
Proof.
  unfold month_of_abbr. intros H. apply find_some in H.
  destruct H as [_ H]. apply String.eqb_eq in H. auto.
Qed.

Lemma strftime_Y_digits (na nb nc ne : N) :
  (na < 10)%N -> (nb < 10)%N -> (nc < 10)%N -> (ne < 10)%N ->
  strftime_Y (1000 * na + 100 * nb + 10 * nc + ne) =
  String (ascii_of_N (48 + na)) (String (ascii_of_N (48 + nb))
    (String (ascii_of_N (48 + nc)) (String (ascii_of_N (48 + ne)) EmptyString))).
Proof.
  intros Ha Hb Hc He. unfold strftime_Y.
  set (y := (1000 * na + 100 * nb + 10 * nc + ne)%N).
  destruct (N.ltb_spec y 10000) as [Hy | Hy]; [ | subst y; lia ].
  unfold digit.
  replace ((y / 1000) mod 10)%N with na by (subst y; div_mod).
  replace ((y / 100) mod 10)%N with nb by (subst y; div_mod).
  replace ((y / 10) mod 10)%N with nc by (subst y; div_mod).
  replace (y mod 10)%N with ne by (subst y; div_mod).
  reflexivity.
Qed.

Lemma strptime_Yb_inv (s : string) (d : year_month_t) :
  strptime_Yb s = Some d -> s = strftime_Yb d /\ (fst d < 10000)%N.
Proof.
  unfold strptime_Yb.
  destruct s as [ | a [ | b [ | c [ | e [ | h rest ] ] ] ] ]; try discriminate.
  destruct (Ascii.eqb_spec h "-"%char) as [-> | Hne].
  2:{ destruct h as [[ | ] [ | ] [ | ] [ | ] [ | ] [ | ] [ | ] [ | ]];
      try discriminate; contradiction. }
  destruct (digit_value a) as [na | ] eqn:Ea; [ | discriminate ].
  destruct (digit_value b) as [nb | ] eqn:Eb; [ | discriminate ].
  destruct (digit_value c) as [nc | ] eqn:Ec; [ | discriminate ].
  destruct (digit_value e) as [ne | ] eqn:Ee; [ | discriminate ].
  destruct (month_of_abbr rest) as [m | ] eqn:Em; [ | discriminate ].
  intros H. apply (f_equal (fun o => match o with Some x => x | None => d end)) in H.
  subst d.
  apply digit_value_inv in Ea, Eb, Ec, Ee.
  destruct Ea as [Ha ->], Eb as [Hb ->], Ec as [Hc ->], Ee as [He ->].
  apply month_of_abbr_inv in Em. subst rest.
  unfold strftime_Yb. cbn [fst snd].
  rewrite strftime_Y_digits by assumption.
  split; [ reflexivity | lia ].
Qed.

Lemma strptime_Yb_inj (s s' : string) (d : year_month_t) :
  strptime_Yb s = Some d -> strptime_Yb s' = Some d -> s = s'.
Proof.
  intros H H'. apply strptime_Yb_inv in H, H'. destruct H, H'. congruence.
Qed.

Lemma rank_inj (a b : year_month_t) : rank a = rank b -> a = b.
Proof.
  destruct a as [ya ma], b as [yb mb]. unfold rank. cbn [fst snd]. intros H.
  assert (Hy : ya = yb) by (destruct ma, mb; cbn [month_number] in H; lia).
  subst yb. f_equal. destruct ma, mb; cbn [month_number] in H; (reflexivity || lia).
Qed.

(** ** Sorting *)

Lemma insert_perm (A : Type) (leb : A -> A -> bool) (x : A) (l : list A) :
  Permutation (insert leb x l) (x :: l).
Proof.
  induction l as [ | y l IH ]; simpl; [ reflexivity | ].
  destruct (leb x y); [ reflexivity | ].
  rewrite IH. apply perm_swap.
Qed.

Lemma sort_perm (A : Type) (leb : A -> A -> bool) (l : list A) :
  Permutation (sort leb l) l.
Proof.
  unfold sort. induction l as [ | x l IH ]; simpl; [ reflexivity | ].
  rewrite insert_perm. constructor. exact IH.
Qed.

Lemma insert_last (A : Type) (leb : A -> A -> bool) (x : A) (l : list A) :
  Forall (fun y => leb x y = false) l -> insert leb x l = l ++ [x].
Proof.
  induction 1 as [ | y l Hy _ IH ]; simpl; [ reflexivity | ].
  rewrite Hy, IH. reflexivity.
Qed.

(** Sorting a list that is strictly sorted the other way reverses it. *)
Lemma sort_rev (A : Type) (leb : A -> A -> bool) (l : list A) :
  StronglySorted (fun a b => leb a b = false) l -> sort leb l = rev l.
Proof.
  unfold sort. induction 1 as [ | x l _ IH Hx ]; simpl; [ reflexivity | ].
  rewrite IH. apply insert_last.
  apply Forall_forall. intros y Hy. apply in_rev in Hy.
  rewrite Forall_forall in Hx. auto.
Qed.

Lemma insert_sorted (A : Type) (key : A -> N) (x : A) (l : list A) :
  ~ In (key x) (map key l) ->
  StronglySorted (fun a b => (key a < key b)%N) l ->
  StronglySorted (fun a b => (key a < key b)%N)
                 (insert (fun a b => (key a <=? key b)%N) x l).
Proof.
  intros Hnew Hs. induction Hs as [ | y l Hs IH Hy ]; simpl.
  - repeat constructor.
  - destruct (N.leb_spec (key x) (key y)) as [Hle | Hgt].
    + assert (Hlt : (key x < key y)%N).
      { destruct (N.eq_dec (key x) (key y)) as [E | E]; [ | lia ].
        exfalso. apply Hnew. left. auto. }
      constructor; [ constructor; assumption | ].
      constructor; [ assumption | ].
      eapply Forall_impl; [ | exact Hy ]. intros z Hz. simpl in Hz. lia.
    + constructor.
      * apply IH. intros Hin. apply Hnew. right. assumption.
      * assert (Hp : Permutation (insert (fun a b => (key a <=? key b)%N) x l) (x :: l))
          by apply insert_perm.
        apply Forall_forall. intros z Hz.
        apply (Permutation_in _ Hp) in Hz. destruct Hz as [<- | Hz]; [ assumption | ].
        rewrite Forall_forall in Hy. auto.
Qed.

Lemma sort_sorted (A : Type) (key : A -> N) (l : list A) :
  NoDup (map key l) ->
  StronglySorted (fun a b => (key a < key b)%N)
                 (sort (fun a b => (key a <=? key b)%N) l).
Proof.
  unfold sort. induction l as [ | x l IH ]; simpl; intros Hnd.
  - constructor.
  - inversion Hnd as [ | ? ? Hx Hl ]; subst.
    apply insert_sorted; [ | apply IH; assumption ].
    intros Hin. apply Hx.
    eapply Permutation_in; [ | exact Hin ].
    apply Permutation_map. apply (sort_perm (fun a b => (key a <=? key b)%N) l).
Qed.

Lemma StronglySorted_rev (A : Type) (R : A -> A -> Prop) (l : list A) :
  StronglySorted R l -> StronglySorted (fun a b => R b a) (rev l).
Proof.
  induction 1 as [ | x l _ IH Hx ]; simpl; [ constructor | ].
  assert (Happ : forall l1 l2, StronglySorted (fun a b => R b a) l1 ->
                               StronglySorted (fun a b => R b a) l2 ->
                               (forall a b, In a l1 -> In b l2 -> R b a) ->
                               StronglySorted (fun a b => R b a) (l1 ++ l2)).
  { intros l1 l2 H1 H2 H12. induction H1 as [ | a l1 _ IH1 Ha ]; simpl; [ assumption | ].
    constructor.
    - apply IH1. intros; apply H12; [ right | ]; assumption.
    - apply Forall_app. split; [ assumption | ].
      apply Forall_forall. intros b Hb. apply H12; [ left; reflexivity | assumption ]. }
  apply Happ; [ assumption | repeat constructor | ].
  intros a b Ha [<- | []]. apply in_rev in Ha.
  rewrite Forall_forall in Hx. auto.
Qed.

(** ** The balance loop *)

Lemma set_iloc_length (i : nat) (f : SummaryRow -> SummaryRow) (df : list WorkRow) :
  length (set_iloc i f df) = length df.
Proof.
  revert i; induction df as [ | [d r] df IH ]; intros [ | i ]; simpl; auto.
Qed.

Lemma set_iloc_same (i : nat) (f : SummaryRow -> SummaryRow) (df : list WorkRow)
      (d : year_month_t) (r : SummaryRow) :
  nth_error df i = Some (d, r) -> nth_error (set_iloc i f df) i = Some (d, f r).
Proof.
  revert i; induction df as [ | [d0 r0] df IH ]; intros [ | i ]; simpl; try discriminate.
  - intros H; inversion H; reflexivity.
  - apply IH.
Qed.

Lemma set_iloc_other (i j : nat) (f : SummaryRow -> SummaryRow) (df : list WorkRow) :
  i <> j -> nth_error (set_iloc i f df) j = nth_error df j.
Proof.
  revert i j; induction df as [ | [d0 r0] df IH ]; intros [ | i ] [ | j ] H; simpl;
    try reflexivity; try contradiction.
  apply IH. congruence.
Qed.

Lemma same_totals_refl (r : SummaryRow) : same_totals r r.
Proof. unfold same_totals; repeat split. Qed.

Lemma same_totals_trans (a b c : SummaryRow) :
  same_totals a b -> same_totals b c -> same_totals a c.
Proof. unfold same_totals. intuition congruence. Qed.

Lemma balance_step_length (df : list WorkRow) (i : nat) :
  length (balance_step df i) = length df.
Proof.
  unfold balance_step. rewrite set_iloc_length.
  destruct (Nat.eqb i 0); [ apply set_iloc_length | ].
  destruct (nth_error df (i - 1)) as [[d prev] | ]; [ apply set_iloc_length | reflexivity ].
Qed.

Lemma balance_step_other (df : list WorkRow) (i j : nat) :
  i <> j -> nth_error (balance_step df i) j = nth_error df j.
Proof.
  intros H. unfold balance_step. rewrite set_iloc_other by assumption.
  destruct (Nat.eqb i 0); [ apply set_iloc_other; assumption | ].
  destruct (nth_error df (i - 1)) as [[d prev] | ]; [ | reflexivity ].
  apply set_iloc_other; assumption.
Qed.

Lemma balance_step_same (df : list WorkRow) (i : nat) (d : year_month_t)
      (r : SummaryRow) :
  nth_error df i = Some (d, r) ->
  exists r',
    nth_error (balance_step df i) i = Some (d, r') /\
    same_totals r r' /\ balanced r' /\
    (i = 0 -> opens_at_zero r') /\
    (forall j d' prev, i = S j -> nth_error df j = Some (d', prev) -> carried prev r').
Proof.
  intros Hi. unfold balance_step. destruct i as [ | j ]; simpl Nat.eqb; cbv iota.
  - eexists. split.
    + apply set_iloc_same. apply set_iloc_same. exact Hi.
    + split; [ repeat split | ]. split; [ intros []; reflexivity | ].
      split; [ intros _ []; reflexivity | intros; discriminate ].
  - replace (S j - 1) with j by lia.
    destruct (nth_error df j) as [[d' prev] | ] eqn:Ej.
    + eexists. split.
      * apply set_iloc_same. apply set_iloc_same. exact Hi.
      * split; [ repeat split | ]. split; [ intros []; reflexivity | ].
        split; [ intros; discriminate | ].
        intros j0 d0 p Hj Hp. inversion Hj; subst j0.
        rewrite Ej in Hp. inversion Hp; subst. intros []; reflexivity.
    + exfalso. apply nth_error_None in Ej.
      assert (Hlt : S j < length df) by (apply nth_error_Some; congruence). lia.
Qed.

Lemma balances_done_step (n : nat) (df cur : list WorkRow) :
  n < length df ->
  balances_done n df cur -> balances_done (S n) df (balance_step cur n).
Proof.
  intros Hn [Hlen [Htot Hdone]].
  assert (Hcur : exists d r, nth_error cur n = Some (d, r)).
  { destruct (nth_error cur n) as [[d r] | ] eqn:E; [ eauto | ].
    apply nth_error_None in E. lia. }
  destruct Hcur as [d [r Hr]].
  destruct (balance_step_same _ _ Hr) as [r' [Hr' [Hsame [Hbal [Hzero Hcarry]]]]].
  split; [ rewrite balance_step_length; assumption | ]. split.
  - intros j d0 r0 Hj. destruct (Htot _ _ _ Hj) as [r1 [Hr1 Hs1]].
    destruct (Nat.eq_dec n j) as [-> | Hne].
    + rewrite Hr in Hr1. inversion Hr1; subst.
      exists r'. split; [ assumption | ]. eapply same_totals_trans; eassumption.
    + exists r1. rewrite balance_step_other by assumption. auto.
  - intros j d0 r0 Hj Hnth. destruct (Nat.eq_dec n j) as [<- | Hne].
    + rewrite Hr' in Hnth. inversion Hnth; subst.
      split; [ assumption | ]. split; [ assumption | ].
      intros i d1 prev Hi Hp. rewrite balance_step_other in Hp by lia.
      eapply Hcarry; eassumption.
    + rewrite balance_step_other in Hnth by assumption.
      destruct (Hdone j d0 r0) as [Hb [Hz Hc]]; [ lia | assumption | ].
      split; [ assumption | ]. split; [ assumption | ].
      intros i d1 prev Hi Hp. rewrite balance_step_other in Hp by lia.
      eapply Hc; eassumption.
Qed.

Lemma balances_done_loop (n : nat) (df : list WorkRow) :
  n <= length df ->
  balances_done n df (fold_left balance_step (seq 0 n) df).
Proof.
  induction n as [ | n IH ]; intros Hn.
  - simpl. split; [ reflexivity | ]. split.
    + intros j d r Hj. exists r. split; [ assumption | apply same_totals_refl ].
    + intros; lia.
  - rewrite seq_S, fold_left_app. simpl.
    apply balances_done_step; [ lia | apply IH; lia ].
Qed.

Lemma running_balances_done (df : list WorkRow) :
  balances_done (length df) df (running_balances df).
Proof. apply balances_done_loop. apply le_n. Qed.

(** ** The structure of the summary *)

Lemma StronglySorted_map (A B : Type) (f : A -> B) (R : B -> B -> Prop) (l : list A) :
  StronglySorted (fun a b => R (f a) (f b)) l <-> StronglySorted R (map f l).
Proof.
  induction l as [ | x l IH ]; simpl.
  - split; constructor.
  - split; intros H; inversion H as [ | ? ? Hs Hx ]; subst; constructor;
      try (apply IH; assumption).
    + rewrite Forall_map. assumption.
    + rewrite Forall_map in Hx. assumption.
Qed.

Lemma StronglySorted_impl (A : Type) (R R' : A -> A -> Prop) (l : list A) :
  (forall a b, R a b -> R' a b) -> StronglySorted R l -> StronglySorted R' l.
Proof.
  intros HR. induction 1 as [ | x l _ IH Hx ]; constructor; auto.
  eapply Forall_impl; [ | exact Hx ]. auto.
Qed.

Lemma running_balances_dates (df : list WorkRow) :
  map fst (running_balances df) = map fst df.
Proof.
  destruct (running_balances_done df) as [Hlen [Htot _]].
  apply nth_error_ext. intros n. rewrite !nth_error_map.
  destruct (nth_error df n) as [[d r] | ] eqn:E.
  - destruct (Htot _ _ _ E) as [r' [Hr' _]].
    apply (f_equal (option_map fst)) in Hr'. apply (f_equal (option_map fst)) in E.
    etransitivity; [ exact Hr' | symmetry; exact E ].
  - pose proof E as E'. apply nth_error_None in E'. rewrite <- Hlen in E'.
    apply nth_error_None in E'.
    apply (f_equal (option_map fst)) in E'. apply (f_equal (option_map fst)) in E.
    etransitivity; [ exact E' | symmetry; exact E ].
Qed.

Lemma summary_row_spec (ps : list (string * list (string * Series))) (k : string)
      (d : year_month_t) (r : SummaryRow) :
  summary_row ps k = Some (d, r) ->
  strptime_Yb k = Some d /\
  year_month r = k /\
  month r = month_of_key k /\
  summary_column ps "chicken_inflow" "quantity" k = Some (total_chicken_inflow_quantity r) /\
  summary_column ps "chicken_inflow" "weight" k = Some (total_chicken_inflow_weight r) /\
  summary_column ps "chicken_release" "quantity" k = Some (total_chicken_release_quantity r) /\
  summary_column ps "chicken_release" "weight" k = Some (total_chicken_release_weight r) /\
  summary_column ps "gizzard_inflow" "weight" k = Some (total_gizzard_inflow_weight r) /\
  summary_column ps "gizzard_release" "weight" k = Some (total_gizzard_release_weight r).
Proof.
  unfold summary_row. intros H. inv_bind H. inversion H; subst; simpl.
  repeat split; reflexivity.
Qed.

Lemma sorted_set_NoDup (l : list string) : NoDup (sorted_set l).
Proof.
  unfold sorted_set. eapply Permutation_NoDup.
  - symmetry. apply sort_perm.
  - apply NoDup_nodup.
Qed.

Lemma sorted_set_In (l : list string) (k : string) : In k (sorted_set l) <-> In k l.
Proof.
  unfold sorted_set. rewrite <- (nodup_In string_dec l k). split; intros H.
  - eapply Permutation_in; [ apply sort_perm | exact H ].
  - eapply Permutation_in; [ symmetry; apply sort_perm | exact H ].
Qed.

Lemma summary_rows_distinct (ps : list (string * list (string * Series)))
      (ks : list string) (rows : list WorkRow) :
  NoDup ks ->
  traverse (summary_row ps) ks = Some rows ->
  NoDup (map (fun dr : WorkRow => rank (fst dr)) rows).
Proof.
  intros Hnd H. apply traverse_Forall2 in H.
  induction H as [ | k [d r] ks rows Hk Hrest IH ]; simpl; [ constructor | ].
  inversion Hnd as [ | ? ? Hnew Hnd' ]; subst. constructor; [ | auto ].
  intros Hin. apply in_map_iff in Hin. destruct Hin as [[d' r'] [Hrank Hin]].
  simpl in Hrank. apply rank_inj in Hrank. subst d'.
  apply Hnew. clear - Hk Hin Hrest.
  apply summary_row_spec in Hk. destruct Hk as [Hk _].
  induction Hrest as [ | k' row' ks rows Hk' _ IH ]; [ destruct Hin | ].
  destruct Hin as [-> | Hin]; [ left | right; auto ].
  apply summary_row_spec in Hk'. destruct Hk' as [Hk' _].
  eapply strptime_Yb_inj; eassumption.
Qed.

(** The keys handed to [sort_values] are pairwise distinct. *)
Lemma sort_dates_distinct (ps : list (string * list (string * Series)))
      (keys : list string) (rows : list WorkRow) :
  traverse (summary_row ps) (sorted_set keys) = Some rows ->
  NoDup (map (fun dr : WorkRow => rank (fst dr)) rows).
Proof. apply summary_rows_distinct, sorted_set_NoDup. Qed.

Lemma create_summary_structure (inflow release : DataFrame) (s : list SummaryRow) :
  create_summary_df inflow release = Ok s ->
  exists inflow_keys release_keys keys ps rows,
    get_col "year_month" inflow = Some inflow_keys /\
    get_col "year_month" release = Some release_keys /\
    traverse str_value (inflow_keys ++ release_keys) = Some keys /\
    product_summaries_of inflow release = Some ps /\
    traverse (summary_row ps) (sorted_set keys) = Some rows /\
    StronglySorted (fun a b : WorkRow => before (fst a) (fst b)) (sort ascending rows) /\
    s = map rendered (rev (running_balances (sort ascending rows))).
Proof.
  unfold create_summary_df. rewrite try_except_ok. intros H.
  inv_bind H. inversion H; subst s; clear H.
  rename c into inflow_keys, c0 into release_keys, l into keys, l0 into ps, l1 into rows.
  exists inflow_keys, release_keys, keys, ps, rows.
  repeat (split; [ first [ reflexivity | assumption ] | ]).
  assert (Hasc : StronglySorted (fun a b : WorkRow => before (fst a) (fst b))
                                (sort ascending rows)).
  { apply (sort_sorted (fun dr : WorkRow => rank (fst dr))).
    eapply sort_dates_distinct; eassumption. }
  split; [ exact Hasc | ].
  f_equal. apply sort_rev.
  apply (StronglySorted_map fst (fun a b => (rank b <=? rank a)%N = false)).
  rewrite running_balances_dates.
  apply StronglySorted_map.
  eapply StronglySorted_impl; [ | exact Hasc ].
  intros a b Hab. unfold before in Hab. apply N.leb_gt. exact Hab.
Qed.

(** ** The rendering of the summary *)

Lemma strftime_Ym_shape (d : year_month_t) :
  (fst d < 10000)%N ->
  strftime_Ym d =
  String (digit (fst d / 1000)) (String (digit (fst d / 100))
    (String (digit (fst d / 10)) (String (digit (fst d))
      (String "-" (String (digit (month_number (snd d) / 10))
        (String (digit (month_number (snd d))) EmptyString)))))).
Proof.
  intros Hy. unfold strftime_Ym, strftime_Y, strftime_m.
  destruct (N.ltb_spec (fst d) 10000) as [H | H]; [ reflexivity | lia ].
Qed.

Lemma month_number_range (m : month_name) :
  (1 <= month_number m <= 12)%N.
Proof. destruct m; cbn [month_number]; lia. Qed.

Lemma strptime_Ym_strftime (d : year_month_t) :
  (fst d < 10000)%N ->
  strptime_Ym (strftime_Ym d) = Some (fst d, month_number (snd d)).
Proof.
  intros Hy. rewrite strftime_Ym_shape by assumption.
  unfold strptime_Ym. rewrite !digit_value_digit.
  pose proof (month_number_range (snd d)) as Hm.
  f_equal. f_equal; div_mod.
Qed.

Lemma strptime_Yb_strftime_Ym (d : year_month_t) :
  (fst d < 10000)%N -> strptime_Yb (strftime_Ym d) = None.
Proof.
  intros Hy. rewrite strftime_Ym_shape by assumption.
  unfold strptime_Yb. rewrite !digit_value_digit.
  destruct (snd d); reflexivity.
Qed.

Lemma calendar_rank_rendered (d : year_month_t) (r : SummaryRow) :
  (fst d < 10000)%N -> calendar_rank (rendered (d, r)) = rank d.
Proof.
  intros Hy. unfold calendar_rank, rendered. cbn [year_month set_year_month fst snd].
  rewrite strptime_Ym_strftime by assumption. reflexivity.
Qed.

Lemma rendered_order (R : N -> N -> Prop) (l : list WorkRow) :
  Forall (fun dr : WorkRow => (fst (fst dr) < 10000)%N) l ->
  StronglySorted (fun a b : WorkRow => R (rank (fst a)) (rank (fst b))) l ->
  StronglySorted (fun a b => R (calendar_rank a) (calendar_rank b)) (map rendered l).
Proof.
  intros Hsmall Hs. induction Hs as [ | [d r] l _ IH Hx ]; simpl; [ constructor | ].
  inversion Hsmall as [ | ? ? Hd Hl ]; subst. simpl in Hd.
  constructor; [ auto | ].
  rewrite Forall_map. rewrite Forall_forall in *.
  intros [d' r'] Hin. rewrite !calendar_rank_rendered; auto.
  - apply (Hx _ Hin).
  - apply (Hl _ Hin).
Qed.

Lemma nth_error_rendered (out : list WorkRow) (i : nat) (r : SummaryRow) :
  nth_error (map rendered out) i = Some r ->
  exists d r0, nth_error out i = Some (d, r0) /\ r = rendered (d, r0).
Proof.
  revert i; induction out as [ | [d r0] out IH ]; intros [ | i ]; simpl; try discriminate.
  - intros H; inversion H. eauto.
  - apply IH.
Qed.

Lemma opening_stock_rendered (q : tracked) (dr : WorkRow) :
  opening_stock q (rendered dr) = opening_stock q (snd dr).
Proof. destruct q; reflexivity. Qed.

Lemma stock_balance_rendered (q : tracked) (dr : WorkRow) :
  stock_balance q (rendered dr) = stock_balance q (snd dr).
Proof. destruct q; reflexivity. Qed.

Lemma total_inflow_rendered (q : tracked) (dr : WorkRow) :
  total_inflow q (rendered dr) = total_inflow q (snd dr).
Proof. destruct q; reflexivity. Qed.

Lemma total_release_rendered (q : tracked) (dr : WorkRow) :
  total_release q (rendered dr) = total_release q (snd dr).
Proof. destruct q; reflexivity. Qed.

Lemma summary_rows_small (ps : list (string * list (string * Series)))
      (ks : list string) (rows : list WorkRow) :
  traverse (summary_row ps) ks = Some rows ->
  Forall (fun dr : WorkRow => (fst (fst dr) < 10000)%N) rows.
Proof.
  intros H. apply traverse_Forall2 in H.
  induction H as [ | k [d r] ks rows Hk _ IH ]; constructor; auto.
  apply summary_row_spec in Hk. destruct Hk as [Hk _].
  apply strptime_Yb_inv in Hk. simpl. tauto.
Qed.

(** The table on which the loop has run, in the order of the loop. *)
Lemma summary_in_loop_order (inflow release : DataFrame) (s : list SummaryRow) :
  create_summary_df inflow release = Ok s ->
  exists (asc : list WorkRow),
    let out := running_balances asc in
    balances_done (length asc) asc out /\
    Forall (fun dr : WorkRow => (fst (fst dr) < 10000)%N) out /\
    StronglySorted (fun a b : WorkRow => before (fst a) (fst b)) out /\
    s = map rendered (rev out) /\
    chronological s = map rendered out.
Proof.
  intros H. apply create_summary_structure in H.
  destruct H as (inflow_keys & release_keys & keys & ps & rows & _ & _ & _ & _ &
                 Hrows & Hasc & Hs).
  exists (sort ascending rows). cbv zeta.
  set (asc := sort ascending rows) in *. set (out := running_balances asc) in *.
  assert (Hdates : map fst out = map fst asc) by apply running_balances_dates.
  assert (Hsmall : Forall (fun dr : WorkRow => (fst (fst dr) < 10000)%N) out).
  { apply Forall_forall. intros [d r] Hin.
    assert (Hd : In d (map fst asc)).
    { rewrite <- Hdates. apply in_map_iff. exists (d, r). auto. }
    apply in_map_iff in Hd. destruct Hd as [[d' r'] [Hd Hin']]. simpl in Hd. subst d'.
    pose proof (summary_rows_small _ _ Hrows) as Hall. rewrite Forall_forall in Hall.
    apply (Hall (d, r')).
    eapply Permutation_in; [ apply sort_perm | exact Hin' ]. }
  assert (Hout : StronglySorted (fun a b : WorkRow => before (fst a) (fst b)) out).
  { apply (proj2 (StronglySorted_map fst before out)). rewrite Hdates.
    apply (proj1 (StronglySorted_map fst before asc)). exact Hasc. }
  split; [ apply running_balances_done | ].
  split; [ exact Hsmall | ]. split; [ exact Hout | ]. split; [ exact Hs | ].
  unfold chronological. rewrite sort_rev.
  - rewrite Hs, <- map_rev, rev_involutive. reflexivity.
  - rewrite Hs.
    apply (rendered_order (fun x y => (x <=? y)%N = false)).
    + apply Forall_forall. intros dr Hin. apply in_rev in Hin.
      rewrite Forall_forall in Hsmall. auto.
    + apply StronglySorted_rev in Hout.
      eapply StronglySorted_impl; [ | exact Hout ].
      intros a b Hab. unfold before in Hab. apply N.leb_gt. exact Hab.
Qed.

(** C1. Balance continuity: with the rows of the summary taken in
    ascending true calendar order of their month, each of the three
    running quantities opens at 0 in the first row and, in every later
    row, opens at the stock balance of the row before. *)
Theorem balance_continuity (inflow release : DataFrame) (s : list SummaryRow) :
  create_summary_df inflow release = Ok s ->
  Permutation (chronological s) s /\
  StronglySorted (fun a b => (calendar_rank a < calendar_rank b)%N) (chronological s) /\
  (forall r q, nth_error (chronological s) 0 = Some r -> opening_stock q r = zero) /\
  (forall i prev r q,
     nth_error (chronological s) i = Some prev ->
     nth_error (chronological s) (S i) = Some r ->
     opening_stock q r = stock_balance q prev).
Proof.
  intros H. destruct (summary_in_loop_order _ _ H) as (asc & Hdone & Hsmall & Hout & Hs & Hchron).
  cbv zeta in *. set (out := running_balances asc) in *.
  destruct Hdone as [Hlen [_ Hdone]].
  split; [ apply sort_perm | ]. rewrite Hchron.
  split; [ apply (rendered_order N.lt); assumption | ].
  split.
  - intros r q Hr. apply nth_error_rendered in Hr. destruct Hr as (d & r0 & Hr0 & ->).
    rewrite opening_stock_rendered. simpl.
    assert (Hj : 0 < length asc) by (rewrite <- Hlen; apply nth_error_Some; congruence).
    destruct (Hdone 0 d r0 Hj Hr0) as [_ [Hz _]]. apply Hz. reflexivity.
  - intros i prev r q Hprev Hr.
    apply nth_error_rendered in Hprev, Hr.
    destruct Hprev as (dp & p0 & Hp0 & ->). destruct Hr as (d & r0 & Hr0 & ->).
    rewrite opening_stock_rendered, stock_balance_rendered. simpl.
    assert (Hj : S i < length asc) by (rewrite <- Hlen; apply nth_error_Some; congruence).
    destruct (Hdone (S i) d r0 Hj Hr0) as [_ [_ Hc]].
    apply (Hc i dp p0 eq_refl Hp0).
Qed.

(** C2. Additive consistency: in every row of the summary and for each of
    the three running quantities, the stock balance is the opening stock
    plus the total inflow minus the total release of that quantity. *)
Theorem additive_consistency (inflow release : DataFrame) (s : list SummaryRow) :
  create_summary_df inflow release = Ok s ->
  forall r q, In r s ->
    stock_balance q r = sub (add (opening_stock q r) (total_inflow q r)) (total_release q r).
Proof.
  intros H r q Hin.
  destruct (summary_in_loop_order _ _ H) as (asc & Hdone & _ & _ & Hs & _).
  cbv zeta in *. set (out := running_balances asc) in *.
  destruct Hdone as [Hlen [_ Hdone]].
  rewrite Hs in Hin. apply in_map_iff in Hin. destruct Hin as [[d r0] [<- Hin]].
  apply in_rev in Hin. apply In_nth_error in Hin. destruct Hin as [j Hj].
  rewrite stock_balance_rendered, opening_stock_rendered, total_inflow_rendered,
    total_release_rendered. simpl.
  assert (Hlt : j < length asc) by (rewrite <- Hlen; apply nth_error_Some; congruence).
  destruct (Hdone j d r0 Hlt Hj) as [Hb _]. apply Hb.
Qed.

Lemma nth_error_done (n : nat) (df cur : list WorkRow) (j : nat)
      (d : year_month_t) (r : SummaryRow) :
  balances_done n df cur ->
  nth_error cur j = Some (d, r) ->
  exists r0, nth_error df j = Some (d, r0) /\ same_totals r0 r.
Proof.
  intros [Hlen [Htot _]] Hj.
  destruct (nth_error df j) as [[d0 r0] | ] eqn:E.
  - destruct (Htot _ _ _ E) as [r' [Hr' Hs]].
    rewrite Hj in Hr'. inversion Hr'; subst. eauto.
  - apply nth_error_None in E. rewrite <- Hlen in E.
    apply nth_error_None in E. congruence.
Qed.

(** Where the rows of the summary come from. *)
Lemma summary_anatomy (inflow release : DataFrame) (s : list SummaryRow) :
  create_summary_df inflow release = Ok s ->
  exists inflow_keys release_keys keys ps out,
    get_col "year_month" inflow = Some inflow_keys /\
    get_col "year_month" release = Some release_keys /\
    traverse str_value (inflow_keys ++ release_keys) = Some keys /\
    product_summaries_of inflow release = Some ps /\
    s = map rendered (rev out) /\
    StronglySorted (fun a b : WorkRow => before (fst a) (fst b)) out /\
    (forall d r, In (d, r) out ->
       (fst d < 10000)%N /\ In (strftime_Yb d) keys /\
       exists r0, same_totals r0 r /\ summary_row ps (strftime_Yb d) = Some (d, r0)) /\
    (forall k, In k keys -> exists d r, In (d, r) out /\ k = strftime_Yb d).
Proof.
  intros H. apply create_summary_structure in H.
  destruct H as (inflow_keys & release_keys & keys & ps & rows & Hik & Hrk & Hkeys & Hps &
                 Hrows & Hasc & Hs).
  set (asc := sort ascending rows) in *. set (out := running_balances asc) in *.
  exists inflow_keys, release_keys, keys, ps, out.
  repeat (split; [ assumption | ]).
  pose proof (running_balances_done asc) as Hdone. fold out in Hdone.
  assert (Hperm : Permutation asc rows) by apply sort_perm.
  split; [ | split ].
  - apply (proj2 (StronglySorted_map fst before out)).
    unfold out. rewrite running_balances_dates.
    apply (proj1 (StronglySorted_map fst before asc)). exact Hasc.
  - intros d r Hin. apply In_nth_error in Hin. destruct Hin as [j Hj].
    destruct (nth_error_done _ Hdone Hj) as [r0 [Hr0 Hsame]].
    apply nth_error_In in Hr0. apply (Permutation_in _ Hperm) in Hr0.
    pose proof (traverse_Forall2 _ _ Hrows) as Hf.
    assert (Hk : exists k, In k (sorted_set keys) /\ summary_row ps k = Some (d, r0)).
    { clear - Hf Hr0. induction Hf as [ | k row ks rows' Hk _ IH ]; [ destruct Hr0 | ].
      destruct Hr0 as [-> | Hin].
      - exists k. split; [ left; reflexivity | assumption ].
      - destruct (IH Hin) as [k' [Hin' Hk']]. exists k'. split; [ right | ]; assumption. }
    destruct Hk as [k [Hink Hk]].
    pose proof (summary_row_spec _ _ Hk) as [Hparse _].
    apply strptime_Yb_inv in Hparse. destruct Hparse as [-> Hsmall].
    split; [ exact Hsmall | ]. split; [ apply sorted_set_In; assumption | ].
    exists r0. auto.
  - intros k Hk. apply sorted_set_In in Hk.
    destruct (traverse_In _ _ _ Hrows Hk) as [[d r0] [Hrow Hin]].
    apply (Permutation_in _ (Permutation_sym Hperm)) in Hin.
    apply In_nth_error in Hin. destruct Hin as [j Hj].
    destruct Hdone as [_ [Htot _]]. destruct (Htot _ _ _ Hj) as [r' [Hr' _]].
    exists d, r'. split; [ eapply nth_error_In; eassumption | ].
    apply summary_row_spec in Hrow. destruct Hrow as [Hparse _].
    apply strptime_Yb_inv in Hparse. tauto.
Qed.

Lemma traverse_str_value (c : column) (keys : list string) :
  traverse str_value c = Some keys -> c = map Str keys.
Proof.
  revert keys; induction c as [ | x c IH ]; simpl; intros keys H.
  - inversion H; reflexivity.
  - inv_bind H. inversion H; subst; simpl.
    destruct x; try discriminate. inversion E; subst.
    rewrite (IH _ eq_refl). reflexivity.
Qed.

(** C8. Output ordering and rendering: the summary is sorted descending
    by true calendar order of the month, every [year_month] in it has the
    form YYYY-MM, and none is a YYYY-MMM bucket key: in particular none is
    a key of the ledgers. *)
Theorem output_order_and_rendering (inflow release : DataFrame) (s : list SummaryRow) :
  create_summary_df inflow release = Ok s ->
  StronglySorted (fun a b => (calendar_rank b < calendar_rank a)%N) s /\
  (exists months,
     StronglySorted after months /\ map year_month s = map strftime_Ym months) /\
  (forall r, In r s ->
     (exists y m, strptime_Ym (year_month r) = Some (y, m) /\ (1 <= m <= 12)%N) /\
     strptime_Yb (year_month r) = None /\
     (forall keys, get_col "year_month" inflow = Some keys \/
                   get_col "year_month" release = Some keys ->
                   ~ In (Str (year_month r)) keys)).
Proof.
  intros H. destruct (summary_anatomy _ _ H) as
    (inflow_keys & release_keys & keys & ps & out & Hik & Hrk & Hkeys & _ & Hs & Hout &
     Horigin & Hcover).
  assert (Hsmall : Forall (fun dr : WorkRow => (fst (fst dr) < 10000)%N) (rev out)).
  { apply Forall_forall. intros [d r] Hin. apply in_rev in Hin.
    destruct (Horigin _ _ Hin) as [Hd _]. exact Hd. }
  assert (Hrev : StronglySorted (fun a b : WorkRow => before (fst b) (fst a)) (rev out))
    by (apply StronglySorted_rev; exact Hout).
  split; [ | split ].
  - rewrite Hs. apply (rendered_order (fun x y => (y < x)%N)); assumption.
  - exists (map fst (rev out)). split.
    + apply (proj1 (StronglySorted_map fst after (rev out))). exact Hrev.
    + rewrite Hs, !map_map. apply map_ext. intros [d r]. reflexivity.
  - intros r Hin. rewrite Hs in Hin. apply in_map_iff in Hin.
    destruct Hin as [[d r0] [<- Hin]]. rewrite Forall_forall in Hsmall.
    pose proof (Hsmall _ Hin) as Hd. simpl in Hd.
    unfold rendered. cbn [year_month set_year_month fst snd].
    assert (Hnokey : strptime_Yb (strftime_Ym d) = None)
      by (apply strptime_Yb_strftime_Ym; assumption).
    split; [ | split ].
    + exists (fst d), (month_number (snd d)).
      split; [ apply strptime_Ym_strftime; assumption | apply month_number_range ].
    + exact Hnokey.
    + intros ks Hks Hin'.
      assert (Hall : In (Str (strftime_Ym d)) (inflow_keys ++ release_keys)).
      { apply in_or_app. destruct Hks as [Hks | Hks]; [ left | right ]; congruence. }
      rewrite (traverse_str_value _ Hkeys) in Hall.
      apply in_map_iff in Hall. destruct Hall as [k [Hk Hink]].
      inversion Hk; subst k.
      destruct (Hcover _ Hink) as (d' & r' & Hin'' & Heq).
      destruct (Horigin _ _ Hin'') as (_ & _ & r1 & _ & Hrow).
      apply summary_row_spec in Hrow. destruct Hrow as [Hparse _].
      rewrite <- Heq in Hparse. congruence.
Qed.

(** ** Months and totals *)

Lemma lookup_traverse (V : Type) (F : string -> option (string * V)) (P : V -> Prop)
      (l : list string) (out : list (string * V)) (key : string) (v : V) :
  traverse F l = Some out ->
  (forall m y, F m = Some y -> P (snd y)) ->
  lookup key out = Some v -> P v.
Proof.
  intros H HP. apply traverse_Forall2 in H.
  induction H as [ | m [k' v'] l out Hm _ IH ]; simpl; [ discriminate | ].
  destruct (String.eqb k' key).
  - intros Hv; inversion Hv; subst. apply (HP _ _ Hm).
  - exact IH.
Qed.

Lemma lookup_absent (f : string -> option num) (ks : list string) (series : Series)
      (k : string) :
  traverse (fun k => total <- f k ;; Some (k, total)) ks = Some series ->
  ~ In k ks -> lookup k series = None.
Proof.
  intros H. apply traverse_Forall2 in H.
  induction H as [ | k0 [k1 t] ks series Hk _ IH ]; simpl; intros Hnot; [ reflexivity | ].
  inv_bind Hk. inversion Hk; subst.
  match goal with
  | |- context [String.eqb ?a k] => destruct (String.eqb_spec a k) as [-> | Hne]
  end.
  - exfalso. apply Hnot. left; reflexivity.
  - apply IH. intros Hin. apply Hnot. right; assumption.
Qed.

Lemma eq_str_true (s : string) (c : cell) : eq_str s c = true -> c = Str s.
Proof.
  destruct c; simpl; try discriminate. intros H. apply String.eqb_eq in H. congruence.
Qed.

Lemma str_values_select (p k : string) (products keys : column) :
  In k (str_values (select (map (eq_str p) products) keys)) ->
  exists i, nth_error products i = Some (Str p) /\ nth_error keys i = Some (Str k).
Proof.
  revert keys; induction products as [ | x products IH ]; intros keys Hin.
  - destruct Hin.
  - destruct keys as [ | y keys ]; [ destruct Hin | ]. simpl in Hin.
    destruct (eq_str p x) eqn:Ex.
    + apply eq_str_true in Ex. subst x.
      destruct y; simpl in Hin;
        try (destruct (IH _ Hin) as [i Hi]; exists (S i); exact Hi).
      destruct Hin as [-> | Hin]; [ exists 0; split; reflexivity | ].
      destruct (IH _ Hin) as [i Hi]. exists (S i). exact Hi.
    + destruct (IH _ Hin) as [i Hi]. exists (S i). exact Hi.
Qed.

Lemma product_summary_absent (df : DataFrame) (product_label product : string)
      (metrics : list string) (summary : list (string * Series))
      (k metric : string) (series : Series) :
  product_summary df product_label product metrics = Some summary ->
  ~ has_record df product_label product k ->
  lookup metric summary = Some series ->
  lookup k series = None.
Proof.
  unfold product_summary. intros H Hno Hl. inv_bind H. rename c into products.
  unfold groupby_sum in H. inv_bind H. rename c into fkeys.
  rewrite get_col_filter_rows in E0.
  destruct (get_col "year_month" df) as [keys | ] eqn:Ek; [ | discriminate ].
  simpl in E0. inversion E0; subst fkeys; clear E0.
  eapply (@lookup_traverse _ _ (fun series0 => lookup k series0 = None) _ _ metric series);
    [ exact H | | exact Hl ].
  intros m [m' series'] Hm. inv_bind Hm. inv_bind Hm. inversion Hm; subst; simpl.
  eapply lookup_absent with
    (f := fun k0 => sum_skipna
            (select (map (eq_str k0) (select (map (eq_str product) products) keys)) c));
    [ exact E1 | ].
  intros Hin. apply (proj1 (sorted_set_In _ _)) in Hin. apply str_values_select in Hin.
  destruct Hin as [i [Hp Hk]]. apply Hno.
  exists products, keys, i. auto.
Qed.

Lemma summary_column_absent (summary_key metric k : string)
      (ps : list (string * list (string * Series)))
      (summary : list (string * Series)) :
  lookup summary_key ps = Some summary ->
  (forall series, lookup metric summary = Some series -> lookup k series = None) ->
  summary_column ps summary_key metric k = Some zero.
Proof.
  intros Hps Hno. unfold summary_column. rewrite Hps. simpl.
  destruct (lookup metric summary) as [series | ] eqn:E; [ | reflexivity ].
  rewrite (Hno _ eq_refl). reflexivity.
Qed.

Lemma StronglySorted_NoDup (l : list year_month_t) :
  StronglySorted before l -> NoDup l.
Proof.
  induction 1 as [ | x l _ IH Hx ]; constructor; auto.
  intros Hin. rewrite Forall_forall in Hx. specialize (Hx _ Hin).
  unfold before in Hx. lia.
Qed.

Lemma Forall2_rendered (P : SummaryRow -> year_month_t -> Prop) (l : list WorkRow) :
  Forall (fun dr => P (rendered dr) (fst dr)) l ->
  Forall2 P (map rendered l) (map fst l).
Proof. induction 1; simpl; constructor; auto. Qed.

(** C3. Month-union completeness: the months of the summary are exactly
    the months present in the inflow or in the release ledger, each once;
    every row carries its six totals, and a total whose ledger has no
    record of the product in that month is 0. *)
Theorem month_union_completeness (inflow release : DataFrame) (s : list SummaryRow) :
  create_summary_df inflow release = Ok s ->
  exists inflow_keys release_keys months,
    get_col "year_month" inflow = Some inflow_keys /\
    get_col "year_month" release = Some release_keys /\
    NoDup months /\
    (forall c, In c (inflow_keys ++ release_keys) <->
               exists d, In d months /\ c = Str (strftime_Yb d)) /\
    Forall2 (fun r d =>
      year_month r = strftime_Ym d /\
      (~ has_record inflow "product_type" WHOLE_CHICKEN (strftime_Yb d) ->
       total_chicken_inflow_quantity r = zero /\ total_chicken_inflow_weight r = zero) /\
      (~ has_record release "product" WHOLE_CHICKEN (strftime_Yb d) ->
       total_chicken_release_quantity r = zero /\ total_chicken_release_weight r = zero) /\
      (~ has_record inflow "product_type" GIZZARD (strftime_Yb d) ->
       total_gizzard_inflow_weight r = zero) /\
      (~ has_record release "product" GIZZARD (strftime_Yb d) ->
       total_gizzard_release_weight r = zero)) s months.
Proof.
  intros H. destruct (summary_anatomy _ _ H) as
    (inflow_keys & release_keys & keys & ps & out & Hik & Hrk & Hkeys & Hps & Hs & Hout &
     Horigin & Hcover).
  exists inflow_keys, release_keys, (map fst (rev out)).
  split; [ assumption | ]. split; [ assumption | ].
  pose proof (traverse_str_value _ Hkeys) as Hcells.
  split; [ | split ].
  - assert (Hd : StronglySorted before (map fst out))
      by (apply (proj1 (StronglySorted_map fst before out)); exact Hout).
    apply StronglySorted_NoDup in Hd.
    rewrite map_rev. eapply Permutation_NoDup; [ apply Permutation_rev | exact Hd ].
  - intros c. rewrite Hcells. split.
    + intros Hin. apply in_map_iff in Hin. destruct Hin as [k [<- Hin]].
      destruct (Hcover _ Hin) as (d & r & Hdr & ->).
      exists d. split; [ | reflexivity ].
      apply in_map_iff. exists (d, r). split; [ reflexivity | ].
      apply in_rev. rewrite rev_involutive. exact Hdr.
    + intros [d [Hd ->]]. apply in_map_iff in Hd. destruct Hd as [[d' r] [Hfst Hin]].
      simpl in Hfst. subst d'. apply in_rev in Hin.
      destruct (Horigin _ _ Hin) as (_ & Hk & _).
      apply in_map. exact Hk.
  - rewrite Hs. apply Forall2_rendered. apply Forall_forall.
    intros [d r] Hin. apply in_rev in Hin.
    destruct (Horigin _ _ Hin) as (_ & _ & r0 & Hsame & Hrow).
    apply summary_row_spec in Hrow.
    destruct Hrow as (_ & _ & _ & Hciq & Hciw & Hcrq & Hcrw & Hgiw & Hgrw).
    destruct Hsame as (_ & S1 & S2 & S3 & S4 & S5 & S6).
    unfold product_summaries_of in Hps. inv_bind Hps. inversion Hps; subst ps; clear Hps.
    unfold rendered.
    cbn [year_month set_year_month fst snd total_chicken_inflow_quantity
         total_chicken_inflow_weight total_chicken_release_quantity
         total_chicken_release_weight total_gizzard_inflow_weight
         total_gizzard_release_weight].
    split; [ reflexivity | ].
    split; [ | split; [ | split ] ]; intros Hno; [ split | split | | ].
    + rewrite <- S1. erewrite summary_column_absent in Hciq;
        [ congruence | reflexivity | ].
      intros series. eapply product_summary_absent; eassumption.
    + rewrite <- S2. erewrite summary_column_absent in Hciw;
        [ congruence | reflexivity | ].
      intros series. eapply product_summary_absent; eassumption.
    + rewrite <- S3. erewrite summary_column_absent in Hcrq;
        [ congruence | reflexivity | ].
      intros series. eapply product_summary_absent; eassumption.
    + rewrite <- S4. erewrite summary_column_absent in Hcrw;
        [ congruence | reflexivity | ].
      intros series. eapply product_summary_absent; eassumption.
    + rewrite <- S5. erewrite summary_column_absent in Hgiw;
        [ congruence | reflexivity | ].
      intros series. eapply product_summary_absent; eassumption.
    + rewrite <- S6. erewrite summary_column_absent in Hgrw;
        [ congruence | reflexivity | ].
      intros series. eapply product_summary_absent; eassumption.
Qed.

(** ** Exact-match aggregation *)

Lemma select_same_where (mask : list bool) (c c' : column) :
  same_where mask c c' -> select mask c = select mask c'.
Proof.
  revert c c'; induction mask as [ | b mask IH ]; intros c c' [Hlen Hsame].
  - destruct c, c'; reflexivity.
  - destruct c as [ | x c ], c' as [ | x' c' ]; try discriminate; [ reflexivity | ].
    simpl in Hlen. simpl.
    assert (Hrest : select mask c = select mask c').
    { apply IH. split; [ congruence | ]. intros i Hi. apply (Hsame (S i)). exact Hi. }
    destruct b; [ | exact Hrest ].
    specialize (Hsame 0 eq_refl). simpl in Hsame. inversion Hsame. rewrite Hrest. reflexivity.
Qed.

Lemma same_where_weaken (m1 m2 : list bool) (c c' : column) :
  (forall i, nth_error m2 i = Some true -> nth_error m1 i = Some true) ->
  same_where m1 c c' -> same_where m2 c c'.
Proof. intros Hm [Hlen Hsame]. split; auto. Qed.

Lemma tracked_mask (p : string) (products : column) (i : nat) :
  p = WHOLE_CHICKEN \/ p = GIZZARD ->
  nth_error (map (eq_str p) products) i = Some true ->
  nth_error (map tracked_product products) i = Some true.
Proof.
  intros Hp. revert i; induction products as [ | x products IH ]; intros [ | i ]; simpl;
    try discriminate; [ | apply IH ].
  intros H; inversion H as [Hx]. unfold tracked_product.
  destruct Hp; subst p; rewrite Hx; simpl; [ | rewrite orb_true_r ]; reflexivity.
Qed.

Lemma differs_filter_rows (p : string) (df df' : DataFrame) (products : column) :
  p = WHOLE_CHICKEN \/ p = GIZZARD ->
  Forall2 (fun lc lc' =>
      fst lc = fst lc' /\
      (snd lc = snd lc' \/
       ((fst lc = "quantity" \/ fst lc = "weight") /\
        same_where (map tracked_product products) (snd lc) (snd lc')))) df df' ->
  filter_rows (map (eq_str p) products) df' = filter_rows (map (eq_str p) products) df.
Proof.
  intros Hp H. unfold filter_rows.
  induction H as [ | [l c] [l' c'] df df' [Hl Hc] _ IH ]; simpl; [ reflexivity | ].
  simpl in Hl, Hc. subst l'. rewrite IH. f_equal. f_equal.
  destruct Hc as [-> | [_ Hsame]]; [ reflexivity | ].
  symmetry. apply select_same_where.
  eapply same_where_weaken; [ | exact Hsame ].
  intros i. apply tracked_mask. exact Hp.
Qed.

Lemma differs_filter (l : string) (df df' : DataFrame) (products : column) :
  l <> "quantity" -> l <> "weight" ->
  Forall2 (fun lc lc' =>
      fst lc = fst lc' /\
      (snd lc = snd lc' \/
       ((fst lc = "quantity" \/ fst lc = "weight") /\
        same_where (map tracked_product products) (snd lc) (snd lc')))) df df' ->
  filter (bears l) df' = filter (bears l) df.
Proof.
  intros Hq Hw H.
  induction H as [ | [l0 c] [l0' c'] df df' [Hl Hc] _ IH ]; simpl; [ reflexivity | ].
  simpl in Hl, Hc. subst l0'.
  assert (E1 : bears l (l0, c') = bears l (l0, c)) by reflexivity.
  rewrite E1. destruct (bears l (l0, c)) eqn:Eb; [ | exact IH ].
  unfold bears in Eb. simpl in Eb. apply String.eqb_eq in Eb. subst l0.
  rewrite IH. destruct Hc as [-> | [[Hc | Hc] _]]; [ reflexivity | | ]; contradiction.
Qed.

Lemma differs_get_col (product_label l : string) (df df' : DataFrame) :
  l <> "quantity" -> l <> "weight" ->
  differs_in_untracked product_label df df' ->
  get_col l df' = get_col l df.
Proof.
  intros Hq Hw [products [_ H]]. unfold get_col.
  erewrite differs_filter; [ reflexivity | assumption | assumption | exact H ].
Qed.

Lemma differs_product_summary (product_label p : string) (df df' : DataFrame)
      (metrics : list string) :
  product_label <> "quantity" -> product_label <> "weight" ->
  p = WHOLE_CHICKEN \/ p = GIZZARD ->
  differs_in_untracked product_label df df' ->
  product_summary df' product_label p metrics = product_summary df product_label p metrics.
Proof.
  intros Hq Hw Hp Hd. unfold product_summary.
  erewrite differs_get_col; [ | assumption | assumption | exact Hd ].
  destruct Hd as [products [Hprod H]]. rewrite Hprod. simpl.
  erewrite differs_filter_rows; [ reflexivity | exact Hp | exact H ].
Qed.

Lemma select_select (A : Type) (f : cell -> bool) (m : list bool) (keys : column)
      (values : list A) :
  select (map f (select m keys)) (select m values) = select (both m (map f keys)) values.
Proof.
  revert keys values; induction m as [ | b m IH ]; intros keys values.
  - destruct keys, values; reflexivity.
  - destruct keys as [ | k keys ].
    + simpl. destruct (select (b :: m) values); reflexivity.
    + destruct values as [ | v values ].
      * simpl. destruct b; simpl; destruct (map f (select m keys)); reflexivity.
      * simpl. destruct b; simpl; [ | apply IH ].
        destruct (f k); rewrite IH; reflexivity.
Qed.

Lemma select_no_key (A : Type) (k : string) (keys : column) (values : list A) :
  ~ In k (str_values keys) -> select (map (eq_str k) keys) values = [].
Proof.
  revert values; induction keys as [ | x keys IH ]; intros values Hno.
  - destruct values; reflexivity.
  - destruct values as [ | v values ]; [ reflexivity | ]. simpl.
    assert (Hx : eq_str k x = false).
    { destruct (eq_str k x) eqn:E; [ | reflexivity ].
      apply eq_str_true in E. subst x. exfalso. apply Hno. left; reflexivity. }
    rewrite Hx. apply IH. intros Hin. apply Hno.
    destruct x; simpl; auto.
Qed.

Lemma lookup_present (f : string -> option num) (ks : list string) (series : Series)
      (k : string) :
  traverse (fun k => total <- f k ;; Some (k, total)) ks = Some series ->
  In k ks -> exists total, f k = Some total /\ lookup k series = Some total.
Proof.
  intros H. apply traverse_Forall2 in H.
  induction H as [ | k0 [k1 t] ks series Hk _ IH ]; simpl; intros Hin; [ destruct Hin | ].
  inv_bind Hk. inversion Hk; subst.
  match goal with
  | |- context [String.eqb ?a k] => destruct (String.eqb_spec a k) as [-> | Hne]
  end.
  - exists t. split; [ assumption | reflexivity ].
  - destruct Hin as [-> | Hin]; [ contradiction | ]. apply IH. assumption.
Qed.

Lemma lookup_metric (F : string -> option (string * Series)) (ms : list string)
      (out : list (string * Series)) (m : string) :
  traverse F ms = Some out ->
  (forall m y, F m = Some y -> fst y = m) ->
  In m ms -> exists series, F m = Some (m, series) /\ lookup m out = Some series.
Proof.
  intros H HF. apply traverse_Forall2 in H.
  induction H as [ | m0 [m1 v] ms out Hm _ IH ]; simpl; intros Hin; [ destruct Hin | ].
  pose proof (HF _ _ Hm) as Hfst. simpl in Hfst. subst m1.
  destruct (String.eqb_spec m0 m) as [-> | Hne].
  - exists v. split; [ assumption | reflexivity ].
  - destruct Hin as [-> | Hin]; [ contradiction | ]. apply IH. assumption.
Qed.

(** A total of the summary is the sum over the exact matches. *)
Lemma summary_column_exact (ps : list (string * list (string * Series)))
      (summary_key metric k product_label p : string) (df : DataFrame)
      (metrics : list string) (summary : list (string * Series)) :
  lookup summary_key ps = Some summary ->
  product_summary df product_label p metrics = Some summary ->
  In metric metrics ->
  summary_column ps summary_key metric k = exact_total df product_label p metric k.
Proof.
  intros Hps Hsum Hin. unfold summary_column, exact_total. rewrite Hps. simpl.
  unfold product_summary in Hsum. inv_bind Hsum. rename c into products. simpl.
  unfold groupby_sum in Hsum. inv_bind Hsum. rename c into fkeys.
  rewrite get_col_filter_rows in E0.
  destruct (get_col "year_month" df) as [keys | ] eqn:Ek; [ | discriminate ].
  simpl in E0. inversion E0; subst fkeys; clear E0. simpl.
  destruct (lookup_metric _ _ metric Hsum) as [series [HF Hl]]; [ | assumption | ].
  { intros m [m' s'] Hm. inv_bind Hm. inv_bind Hm. inversion Hm; reflexivity. }
  rewrite Hl. inv_bind HF. rename c into fvalues.
  assert (l = series) by congruence. subst l. clear HF.
  rewrite get_col_filter_rows in E0.
  destruct (get_col metric df) as [values | ] eqn:Ev; [ | discriminate ].
  simpl in E0. inversion E0; subst fvalues; clear E0. simpl.
  rewrite <- select_select.
  set (mask := map (eq_str p) products) in *.
  destruct (in_dec string_dec k (sorted_set (str_values (select mask keys)))) as [Hk | Hk].
  - destruct (lookup_present
                (fun k0 => sum_skipna (select (map (eq_str k0) (select mask keys))
                                              (select mask values))) _ k E1 Hk)
      as [total [Hf Hlk]].
    rewrite Hlk. symmetry. exact Hf.
  - rewrite (lookup_absent
               (fun k0 => sum_skipna (select (map (eq_str k0) (select mask keys))
                                             (select mask values))) _ k E1 Hk).
    rewrite select_no_key; [ reflexivity | ].
    intros Hin'. apply Hk. apply sorted_set_In. exact Hin'.
Qed.

(** C9. Exact-match aggregation: each of the six totals of a month is the
    sum over the records of its ledger whose product is exactly 'whole
    chicken' (or exactly 'gizzard') in that month.  A record of any other
    product, also one whose product merely contains such a name,
    contributes nothing: whatever its quantity and weight are, the summary
    is the same. *)
Theorem exact_match_aggregation (inflow release : DataFrame) (s : list SummaryRow) :
  create_summary_df inflow release = Ok s ->
  (forall r, In r s ->
     exists d,
       year_month r = strftime_Ym d /\
       exact_total inflow "product_type" WHOLE_CHICKEN "quantity" (strftime_Yb d) =
         Some (total_chicken_inflow_quantity r) /\
       exact_total inflow "product_type" WHOLE_CHICKEN "weight" (strftime_Yb d) =
         Some (total_chicken_inflow_weight r) /\
       exact_total release "product" WHOLE_CHICKEN "quantity" (strftime_Yb d) =
         Some (total_chicken_release_quantity r) /\
       exact_total release "product" WHOLE_CHICKEN "weight" (strftime_Yb d) =
         Some (total_chicken_release_weight r) /\
       exact_total inflow "product_type" GIZZARD "weight" (strftime_Yb d) =
         Some (total_gizzard_inflow_weight r) /\
       exact_total release "product" GIZZARD "weight" (strftime_Yb d) =
         Some (total_gizzard_release_weight r)) /\
  (forall inflow' release',
     differs_in_untracked "product_type" inflow inflow' ->
     differs_in_untracked "product" release release' ->
     create_summary_df inflow' release' = Ok s).
Proof.
  intros H. split.
  - destruct (summary_anatomy _ _ H) as
      (inflow_keys & release_keys & keys & ps & out & _ & _ & _ & Hps & Hs & _ & Horigin & _).
    intros r Hin. rewrite Hs in Hin. apply in_map_iff in Hin.
    destruct Hin as [[d r1] [<- Hin]]. apply in_rev in Hin.
    destruct (Horigin _ _ Hin) as (_ & _ & r0 & Hsame & Hrow).
    apply summary_row_spec in Hrow.
    destruct Hrow as (_ & _ & _ & Hciq & Hciw & Hcrq & Hcrw & Hgiw & Hgrw).
    destruct Hsame as (_ & S1 & S2 & S3 & S4 & S5 & S6).
    unfold product_summaries_of in Hps. inv_bind Hps. inversion Hps; subst ps; clear Hps.
    exists d. unfold rendered.
    cbn [year_month set_year_month fst snd total_chicken_inflow_quantity
         total_chicken_inflow_weight total_chicken_release_quantity
         total_chicken_release_weight total_gizzard_inflow_weight
         total_gizzard_release_weight].
    split; [ reflexivity | ].
    rewrite <- S1, <- S2, <- S3, <- S4, <- S5, <- S6.
    rewrite <- Hciq, <- Hciw, <- Hcrq, <- Hcrw, <- Hgiw, <- Hgrw.
    repeat split; symmetry;
      (eapply summary_column_exact; [ reflexivity | eassumption | simpl; auto ]).
  - intros inflow' release' Hi Hr. rewrite <- H. unfold create_summary_df.
    assert (Hni : forall l, l <> "quantity" -> l <> "weight" ->
                            get_col l inflow' = get_col l inflow)
      by (intros l Hq Hw; eapply differs_get_col; eassumption).
    assert (Hnr : forall l, l <> "quantity" -> l <> "weight" ->
                            get_col l release' = get_col l release)
      by (intros l Hq Hw; eapply differs_get_col; eassumption).
    assert (Hpi : forall p metrics, p = WHOLE_CHICKEN \/ p = GIZZARD ->
                    product_summary inflow' "product_type" p metrics =
                    product_summary inflow "product_type" p metrics)
      by (intros p metrics Hp; apply differs_product_summary;
          [ discriminate | discriminate | exact Hp | exact Hi ]).
    assert (Hpr : forall p metrics, p = WHOLE_CHICKEN \/ p = GIZZARD ->
                    product_summary release' "product" p metrics =
                    product_summary release "product" p metrics)
      by (intros p metrics Hp; apply differs_product_summary;
          [ discriminate | discriminate | exact Hp | exact Hr ]).
    rewrite Hni, Hnr by discriminate.
    unfold product_summaries_of.
    rewrite !Hpi, !Hpr by (first [ left; reflexivity | right; reflexivity ]).
    reflexivity.
Qed.

(** ** Ledgers without dated rows *)

Lemma standardize_dataframe_spec (raw : RawFrame) (df : DataFrame) :
  standardize_dataframe raw = Ok df ->
  Forall2 (fun rc lc =>
             snd lc = standardize_column (snd rc) /\
             (fst lc = canonical_label (fst rc) \/ fst lc = "weight")) raw df.
Proof.
  unfold standardize_dataframe. rewrite try_except_ok.
  set (df0 := map (fun lc => (canonical_label (fst lc), snd lc)) raw).
  assert (H0 : Forall2 (fun rc lc => snd lc = snd rc /\
                                     (fst lc = canonical_label (fst rc) \/ fst lc = "weight"))
                       raw df0).
  { subst df0. induction raw; simpl; constructor; auto. }
  set (df1 := if has_label "weight_in_kg" df0 then _ else df0).
  assert (H1 : Forall2 (fun rc lc => snd lc = snd rc /\
                                     (fst lc = canonical_label (fst rc) \/ fst lc = "weight"))
                       raw df1).
  { subst df1. destruct (has_label "weight_in_kg" df0); [ | assumption ].
    unfold rename. clear - H0. induction H0 as [ | rc lc raw df [Hs Hl] _ IH ]; simpl;
      constructor; auto.
    simpl. split; [ assumption | ].
    destruct (String.eqb (fst lc) "weight_in_kg"); auto. }
  destruct (unique (labels df1)); [ | discriminate ].
  intros H; inversion H; subst df. clear - H1.
  induction H1 as [ | rc lc raw df [Hs Hl] _ IH ]; simpl; constructor; auto.
  simpl. split; [ congruence | assumption ].
Qed.

Lemma Forall2_In_r (A B : Type) (R : A -> B -> Prop) (l : list A) (l' : list B) (b : B) :
  Forall2 R l l' -> In b l' -> exists a, In a l /\ R a b.
Proof.
  induction 1 as [ | x y l l' Hxy _ IH ]; intros Hin; [ destruct Hin | ].
  destruct Hin as [<- | Hin].
  - exists x. split; [ left; reflexivity | assumption ].
  - destruct (IH Hin) as [a [Ha HR]]. exists a. split; [ right | ]; assumption.
Qed.

Lemma standardize_blank (c : list string) :
  Forall (fun s => clean s = "") c ->
  Forall (fun x : cell => x = NaN) (standardize_column c).
Proof.
  intros H. unfold standardize_column.
  assert (E : to_numeric (map prepared (map clean c)) = Some (map (fun _ => NaN) c)).
  { induction H as [ | s c Hs _ IH ]; simpl; [ reflexivity | ].
    rewrite Hs. simpl. rewrite IH. reflexivity. }
  rewrite E. apply Forall_forall. intros x Hx. apply in_map_iff in Hx.
  destruct Hx as [_ [<- _]]. reflexivity.
Qed.

Lemma select_none (A : Type) (dates : column) (c : list A) :
  Forall (fun x : cell => x = NaN) dates -> select (map dated dates) c = [].
Proof.
  intros H. revert c. induction H as [ | x dates -> _ IH ]; intros c; simpl.
  - destruct c; reflexivity.
  - destruct c; simpl; auto.
Qed.

Lemma labels_filter_rows (mask : list bool) (df : DataFrame) :
  labels (filter_rows mask df) = labels df.
Proof. unfold labels, filter_rows. rewrite map_map. reflexivity. Qed.

Lemma labels_rename (old new : string) (df : DataFrame) :
  labels (rename old new df) =
  map (fun l => if String.eqb l old then new else l) (labels df).
Proof. unfold labels, rename. rewrite !map_map. reflexivity. Qed.

Lemma has_label_In (l : string) (df : DataFrame) :
  has_label l df = true <-> In l (labels df).
Proof.
  unfold has_label. rewrite existsb_exists. split.
  - intros [x [Hin Hx]]. apply String.eqb_eq in Hx. subst. assumption.
  - intros Hin. exists l. split; [ assumption | apply String.eqb_refl ].
Qed.

Lemma get_col_absent (l : string) (df : DataFrame) :
  ~ In l (labels df) -> get_col l df = None.
Proof.
  intros H. destruct (has_label l df) eqn:E.
  - apply has_label_In in E. contradiction.
  - apply has_label_false in E. unfold get_col. rewrite E. reflexivity.
Qed.

Lemma get_col_rename_other (l old new : string) (df : DataFrame) :
  l <> old -> l <> new -> get_col l (rename old new df) = get_col l df.
Proof.
  intros Ho Hn.
  assert (Hf : filter (bears l) (rename old new df) = filter (bears l) df).
  { induction df as [ | [l0 c] df IH ]; simpl; [ reflexivity | ].
    destruct (String.eqb_spec l0 old) as [-> | Hne].
    - assert (E1 : bears l (new, c) = false)
        by (unfold bears; simpl; apply String.eqb_neq; congruence).
      assert (E2 : bears l (old, c) = false)
        by (unfold bears; simpl; apply String.eqb_neq; congruence).
      rewrite E1, E2. exact IH.
    - rewrite IH. reflexivity. }
  unfold get_col. rewrite Hf. reflexivity.
Qed.

Lemma create_summary_no_key (inflow release : DataFrame) :
  get_col "year_month" inflow = None \/ get_col "year_month" release = None ->
  create_summary_df inflow release = DataProcessingError "Failed to create summary".
Proof.
  intros H. unfold create_summary_df.
  destruct (get_col "year_month" inflow); simpl; [ | reflexivity ].
  destruct H as [H | H]; [ discriminate | ]. rewrite H. reflexivity.
Qed.

(** The standardized sheet has no bucket key and only missing dates. *)
Lemma undated_standardized (sheet : RawFrame) (df : DataFrame) :
  standardize_dataframe sheet = Ok df ->
  (lacks_bucket_key sheet -> ~ In "year_month" (labels df)) /\
  (undated sheet -> forall dates, get_col "date" df = Some dates ->
                                  Forall (fun x : cell => x = NaN) dates).
Proof.
  intros H. apply standardize_dataframe_spec in H. split.
  - intros Hlack Hin. unfold labels in Hin. apply in_map_iff in Hin.
    destruct Hin as [lc [Hl Hin]].
    destruct (Forall2_In_r _ H Hin) as [rc [Hrc [_ Hlabel]]].
    destruct Hlabel as [Hlabel | Hlabel]; [ | congruence ].
    apply Hlack. unfold labels. rewrite map_map. apply in_map_iff.
    exists rc. split; [ congruence | assumption ].
  - intros Hun dates Hdates. apply get_col_In in Hdates.
    destruct (Forall2_In_r _ H Hdates) as [[l c] [Hrc [Hcol Hlabel]]].
    simpl in Hcol, Hlabel. subst dates.
    destruct Hlabel as [Hlabel | Hlabel]; [ | discriminate ].
    apply standardize_blank. apply (Hun l c Hrc). congruence.
Qed.

Lemma drop_undated_empty (df df' : DataFrame) :
  (forall dates, get_col "date" df = Some dates ->
                 Forall (fun x : cell => x = NaN) dates) ->
  drop_undated df = Some df' ->
  empty df' = true /\ labels df' = labels df /\ standardize_dates df' = Ok df'.
Proof.
  intros Hnan H. unfold drop_undated in H. inv_bind H. inversion H; subst df'; clear H.
  rename c into dates. specialize (Hnan _ eq_refl).
  assert (Hempty : empty (filter_rows (map dated dates) df) = true).
  { unfold filter_rows. destruct df as [ | [l c] df ]; [ reflexivity | ].
    simpl. rewrite (select_none c Hnan). reflexivity. }
  split; [ exact Hempty | ]. split; [ apply labels_filter_rows | ].
  unfold standardize_dates. rewrite Hempty. reflexivity.
Qed.

Lemma labels_zero_gizzard_quantity (df out : DataFrame) :
  zero_gizzard_quantity df = Some out ->
  ~ In "year_month" (labels df) -> ~ In "year_month" (labels out).
Proof.
  unfold zero_gizzard_quantity, loc_assign. intros H Hno. inv_bind H.
  destruct (has_label "quantity" df).
  - inversion H; subst out. unfold labels in *. rewrite map_map.
    erewrite map_ext; [ exact Hno | ].
    intros lc. simpl. destruct (String.eqb (fst lc) "quantity"); reflexivity.
  - destruct (Nat.eqb (nrows df) 0); [ discriminate | ].
    inversion H; subst out. unfold labels in *. rewrite map_app. simpl.
    intros Hin. apply in_app_or in Hin. destruct Hin as [Hin | [Hin | []]];
      [ contradiction | discriminate ].
Qed.

Lemma inflow_renamed_spec (sheet : RawFrame) (df : DataFrame) :
  inflow_renamed sheet = Some df ->
  exists df0,
    standardize_dataframe sheet = Ok df0 /\
    get_col "date" df = get_col "date" df0 /\
    (~ In "year_month" (labels df0) -> ~ In "year_month" (labels df)).
Proof.
  unfold inflow_renamed. intros H. inv_bind H. apply call_some in E.
  rename d into df0. exists df0. split; [ assumption | ].
  destruct (has_label "weight_at_delivery" df0); inversion H; subst df; clear H.
  - split; [ apply get_col_rename_other; discriminate | ].
    intros Hno Hin. rewrite labels_rename in Hin. apply in_map_iff in Hin.
    destruct Hin as [l [Hl Hin]].
    destruct (String.eqb l "weight_at_delivery"); [ discriminate | ].
    subst l. contradiction.
  - split; [ reflexivity | auto ].
Qed.

(** C10 (as amended). Empty-ledger failure: when a ledger has no row with
    a non-blank date, the table left by the blank-date filter is empty and
    [standardize_dates] returns it unchanged, without a month or bucket-key
    column; and unless the sheet of that ledger itself has a column
    labelled [year_month], [process_sheets_data] raises a
    [DataProcessingError]. *)
Theorem empty_ledger_failure (inflow_sheet release_sheet : RawFrame) :
  (undated inflow_sheet ->
   forall df df', inflow_renamed inflow_sheet = Some df -> drop_undated df = Some df' ->
     empty df' = true /\ standardize_dates df' = Ok df') /\
  (undated release_sheet ->
   forall df df', standardize_dataframe release_sheet = Ok df ->
     drop_undated df = Some df' ->
     empty df' = true /\ standardize_dates df' = Ok df') /\
  ((undated inflow_sheet /\ lacks_bucket_key inflow_sheet) \/
   (undated release_sheet /\ lacks_bucket_key release_sheet) ->
   process_sheets_data inflow_sheet release_sheet =
   DataProcessingError "Failed to process sheets data").
Proof.
  split; [ | split ].
  - intros Hun df df' Hren Hdrop.
    destruct (inflow_renamed_spec _ Hren) as (df0 & Hstd & Hdate & _).
    destruct (undated_standardized _ Hstd) as [_ Hnan].
    destruct (drop_undated_empty df) with (df' := df') as (He & _ & Hs); auto.
    intros dates Hd. rewrite Hdate in Hd. apply (Hnan Hun _ Hd).
  - intros Hun df df' Hstd Hdrop.
    destruct (undated_standardized _ Hstd) as [_ Hnan].
    destruct (drop_undated_empty df) with (df' := df') as (He & _ & Hs); auto.
  - intros Hcase. unfold process_sheets_data.
    destruct (inflow_renamed inflow_sheet) as [inflow1 | ] eqn:E1; simpl; [ | reflexivity ].
    destruct (standardize_dataframe release_sheet) as [release1 | ] eqn:E2; simpl;
      [ | reflexivity ].
    destruct (drop_undated inflow1) as [inflow2 | ] eqn:E3; simpl; [ | reflexivity ].
    destruct (drop_undated release1) as [release2 | ] eqn:E4; simpl; [ | reflexivity ].
    destruct (standardize_dates inflow2) as [inflow3 | ] eqn:E5; simpl; [ | reflexivity ].
    destruct (standardize_dates release2) as [release3 | ] eqn:E6; simpl; [ | reflexivity ].
    destruct (zero_gizzard_quantity release3) as [release4 | ] eqn:E7; simpl;
      [ | reflexivity ].
    rewrite create_summary_no_key; [ reflexivity | ].
    destruct Hcase as [[Hun Hlack] | [Hun Hlack]].
    + left. apply get_col_absent.
      destruct (inflow_renamed_spec _ E1) as (df0 & Hstd & Hdate & Hlab).
      destruct (undated_standardized _ Hstd) as [Hno Hnan].
      destruct (drop_undated_empty inflow1) with (df' := inflow2) as (_ & Hl & Hs); auto.
      { intros dates Hd. rewrite Hdate in Hd. apply (Hnan Hun _ Hd). }
      rewrite Hs in E5. inversion E5; subst inflow3.
      rewrite Hl. auto.
    + right. apply get_col_absent.
      destruct (undated_standardized _ E2) as [Hno Hnan].
      destruct (drop_undated_empty release1) with (df' := release2) as (_ & Hl & Hs); auto.
      rewrite Hs in E6. inversion E6; subst release3.
      apply (labels_zero_gizzard_quantity _ E7). rewrite Hl. auto.
Qed.

End Properties.

(** * Further properties *)

Section MoreProperties.

Context {num : Type} {numeric : Numeric num} {date_parser : DateParser num}
        {repr : Repr num}.

Local Abbreviation cell := (cell num).
Local Abbreviation column := (column num).
Local Abbreviation DataFrame := (DataFrame num).
Local Abbreviation SummaryRow := (SummaryRow num).
Local Abbreviation WorkRow := (WorkRow num).
Local Abbreviation Series := (Series num).

(** ** Trimmed, lower-case text *)

Lemma lower_ascii_idem (c : ascii) :
  Str.lower_ascii (Str.lower_ascii c) = Str.lower_ascii c.
Proof.
  destruct c as [[ | ] [ | ] [ | ] [ | ] [ | ] [ | ] [ | ] [ | ]]; reflexivity.
Qed.

Lemma is_space_lower (c : ascii) :
  Str.is_space (Str.lower_ascii c) = Str.is_space c.
Proof.
  destruct c as [[ | ] [ | ] [ | ] [ | ] [ | ] [ | ] [ | ] [ | ]]; reflexivity.
Qed.

Lemma lower_idem (s : string) : Str.lower (Str.lower s) = Str.lower s.
Proof.
  induction s as [ | c s IH ]; simpl; [ reflexivity | ].
  rewrite lower_ascii_idem, IH. reflexivity.
Qed.

Lemma lower_lstrip (s : string) : Str.lower (Str.lstrip s) = Str.lstrip (Str.lower s).
Proof.
  induction s as [ | c s IH ]; simpl; [ reflexivity | ].
  rewrite is_space_lower. destruct (Str.is_space c); [ exact IH | reflexivity ].
Qed.

Lemma lower_rstrip (s : string) : Str.lower (Str.rstrip s) = Str.rstrip (Str.lower s).
Proof.
  induction s as [ | c s IH ]; simpl; [ reflexivity | ].
  rewrite <- IH, is_space_lower.
  destruct (Str.rstrip s) as [ | c' r ]; simpl.
  - destruct (Str.is_space c); reflexivity.
  - reflexivity.
Qed.

Lemma lower_strip (s : string) : Str.lower (Str.strip s) = Str.strip (Str.lower s).
Proof. unfold Str.strip. rewrite lower_rstrip, lower_lstrip. reflexivity. Qed.

Lemma lstrip_starts_clean (s : string) : starts_clean (Str.lstrip s).
Proof.
  induction s as [ | c s IH ]; simpl; [ exact I | ].
  destruct (Str.is_space c) eqn:E; [ exact IH | exact E ].
Qed.

Lemma lstrip_clean (s : string) : starts_clean s -> Str.lstrip s = s.
Proof. destruct s as [ | c s ]; simpl; [ reflexivity | intros ->; reflexivity ]. Qed.

Lemma rstrip_starts_clean (s : string) : starts_clean s -> starts_clean (Str.rstrip s).
Proof.
  destruct s as [ | c s ]; simpl; [ auto | ]. intros Hc.
  destruct (Str.rstrip s); [ rewrite Hc | ]; exact Hc.
Qed.

Lemma rstrip_idem (s : string) : Str.rstrip (Str.rstrip s) = Str.rstrip s.
Proof.
  induction s as [ | c s IH ]; simpl; [ reflexivity | ].
  destruct (Str.rstrip s) as [ | c' r ] eqn:E.
  - destruct (Str.is_space c) eqn:Ec; simpl; [ reflexivity | ]. rewrite Ec. reflexivity.
  - simpl. simpl in IH. rewrite IH. reflexivity.
Qed.

Lemma strip_idem (s : string) : Str.strip (Str.strip s) = Str.strip s.
Proof.
  unfold Str.strip.
  rewrite (lstrip_clean (Str.rstrip (Str.lstrip s))).
  - apply rstrip_idem.
  - apply rstrip_starts_clean, lstrip_starts_clean.
Qed.

Lemma clean_fixed (s : string) :
  Str.strip (clean s) = clean s /\ Str.lower (clean s) = clean s.
Proof.
  unfold clean. split.
  - rewrite lower_strip, strip_idem. reflexivity.
  - apply lower_idem.
Qed.

Lemma to_numeric_no_text (l : list string) (cs : column) (s : string) :
  to_numeric l = Some cs -> ~ In (Str s) cs.
Proof.
  revert cs; induction l as [ | x l IH ]; simpl; intros cs H.
  - inversion H. intros [].
  - inv_bind H. inversion H; subst. intros [Hin | Hin].
    + unfold to_numeric_cell in E. destruct (String.eqb x ""); [ congruence | ].
      destruct (to_number x); congruence.
    + eapply IH; eauto.
Qed.

Lemma to_numeric_length (l : list string) (cs : column) :
  to_numeric l = Some cs -> length cs = length l.
Proof.
  revert cs; induction l as [ | x l IH ]; simpl; intros cs H.
  - inversion H; reflexivity.
  - inv_bind H. inversion H; subst. simpl. rewrite (IH _ eq_refl). reflexivity.
Qed.

Lemma standardize_column_length (c : list string) :
  length (standardize_column (num := num) c) = length c.
Proof.
  unfold standardize_column.
  destruct (to_numeric (map prepared (map clean c))) eqn:E.
  - rewrite (to_numeric_length _ E), !length_map. reflexivity.
  - rewrite !length_map. reflexivity.
Qed.

(** X2. In a standardized frame every text cell is trimmed and in lower
    case: stripping it or lower-casing it again changes nothing. *)
Theorem text_cells_are_clean (sheet : RawFrame) (df : DataFrame) :
  standardize_dataframe sheet = Ok df ->
  forall l c s, In (l, c) df -> In (Str s) c ->
    Str.strip s = s /\ Str.lower s = s.
Proof.
  intros H l c s Hin Hs. apply standardize_dataframe_columns in H.
  destruct (Forall2_In_r _ H Hin) as [[l0 raw] [_ Hc]]. simpl in Hc. subst c.
  unfold standardize_column in Hs.
  destruct (to_numeric (map prepared (map clean raw))) eqn:E.
  - exfalso. eapply to_numeric_no_text; eassumption.
  - apply in_map_iff in Hs. destruct Hs as [t [Ht Hin']].
    inversion Ht; subst t. apply in_map_iff in Hin'. destruct Hin' as [s0 [<- _]].
    apply clean_fixed.
Qed.


(** ** The outcome of standardize_dataframe *)

Lemma existsb_eqb_In (x : string) (l : list string) :
  existsb (String.eqb x) l = true <-> In x l.
Proof.
  rewrite existsb_exists. split.
  - intros [y [Hin Hy]]. apply String.eqb_eq in Hy. subst y. exact Hin.
  - intros Hin. exists x. split; [ exact Hin | apply String.eqb_refl ].
Qed.

Lemma unique_NoDup (l : list string) : unique l = true <-> NoDup l.
Proof.
  induction l as [ | x l IH ]; simpl.
  - split; [ constructor | reflexivity ].
  - rewrite andb_true_iff, negb_true_iff, IH. split.
    + intros [Hx Hl]. constructor; [ | exact Hl ].
      intros Hin. apply existsb_eqb_In in Hin. congruence.
    + intros H. inversion H; subst. split; [ | assumption ].
      destruct (existsb (String.eqb x) l) eqn:E; [ | reflexivity ].
      apply existsb_eqb_In in E. contradiction.
Qed.

Lemma labels_relabelled (sheet : RawFrame) :
  let df_clean := map (fun lc => (canonical_label (fst lc), snd lc)) sheet in
  labels (if has_label "weight_in_kg" df_clean
          then rename "weight_in_kg" "weight" df_clean else df_clean)
  = final_labels sheet.
Proof.
  cbv zeta. unfold final_labels.
  set (df0 := map (fun lc => (canonical_label (fst lc), snd lc)) sheet).
  assert (E0 : map canonical_label (labels sheet) = labels df0).
  { unfold df0, labels. rewrite !map_map. reflexivity. }
  rewrite E0. destruct (has_label "weight_in_kg" df0) eqn:E.
  - unfold rename, labels. rewrite !map_map. reflexivity.
  - unfold has_label in E. symmetry. erewrite map_ext_in; [ apply map_id | ].
    intros l Hin. cbv beta. destruct (String.eqb l "weight_in_kg") eqn:El; [ | reflexivity ].
    apply String.eqb_eq in El. subst l. apply existsb_eqb_In in Hin. congruence.
Qed.

(** X1. [standardize_dataframe] succeeds exactly when the labels of the
    sheet, once canonical and with [weight_in_kg] renamed, are pairwise
    distinct; two headers that come to the same label make it raise.  When
    it succeeds, the frame has these labels, in the order of the sheet, and
    every column keeps its number of cells. *)
Theorem standardize_dataframe_outcome (sheet : RawFrame) :
  (NoDup (final_labels sheet) ->
     exists df : DataFrame, standardize_dataframe sheet = Ok df) /\
  (~ NoDup (final_labels sheet) ->
     standardize_dataframe (num := num) sheet
     = DataProcessingError "Failed to standardize dataframe") /\
  (forall df : DataFrame, standardize_dataframe sheet = Ok df ->
     labels df = final_labels sheet /\
     Forall2 (fun rc lc => length (snd lc) = length (snd rc)) sheet df).
Proof.
  pose proof (labels_relabelled sheet) as Hl. cbv zeta in Hl.
  unfold standardize_dataframe.
  set (df0 := map (fun lc => (canonical_label (fst lc), snd lc)) sheet) in *.
  set (df1 := if has_label "weight_in_kg" df0 then _ else df0) in *.
  split; [ | split ].
  - intros Hnd. rewrite <- Hl in Hnd. apply unique_NoDup in Hnd. rewrite Hnd.
    simpl. eauto.
  - intros Hnd. destruct (unique (labels df1)) eqn:E; [ | reflexivity ].
    exfalso. apply Hnd. rewrite <- Hl. apply unique_NoDup. exact E.
  - intros df H. destruct (unique (labels df1)); [ | discriminate ].
    simpl in H. inversion H; subst df; clear H. split.
    + rewrite <- Hl. unfold labels. rewrite map_map. reflexivity.
    + assert (H1 : Forall2 (fun rc lc : string * list string => snd lc = snd rc) sheet df1).
      { assert (H0 : Forall2 (fun rc lc : string * list string => snd lc = snd rc) sheet df0).
        { subst df0. clear. induction sheet; simpl; constructor; auto. }
        subst df1. destruct (has_label "weight_in_kg" df0); [ | exact H0 ].
        unfold rename. clear - H0.
        induction H0; simpl; constructor; auto. }
      clear - H1. induction H1 as [ | rc lc raw df Hs _ IH ]; simpl; constructor; auto.
      simpl. rewrite standardize_column_length, Hs. reflexivity.
Qed.

(** ** The running balance in closed form *)

Lemma firstn_snoc (A : Type) (l : list A) (i : nat) (x : A) :
  nth_error l i = Some x -> firstn (S i) l = firstn i l ++ [x].
Proof.
  revert i; induction l as [ | y l IH ]; intros [ | i ] H; simpl in *; try discriminate.
  - inversion H; reflexivity.
  - rewrite <- (IH _ H). reflexivity.
Qed.

Lemma net_flow_snoc (q : tracked) (l : list SummaryRow) (r : SummaryRow) :
  net_flow q (l ++ [r]) = sub (add (net_flow q l) (total_inflow q r)) (total_release q r).
Proof. unfold net_flow. rewrite fold_left_app. reflexivity. Qed.

Lemma balance_is_net_flow (df out : list WorkRow) (q : tracked) :
  balances_done (length df) df out ->
  forall i d r, nth_error out i = Some (d, r) ->
    stock_balance q r = net_flow q (map snd (firstn (S i) out)).
Proof.
  intros [Hlen [_ Hdone]] i. rewrite <- Hlen in Hdone.
  induction i as [ | i IH ]; intros d r Hi.
  - assert (Hlt : 0 < length out) by (apply nth_error_Some; congruence).
    destruct (Hdone 0 d r Hlt Hi) as [Hb [Hz _]].
    rewrite (firstn_snoc _ _ Hi), map_app. cbn [firstn map snd].
    rewrite net_flow_snoc, (Hb q), (Hz eq_refl q). reflexivity.
  - assert (Hlt : S i < length out) by (apply nth_error_Some; congruence).
    destruct (Hdone (S i) d r Hlt Hi) as [Hb [_ Hc]].
    destruct (nth_error out i) as [[d' prev] | ] eqn:Ei.
    2:{ apply nth_error_None in Ei. lia. }
    rewrite (firstn_snoc _ _ Hi), map_app. cbn [map snd].
    rewrite net_flow_snoc, (Hb q), (Hc _ _ _ eq_refl Ei q).
    do 2 f_equal. exact (IH _ _ eq_refl).
Qed.

Lemma net_flow_rendered (q : tracked) (l : list WorkRow) :
  net_flow q (map rendered l) = net_flow q (map snd l).
Proof.
  unfold net_flow. generalize (zero (num := num)).
  induction l as [ | dr l IH ]; intros acc; simpl; [ reflexivity | ].
  rewrite total_inflow_rendered, total_release_rendered. apply IH.
Qed.

(** X5. The stock balance of a month is the net flow of all months up to
    it: starting from 0 and taking the months in calendar order, add the
    inflow of each month and subtract its release.  So a balance depends on
    the totals only, and on those of no later month. *)
Theorem balance_is_cumulative (inflow release : DataFrame) (s : list SummaryRow) :
  create_summary_df inflow release = Ok s ->
  forall q i r, nth_error (chronological s) i = Some r ->
    stock_balance q r = net_flow q (firstn (S i) (chronological s)).
Proof.
  intros H q i r Hi. apply summary_in_loop_order in H.
  destruct H as [asc H]. cbv zeta in H.
  destruct H as (Hdone & _ & _ & _ & Hchron).
  rewrite Hchron in *. apply nth_error_rendered in Hi.
  destruct Hi as (d & r0 & Hi & ->).
  rewrite stock_balance_rendered, firstn_map, net_flow_rendered. cbn [snd].
  eapply balance_is_net_flow; eassumption.
Qed.

(** ** The month column of the summary *)

Ltac div_mod := zify; Z.to_euclidean_division_equations; lia.

Lemma digit_not_hyphen (n : N) : Ascii.eqb (digit n) "-" = false.
Proof.
  destruct (Ascii.eqb_spec (digit n) "-"%char) as [E | E]; [ exfalso | reflexivity ].
  apply (f_equal N_of_ascii) in E. unfold digit in E.
  rewrite N_ascii_embedding in E by div_mod.
  change (N_of_ascii "-") with 45%N in E. div_mod.
Qed.

Lemma month_of_key_strftime (d : year_month_t) :
  (fst d < 10000)%N ->
  month_of_key (num := num) (strftime_Yb d) = Str (Str.lower (month_abbr (snd d))).
Proof.
  intros Hy. unfold month_of_key, strftime_Yb, strftime_Y.
  apply N.ltb_lt in Hy. rewrite Hy. cbn [append Str.split].
  rewrite !digit_not_hyphen.
  destruct (snd d); reflexivity.
Qed.

(** X6. In every row of the summary the month column is the lower-case
    abbreviation of the calendar month that the row's [year_month] shows. *)
Theorem month_column_matches (inflow release : DataFrame) (s : list SummaryRow) :
  create_summary_df inflow release = Ok s ->
  forall r, In r s ->
    exists d : year_month_t,
      (fst d < 10000)%N /\
      year_month r = strftime_Ym d /\
      month r = Str (Str.lower (month_abbr (snd d))).
Proof.
  intros H r Hin. apply summary_anatomy in H.
  destruct H as (ik & rk & keys & ps & out & _ & _ & _ & _ & -> & _ & Hrows & _).
  apply in_map_iff in Hin. destruct Hin as [[d r1] [<- Hin]].
  apply in_rev in Hin. destruct (Hrows _ _ Hin) as (Hsmall & _ & r0 & Hsame & Hrow).
  exists d. split; [ exact Hsmall | ]. split; [ reflexivity | ].
  apply summary_row_spec in Hrow. destruct Hrow as (_ & _ & Hm & _).
  destruct Hsame as [Hmonth _].
  unfold rendered. cbn [month set_year_month fst snd].
  rewrite <- Hmonth, Hm. apply month_of_key_strftime. exact Hsmall.
Qed.


(** ** The columns standardize_dates derives *)

Lemma NoDup_get_col (l : string) (df : DataFrame) :
  NoDup (labels df) -> has_label l df = true -> exists c, get_col l df = Some c.
Proof.
  intros Hnd Hl. induction df as [ | [l0 c0] df IH ].
  - discriminate.
  - simpl in Hnd. inversion Hnd as [ | ? ? Hnot Hnd' ]; subst.
    destruct (String.eqb_spec l0 l) as [-> | Hne].
    + exists c0. apply get_col_filter. simpl. unfold bears at 1. simpl.
      rewrite String.eqb_refl. f_equal.
      apply has_label_false. destruct (has_label l df) eqn:E; [ | reflexivity ].
      apply has_label_In in E. contradiction.
    + assert (Hl' : has_label l df = true).
      { apply has_label_In in Hl. destruct Hl as [Hl | Hl]; [ simpl in Hl; congruence | ].
        apply has_label_In. exact Hl. }
      destruct (IH Hnd' Hl') as [c Hc]. exists c.
      apply get_col_filter. apply get_col_filter in Hc. simpl.
      unfold bears at 1. simpl.
      destruct (String.eqb_spec l0 l); [ contradiction | exact Hc ].
Qed.

Lemma labels_set_col (l l' : string) (c : column) (df : DataFrame) :
  In l' (labels (set_col l c df)) <-> In l' (labels df) \/ l' = l.
Proof.
  unfold set_col. destruct (has_label l df) eqn:E.
  - assert (El : labels (map (fun lc : string * column =>
                                if String.eqb (fst lc) l then (fst lc, c) else lc) df)
                 = labels df).
    { unfold labels. rewrite map_map. apply map_ext. intros lc.
      destruct (String.eqb (fst lc) l); reflexivity. }
    rewrite El. apply has_label_In in E. split; [ auto | ].
    intros [H | ->]; assumption.
  - unfold labels. rewrite map_app, in_app_iff. simpl. intuition congruence.
Qed.

Lemma NoDup_set_col (l : string) (c : column) (df : DataFrame) :
  NoDup (labels df) -> NoDup (labels (set_col l c df)).
Proof.
  intros Hnd. unfold set_col. destruct (has_label l df) eqn:E.
  - assert (El : labels (map (fun lc : string * column =>
                                if String.eqb (fst lc) l then (fst lc, c) else lc) df)
                 = labels df).
    { unfold labels. rewrite map_map. apply map_ext. intros lc.
      destruct (String.eqb (fst lc) l); reflexivity. }
    rewrite El. exact Hnd.
  - unfold labels. rewrite map_app. simpl.
    eapply Permutation_NoDup; [ apply Permutation_cons_append | ].
    constructor; [ | exact Hnd ].
    intros Hin. apply has_label_In in Hin. congruence.
Qed.

Lemma get_col_set_col (l : string) (c : column) (df : DataFrame) :
  NoDup (labels df) -> get_col l (set_col l c df) = Some c.
Proof.
  intros Hnd. destruct (has_label l df) eqn:E.
  - destruct (NoDup_get_col l df Hnd E) as [old Hold].
    eapply get_col_set_col_same; eassumption.
  - apply get_col_set_col_new; assumption.
Qed.

Lemma strptime_Yb_strftime_Yb (d : year_month_t) :
  (fst d < 10000)%N -> strptime_Yb (strftime_Yb d) = Some d.
Proof.
  intros Hy. destruct d as [y m]. cbn [fst] in Hy.
  unfold strftime_Yb, strftime_Y. cbn [fst snd].
  apply N.ltb_lt in Hy. rewrite Hy. apply N.ltb_lt in Hy.
  cbn [append strptime_Yb]. rewrite !digit_value_digit.
  assert (Em : month_of_abbr (month_abbr m) = Some m) by (destruct m; reflexivity).
  rewrite Em.
  replace (y / 1000)%N with (y / 10 / 10 / 10)%N by (rewrite !N.Div0.div_div; reflexivity).
  replace (y / 100)%N with (y / 10 / 10)%N by (rewrite N.Div0.div_div; reflexivity).
  assert (E : (1000 * ((y / 10 / 10 / 10) mod 10) + 100 * ((y / 10 / 10) mod 10) +
               10 * ((y / 10) mod 10) + y mod 10)%N = y) by div_mod.
  rewrite E. reflexivity.
Qed.

Lemma no_missing_timestamps (dates : column) :
  Forall (fun y => y = NaT \/ exists d, y = Timestamp d) dates ->
  existsb isna dates = false ->
  Forall (fun y => exists d, y = Timestamp d) dates.
Proof.
  induction 1 as [ | y dates Hy _ IH ]; simpl; intros H; [ constructor | ].
  apply orb_false_iff in H. destruct H as [Hna Hrest].
  constructor; [ | auto ].
  destruct Hy as [-> | Hy]; [ discriminate | exact Hy ].
Qed.

(** X3. On a frame with rows and pairwise distinct labels, the frame that
    [standardize_dates] returns has in every row a timestamp in [date], the
    lower-case abbreviation of its month in [month] and its year and month
    as [YYYY-Mon] in [year_month], whatever [month] and [year_month] held
    before; that key read back with [%Y-%b] is the year and month of the
    date (for a year of four digits); every other column is as it was. *)
Theorem standardize_dates_derives (df out : DataFrame) :
  NoDup (labels df) ->
  empty df = false ->
  standardize_dates df = Ok out ->
  exists dates months keys,
    get_col "date" out = Some dates /\
    get_col "month" out = Some months /\
    get_col "year_month" out = Some keys /\
    (forall i c, nth_error dates i = Some c ->
       exists d, c = Timestamp d /\
         nth_error months i = Some (Str (Str.lower (month_abbr (dt_month d)))) /\
         nth_error keys i = Some (Str (strftime_Yb (dt_year d, dt_month d))) /\
         ((dt_year d < 10000)%N ->
          strptime_Yb (strftime_Yb (dt_year d, dt_month d))
          = Some (dt_year d, dt_month d))) /\
    (forall l, l <> "date" -> l <> "month" -> l <> "year_month" ->
       get_col l out = get_col l df).
Proof.
  intros Hnd Hne H. unfold standardize_dates in H. rewrite Hne in H.
  apply try_except_ok in H. inv_bind H.
  rename c into raw_dates, c0 into dates.
  destruct (existsb isna dates) eqn:Hna; [ discriminate | ].
  inversion H; subst out; clear H.
  pose proof (no_missing_timestamps (parse_dates_cells _ E0) Hna) as Hall.
  set (df1 := set_col "date" dates df).
  set (df2 := set_col "month" (map month_cell dates) df1).
  assert (Hnd1 : NoDup (labels df1)) by (apply NoDup_set_col; exact Hnd).
  assert (Hnd2 : NoDup (labels df2)) by (apply NoDup_set_col; exact Hnd1).
  exists dates, (map month_cell dates), (map year_month_cell dates).
  split; [ | split; [ | split; [ | split ] ] ].
  - unfold df2, df1. rewrite !get_col_set_col_other by discriminate.
    apply get_col_set_col. exact Hnd.
  - rewrite get_col_set_col_other by discriminate.
    unfold df2. apply get_col_set_col. exact Hnd1.
  - apply get_col_set_col. exact Hnd2.
  - intros i c Hi. rewrite Forall_forall in Hall.
    destruct (Hall c (nth_error_In _ _ Hi)) as [d ->]. exists d.
    split; [ reflexivity | ].
    rewrite !nth_error_map, Hi. cbn [option_map month_cell year_month_cell].
    split; [ reflexivity | ]. split; [ reflexivity | ].
    intros Hy. apply strptime_Yb_strftime_Yb. exact Hy.
  - intros l H1 H2 H3. unfold df2, df1.
    rewrite !get_col_set_col_other by assumption. reflexivity.
Qed.


(** ** What process_sheets_data needs from the sheets *)

Lemma standardize_dataframe_labels (sheet : RawFrame) (df : DataFrame) :
  standardize_dataframe sheet = Ok df -> labels df = final_labels sheet.
Proof.
  pose proof (labels_relabelled sheet) as Hl. cbv zeta in Hl.
  unfold standardize_dataframe. rewrite try_except_ok.
  set (df1 := if has_label "weight_in_kg" _ then _ else _) in *.
  destruct (unique (labels df1)); [ | discriminate ].
  intros H; inversion H; subst df. rewrite <- Hl.
  unfold labels. rewrite map_map. reflexivity.
Qed.

Lemma process_anatomy (inflow_sheet release_sheet : RawFrame)
      (inflow release : DataFrame) (s : list SummaryRow) :
  process_sheets_data inflow_sheet release_sheet = Ok (inflow, release, s) ->
  exists inflow1 release1 inflow2 release2 release3,
    inflow_renamed inflow_sheet = Some inflow1 /\
    standardize_dataframe release_sheet = Ok release1 /\
    drop_undated inflow1 = Some inflow2 /\
    drop_undated release1 = Some release2 /\
    standardize_dates inflow2 = Ok inflow /\
    standardize_dates release2 = Ok release3 /\
    zero_gizzard_quantity release3 = Some release /\
    create_summary_df inflow release = Ok s.
Proof.
  unfold process_sheets_data. rewrite try_except_ok. intros H. inv_bind H.
  inversion H; subst; clear H.
  repeat match goal with
         | Hc : call _ = Some _ |- _ => apply call_some in Hc
         end.
  do 5 eexists. repeat (split; [ first [ reflexivity | eassumption ] | ]). assumption.
Qed.

Lemma labels_standardize_dates (df out : DataFrame) (l : string) :
  standardize_dates df = Ok out ->
  In l (labels out) ->
  In l (labels df) \/ l = "date" \/ l = "month" \/ l = "year_month".
Proof.
  unfold standardize_dates. destruct (empty df).
  - intros H; inversion H; subst. auto.
  - rewrite try_except_ok. intros H. inv_bind H.
    destruct (existsb isna c0); [ discriminate | ].
    inversion H; subst out; clear H. intros Hin.
    apply labels_set_col in Hin. destruct Hin as [Hin | Hin]; [ | auto ].
    apply labels_set_col in Hin. destruct Hin as [Hin | Hin]; [ | auto ].
    apply labels_set_col in Hin. destruct Hin as [Hin | Hin]; auto.
Qed.

Lemma labels_drop_undated (df out : DataFrame) :
  drop_undated df = Some out -> labels out = labels df /\ In "date" (labels df).
Proof.
  unfold drop_undated. intros H. inv_bind H. inversion H; subst out.
  split; [ apply labels_filter_rows | ].
  apply has_label_In. eapply get_col_has_label; eassumption.
Qed.

Lemma labels_inflow_renamed (sheet : RawFrame) (df : DataFrame) (l : string) :
  inflow_renamed sheet = Some df ->
  In l (labels df) ->
  In l (final_labels sheet) \/
  (l = "weight" /\ In "weight_at_delivery" (final_labels sheet)).
Proof.
  unfold inflow_renamed. intros H. inv_bind H. apply call_some in E.
  apply standardize_dataframe_labels in E. rewrite <- E.
  destruct (has_label "weight_at_delivery" d) eqn:Hl;
    inversion H; subst df; clear H; [ | auto ].
  rewrite labels_rename. intros Hin. apply in_map_iff in Hin.
  destruct Hin as [l0 [Hl0 Hin]].
  destruct (String.eqb l0 "weight_at_delivery") eqn:El0.
  - apply String.eqb_eq in El0. subst l0. right. split; [ congruence | exact Hin ].
  - left. congruence.
Qed.

Lemma labels_gizzard_correction (df out : DataFrame) (l : string) :
  zero_gizzard_quantity df = Some out ->
  In l (labels out) -> In l (labels df) \/ l = "quantity".
Proof.
  unfold zero_gizzard_quantity, loc_assign. intros H. inv_bind H.
  destruct (has_label "quantity" df).
  - inversion H; subst out. unfold labels. rewrite map_map.
    rewrite (map_ext _ fst); [ auto | ].
    intros lc. simpl. destruct (String.eqb (fst lc) "quantity"); reflexivity.
  - destruct (Nat.eqb (nrows df) 0); [ discriminate | ].
    inversion H; subst out. unfold labels. rewrite map_app, in_app_iff. simpl.
    intuition congruence.
Qed.

Lemma product_summary_label (df : DataFrame) (product_label product : string)
      (metrics : list string) (ps : list (string * Series)) :
  product_summary df product_label product metrics = Some ps ->
  In product_label (labels df).
Proof.
  unfold product_summary. intros H. inv_bind H.
  apply has_label_In. eapply get_col_has_label; eassumption.
Qed.

Lemma create_summary_aggregates (inflow release : DataFrame) (s : list SummaryRow) :
  create_summary_df inflow release = Ok s ->
  exists ci cr gi gr,
    product_summary inflow "product_type" WHOLE_CHICKEN ["quantity"; "weight"] = Some ci /\
    product_summary release "product" WHOLE_CHICKEN ["quantity"; "weight"] = Some cr /\
    product_summary inflow "product_type" GIZZARD ["weight"] = Some gi /\
    product_summary release "product" GIZZARD ["weight"] = Some gr /\
    product_summaries_of inflow release =
    Some [("chicken_inflow", ci); ("chicken_release", cr);
          ("gizzard_inflow", gi); ("gizzard_release", gr)].
Proof.
  intros H. apply create_summary_structure in H.
  destruct H as (ik & rk & keys & ps & rows & _ & _ & _ & Hps & _).
  unfold product_summaries_of in *. inv_bind Hps.
  do 4 eexists. repeat (split; [ reflexivity | ]). reflexivity.
Qed.

(** ** Both weight columns on the inflow sheet *)

Lemma standardize_dates_keeps (df out : DataFrame) (l : string) :
  standardize_dates df = Ok out ->
  l <> "date" -> l <> "month" -> l <> "year_month" ->
  get_col l out = get_col l df.
Proof.
  unfold standardize_dates. destruct (empty df).
  - intros H; inversion H; reflexivity.
  - rewrite try_except_ok. intros H H1 H2 H3. inv_bind H.
    destruct (existsb isna c0); [ discriminate | ].
    inversion H; subst out.
    rewrite !get_col_set_col_other by assumption. reflexivity.
Qed.

Lemma process_raises (inflow_sheet release_sheet : RawFrame) :
  (forall tables, process_sheets_data (num := num) inflow_sheet release_sheet <> Ok tables) ->
  process_sheets_data (num := num) inflow_sheet release_sheet
  = DataProcessingError "Failed to process sheets data".
Proof.
  intros H. unfold process_sheets_data in *.
  match goal with
  | |- try_except _ ?body = _ => destruct body as [tables | ]
  end.
  - exfalso. apply (H tables). reflexivity.
  - reflexivity.
Qed.

(** A sheet with a generic and a delivery weight column stops the run,
    whatever the release sheet holds: the ledger has two columns labelled
    [weight] and [create_summary_df] cannot take the weight of a record. *)
Lemma both_weights_stop_the_run (inflow_sheet release_sheet : RawFrame) (df : DataFrame)
      (generic_weight delivery_weight : column) :
  standardize_dataframe inflow_sheet = Ok df ->
  get_col "weight" df = Some generic_weight ->
  get_col "weight_at_delivery" df = Some delivery_weight ->
  process_sheets_data (num := num) inflow_sheet release_sheet
  = DataProcessingError "Failed to process sheets data".
Proof.
  intros Hstd Hgen Hdel. apply process_raises. intros [[inflow release] s] H.
  apply process_anatomy in H.
  destruct H as (i1 & r1 & i2 & r2 & r3 & Hi1 & _ & Hi2 & _ & Hi & _ & _ & Hs).
  destruct (delivery_weight_rename inflow_sheet Hstd Hdel Hi1) as (_ & _ & _ & _ & Hboth).
  destruct (Hboth _ Hgen) as (_ & _ & Hnone).
  unfold drop_undated in Hi2. inv_bind Hi2. inversion Hi2; subst i2; clear Hi2.
  assert (Hw : get_col "weight" inflow = None).
  { erewrite standardize_dates_keeps; [ | exact Hi | discriminate .. ].
    rewrite get_col_filter_rows, Hnone. reflexivity. }
  destruct (create_summary_aggregates _ _ Hs) as (ci & _ & _ & _ & Hci & _).
  destruct (product_summary_needs _ _ _ "weight" _ Hci) as [weight Hweight];
    [ right; left; reflexivity | ].
  congruence.
Qed.

(** X4. [process_sheets_data] returns only when it has found every column
    it reads: in the inflow sheet a date, a product type, a quantity and a
    weight (under one of its three names), in the release sheet a date, a
    product and a weight.  On sheets that lack one of them it raises. *)
Theorem required_columns (inflow_sheet release_sheet : RawFrame) :
  let found :=
    (forall l, In l ["date"; "product_type"; "quantity"] ->
               In l (final_labels inflow_sheet)) /\
    (In "weight" (final_labels inflow_sheet) \/
     In "weight_at_delivery" (final_labels inflow_sheet)) /\
    (forall l, In l ["date"; "product"; "weight"] ->
               In l (final_labels release_sheet)) in
  (forall tables : DataFrame * DataFrame * list SummaryRow,
     process_sheets_data inflow_sheet release_sheet = Ok tables -> found) /\
  (~ found ->
   process_sheets_data (num := num) inflow_sheet release_sheet
   = DataProcessingError "Failed to process sheets data").
Proof.
  cbv zeta.
  match goal with
  | |- ?A /\ _ => assert (Hfound : A)
  end.
  2:{ split; [ exact Hfound | ].
      intros Hnot. apply process_raises. intros tables H.
      apply Hnot. exact (Hfound tables H). }
  intros tables.
  destruct tables as [[inflow release] s]. intros H.
  apply process_anatomy in H.
  destruct H as (i1 & r1 & i2 & r2 & r3 & Hi1 & Hr1 & Hi2 & Hr2 & Hi & Hr3 & Hr & Hs).
  apply labels_drop_undated in Hi2, Hr2.
  destruct Hi2 as [Ei2 Hdi], Hr2 as [Er2 Hdr].
  pose proof (standardize_dataframe_labels _ Hr1) as Er1.
  destruct (create_summary_aggregates _ _ Hs) as (ci & cr & gi & gr & Hci & Hcr & _ & _ & _).
  assert (Hin : forall l, In l ["product_type"; "quantity"; "weight"] ->
                          In l (labels i1)).
  { intros l Hl.
    assert (Hl' : In l (labels inflow)).
    { destruct Hl as [<- | Hl]; [ eapply product_summary_label; eassumption | ].
      destruct (product_summary_needs _ _ _ l _ Hci) as [c Hc]; [ exact Hl | ].
      apply has_label_In. eapply get_col_has_label; eassumption. }
    destruct (labels_standardize_dates _ _ Hi Hl') as [Hd | Hd];
      [ rewrite <- Ei2; exact Hd | ].
    exfalso. simpl in Hl. intuition congruence. }
  assert (Hrel : forall l, In l ["product"; "weight"] -> In l (labels r1)).
  { intros l Hl.
    assert (Hl' : In l (labels release)).
    { destruct Hl as [<- | Hl]; [ eapply product_summary_label; eassumption | ].
      destruct (product_summary_needs _ _ _ l _ Hcr) as [c Hc]; [ right; exact Hl | ].
      apply has_label_In. eapply get_col_has_label; eassumption. }
    destruct (labels_gizzard_correction _ _ Hr Hl') as [Hq | Hq];
      [ | exfalso; simpl in Hl; intuition congruence ].
    destruct (labels_standardize_dates _ _ Hr3 Hq) as [Hd | Hd];
      [ rewrite <- Er2; exact Hd | ].
    exfalso. simpl in Hl. intuition congruence. }
  split; [ | split ].
  - intros l Hl.
    assert (Hl1 : In l (labels i1)).
    { destruct Hl as [<- | Hl]; [ exact Hdi | ]. apply Hin. simpl in *. tauto. }
    destruct (labels_inflow_renamed _ _ Hi1 Hl1) as [Hf | [-> _]]; [ exact Hf | ].
    exfalso. simpl in Hl. intuition congruence.
  - destruct (labels_inflow_renamed _ "weight" Hi1) as [Hf | [_ Hf]]; auto.
    apply Hin. simpl. tauto.
  - intros l Hl. rewrite <- Er1.
    destruct Hl as [<- | Hl]; [ exact Hdr | ]. apply Hrel. exact Hl.
Qed.

(** ** Text in an aggregated column *)

Lemma select_nth (A : Type) (mask : list bool) (c : list A) (i : nat) (x : A) :
  nth_error mask i = Some true -> nth_error c i = Some x -> In x (select mask c).
Proof.
  revert c i; induction mask as [ | b mask IH ]; intros c i Hm Hc.
  - destruct i; discriminate.
  - destruct c as [ | y c ]; [ destruct i; discriminate | ].
    destruct i as [ | i ]; simpl in *.
    + inversion Hm; inversion Hc; subst. left; reflexivity.
    + destruct b; [ right | ]; eapply IH; eassumption.
Qed.

Lemma nth_both (m1 m2 : list bool) (i : nat) :
  nth_error m1 i = Some true -> nth_error m2 i = Some true ->
  nth_error (both m1 m2) i = Some true.
Proof.
  revert m2 i; induction m1 as [ | a m1 IH ]; intros m2 i H1 H2.
  - destruct i; discriminate.
  - destruct m2 as [ | b m2 ]; [ destruct i; discriminate | ].
    destruct i as [ | i ]; simpl in *.
    + inversion H1; inversion H2; subst. reflexivity.
    + apply IH; assumption.
Qed.

Lemma sum_from_numeric (cells : column) (acc total : num) :
  sum_from acc cells = Some total -> Forall (fun c => is_numeric c = true) cells.
Proof.
  revert acc; induction cells as [ | c cells IH ]; intros acc H; [ constructor | ].
  destruct c; simpl in H; try discriminate; constructor; eauto.
Qed.

Lemma str_values_In (k : string) (c : column) : In (Str k) c -> In k (str_values c).
Proof.
  induction c as [ | x c IH ]; [ intros [] | ].
  intros [-> | Hin]; [ left; reflexivity | ].
  destruct x; simpl; auto.
Qed.

Lemma product_summary_numeric (df : DataFrame) (product_label product metric : string)
      (metrics : list string) (ps : list (string * Series))
      (products keys values : column) (i : nat) (k : string) (c : cell) :
  product_summary df product_label product metrics = Some ps ->
  In metric metrics ->
  get_col product_label df = Some products ->
  get_col "year_month" df = Some keys ->
  get_col metric df = Some values ->
  nth_error products i = Some (Str product) ->
  nth_error keys i = Some (Str k) ->
  nth_error values i = Some c ->
  is_numeric c = true.
Proof.
  intros H Hin Hp Hk Hv Hpi Hki Hvi.
  unfold product_summary in H. rewrite Hp in H. simpl in H.
  unfold groupby_sum in H. rewrite get_col_filter_rows, Hk in H. simpl in H.
  destruct (traverse_In _ _ metric H Hin) as [[m series] [Hm _]].
  rewrite get_col_filter_rows, Hv in Hm. simpl in Hm. inv_bind Hm.
  set (mask := map (eq_str product) products) in *.
  assert (Hmi : nth_error mask i = Some true).
  { unfold mask. rewrite nth_error_map, Hpi. simpl. rewrite String.eqb_refl. reflexivity. }
  assert (Hkin : In k (sorted_set (str_values (select mask keys)))).
  { apply sorted_set_In. apply str_values_In. eapply select_nth; eassumption. }
  destruct (traverse_In _ _ k E Hkin) as [[k' total] [Hsum _]].
  inv_bind Hsum. rewrite select_select in E0.
  apply sum_from_numeric in E0. rewrite Forall_forall in E0. apply E0.
  eapply select_nth; [ | eassumption ].
  apply nth_both; [ assumption | ].
  rewrite nth_error_map, Hki. simpl. rewrite String.eqb_refl. reflexivity.
Qed.

(** X7. [create_summary_df] returns only when every cell it adds up is a
    number or missing: the quantity and the weight of every record of
    'whole chicken' and the weight of every record of 'gizzard', in both
    ledgers.  One text cell in such a record makes it raise, whatever the
    other records hold. *)
Theorem aggregated_cells_are_numbers (inflow release : DataFrame) (s : list SummaryRow) :
  create_summary_df inflow release = Ok s ->
  forall df product_label product metric,
    In (df, product_label, product, metric)
       [(inflow, "product_type", WHOLE_CHICKEN, "quantity");
        (inflow, "product_type", WHOLE_CHICKEN, "weight");
        (release, "product", WHOLE_CHICKEN, "quantity");
        (release, "product", WHOLE_CHICKEN, "weight");
        (inflow, "product_type", GIZZARD, "weight");
        (release, "product", GIZZARD, "weight")] ->
    forall products keys values i k c,
      get_col product_label df = Some products ->
      get_col "year_month" df = Some keys ->
      get_col metric df = Some values ->
      nth_error products i = Some (Str product) ->
      nth_error keys i = Some (Str k) ->
      nth_error values i = Some c ->
      is_numeric c = true.
Proof.
  intros H df product_label product metric Hcase.
  destruct (create_summary_aggregates _ _ H) as (ci & cr & gi & gr & Hci & Hcr & Hgi & Hgr & _).
  assert (Hsum : exists metrics ps,
             product_summary df product_label product metrics = Some ps /\
             In metric metrics).
  { simpl in Hcase.
    repeat (destruct Hcase as [Hcase | Hcase];
            [ inversion Hcase; subst; do 2 eexists;
              split; [ eassumption | simpl; tauto ] | ]).
    destruct Hcase. }
  destruct Hsum as (metrics & ps & Hsum & Hin).
  intros products keys values i k c Hp Hk Hv Hpi Hki Hvi.
  exact (product_summary_numeric _ _ _ _ _ Hsum Hin Hp Hk Hv Hpi Hki Hvi).
Qed.

(** ** A release sheet without quantities *)

Lemma sum_blanks (cells : column) :
  Forall (fun c => c = Num zero \/ c = NaN) cells -> sum_skipna cells = Some zero.
Proof.
  unfold sum_skipna. induction 1 as [ | c cells [-> | ->] _ IH ]; simpl;
    [ reflexivity | rewrite add_zero_zero; exact IH | exact IH ].
Qed.

(** X8. A run of [process_sheets_data] that returns on a release sheet
    without a quantity column has at least one record in its release
    ledger (on a release ledger without records such a run does not
    return); the gizzard correction has added the column, 0 in the records
    of gizzard and missing in all others; and the summary reports a
    chicken release quantity of 0 in every month. *)
Theorem release_without_quantity_column (inflow_sheet release_sheet : RawFrame)
        (inflow release : DataFrame) (s : list SummaryRow) :
  process_sheets_data inflow_sheet release_sheet = Ok (inflow, release, s) ->
  ~ In "quantity" (final_labels release_sheet) ->
  nrows release <> 0 /\
  (exists products quantities,
     get_col "product" release = Some products /\
     get_col "quantity" release = Some quantities /\
     quantities = map (fun p => if is_gizzard p then Num zero else NaN) products) /\
  (forall r, In r s -> total_chicken_release_quantity r = zero).
Proof.
  intros H Hno. apply process_anatomy in H.
  destruct H as (i1 & r1 & i2 & r2 & r3 & Hi1 & Hr1 & Hi2 & Hr2 & Hi & Hr3 & Hr & Hs).
  apply labels_drop_undated in Hr2. destruct Hr2 as [Er2 _].
  pose proof (standardize_dataframe_labels _ Hr1) as Er1.
  assert (Hq : has_label "quantity" r3 = false).
  { destruct (has_label "quantity" r3) eqn:E; [ exfalso | reflexivity ].
    apply has_label_In in E.
    destruct (labels_standardize_dates _ _ Hr3 E) as [Hd | Hd].
    - apply Hno. rewrite <- Er1, <- Er2. exact Hd.
    - intuition discriminate. }
  unfold zero_gizzard_quantity in Hr. inv_bind Hr. rename c into products.
  apply gizzard_mask_some in E0. subst l.
  unfold loc_assign in Hr. rewrite Hq in Hr.
  destruct (Nat.eqb (nrows r3) 0) eqn:En; [ discriminate | ].
  inversion Hr; subst release; clear Hr.
  set (quantities := map (fun b : bool => if b then Num zero else NaN)
                         (map is_gizzard products)) in *.
  assert (Hn : nrows (r3 ++ [("quantity", quantities)]) <> 0).
  { apply Nat.eqb_neq in En. clear - En.
    destruct r3 as [ | [l0 c0] r3' ]; [ exfalso; apply En; reflexivity | exact En ]. }
  assert (Hset : r3 ++ [("quantity", quantities)] = set_col "quantity" quantities r3)
    by (unfold set_col; rewrite Hq; reflexivity).
  rewrite Hset in *.
  assert (Hgq : get_col "quantity" (set_col "quantity" quantities r3) = Some quantities)
    by (apply get_col_set_col_new; exact Hq).
  assert (Hgp : get_col "product" (set_col "quantity" quantities r3) = Some products)
    by (rewrite get_col_set_col_other by discriminate; exact E).
  split; [ exact Hn | ]. split.
  - exists products, quantities. split; [ exact Hgp | ]. split; [ exact Hgq | ].
    unfold quantities. rewrite map_map. reflexivity.
  - intros r Hin.
    destruct (create_summary_aggregates _ _ Hs) as (ci & cr & gi & gr & _ & Hcr & _ & _ & Hps).
    apply summary_anatomy in Hs.
    destruct Hs as (ik & rk & keys & ps & out & _ & Hrk & _ & Hps' & -> & _ & Hrows & _).
    rewrite Hps in Hps'. inversion Hps'; subst ps; clear Hps'.
    apply in_map_iff in Hin. destruct Hin as [[d r1'] [<- Hin]].
    apply in_rev in Hin. destruct (Hrows _ _ Hin) as (_ & _ & r0 & Hsame & Hrow).
    apply summary_row_spec in Hrow.
    destruct Hrow as (_ & _ & _ & _ & _ & Hcol & _).
    destruct Hsame as (_ & _ & _ & Hsq & _).
    unfold rendered. cbn [total_chicken_release_quantity set_year_month fst snd].
    rewrite <- Hsq.
    erewrite summary_column_exact in Hcol;
      [ | reflexivity | exact Hcr | left; reflexivity ].
    unfold exact_total in Hcol. rewrite Hgp, Hrk, Hgq in Hcol. simpl in Hcol.
    rewrite sum_blanks in Hcol; [ congruence | ].
    apply select_Forall. unfold quantities.
    rewrite Forall_map, Forall_map. apply Forall_forall. intros p _.
    destruct (is_gizzard p); auto.
Qed.


(** ** Worksheets read and written *)

Lemma transpose_length (A : Type) (d : A) (n : nat) (rows : list (list A)) :
  length (transpose d n rows) = n.
Proof.
  revert rows; induction n as [ | n IH ]; intros rows; simpl; [ reflexivity | ].
  rewrite IH. reflexivity.
Qed.

Lemma transpose_width (A : Type) (d : A) (n : nat) (rows : list (list A)) :
  Forall (fun c => length c = length rows) (transpose d n rows).
Proof.
  revert rows; induction n as [ | n IH ]; intros rows; simpl; constructor.
  - apply length_map.
  - specialize (IH (map (@tl A) rows)). rewrite length_map in IH. exact IH.
Qed.

Lemma transpose_heads (A : Type) (d : A) (h : nat) (c : list A) (cs : list (list A)) :
  length c = h -> map (hd d) (transpose d h (c :: cs)) = c.
Proof.
  revert c cs; induction h as [ | h IH ]; intros c cs Hc.
  - destruct c; [ reflexivity | discriminate ].
  - destruct c as [ | x c ]; [ discriminate | ]. simpl.
    f_equal. apply IH. simpl in Hc. congruence.
Qed.

Lemma transpose_tails (A : Type) (d : A) (h : nat) (c : list A) (cs : list (list A)) :
  map (@tl A) (transpose d h (c :: cs)) = transpose d h cs.
Proof.
  revert c cs; induction h as [ | h IH ]; intros c cs; simpl; [ reflexivity | ].
  f_equal. apply IH.
Qed.

Lemma transpose_transpose (A : Type) (d : A) (h : nat) (cs : list (list A)) :
  Forall (fun c => length c = h) cs ->
  transpose d (length cs) (transpose d h cs) = cs.
Proof.
  induction 1 as [ | c cs Hc _ IH ]; simpl; [ reflexivity | ].
  rewrite transpose_heads by assumption. rewrite transpose_tails, IH. reflexivity.
Qed.

Lemma transpose_rectangular (A : Type) (d : A) (h : nat) (cs : list (list A)) :
  rectangular (length cs) (transpose d h cs) = true.
Proof.
  unfold rectangular. apply forallb_forall. intros row Hin.
  pose proof (transpose_width d h cs) as Hw. rewrite Forall_forall in Hw.
  apply Nat.eqb_eq. auto.
Qed.

Lemma combine_fst_snd (A B : Type) (l : list (A * B)) :
  combine (map fst l) (map snd l) = l.
Proof.
  induction l as [ | [a b] l IH ]; simpl; [ reflexivity | ]. rewrite IH. reflexivity.
Qed.

Lemma map_snd_combine (A B : Type) (l : list A) (l' : list B) :
  length l = length l' -> map snd (combine l l') = l'.
Proof.
  revert l'; induction l as [ | a l IH ]; intros [ | b l' ] H; simpl in *;
    try discriminate; [ reflexivity | ].
  rewrite IH by congruence. reflexivity.
Qed.

Lemma map_fst_combine (A B : Type) (l : list A) (l' : list B) :
  length l = length l' -> map fst (combine l l') = l.
Proof.
  revert l'; induction l as [ | a l IH ]; intros [ | b l' ] H; simpl in *;
    try discriminate; [ reflexivity | ].
  rewrite IH by congruence. reflexivity.
Qed.

Lemma rectangular_Forall (A : Type) (n : nat) (rows : list (list A)) :
  rectangular n rows = true -> Forall (fun row => length row = n) rows.
Proof.
  unfold rectangular. intros H. apply Forall_forall. intros row Hin.
  apply Nat.eqb_eq. eapply (proj1 (forallb_forall _ _) H). exact Hin.
Qed.

(** X9. A worksheet whose rows have the width of its header row is read
    as a frame with the header cells as labels, in their order, one column
    per header cell and one row per data row; read row by row, the frame
    gives back the data rows, cell for cell.  A header alone gives a frame
    without rows. *)
Theorem read_worksheet_keeps_cells (headers : list string) (data : list (list string)) :
  rectangular (length headers) data = true ->
  exists df,
    read_worksheet_to_df (Some (headers :: data)) = Ok df /\
    labels df = headers /\
    Forall (fun lc => length (snd lc) = length data) df /\
    (headers <> [] -> tolist df = data).
Proof.
  intros Hrect. unfold read_worksheet_to_df. simpl. rewrite Hrect. simpl.
  set (columns := transpose "" (length headers) data).
  assert (Hlen : length headers = length columns)
    by (unfold columns; rewrite transpose_length; reflexivity).
  assert (Hcols : Forall (fun c => length c = length data) columns)
    by apply transpose_width.
  exists (combine headers columns). split; [ reflexivity | ].
  split; [ apply map_fst_combine; exact Hlen | ].
  split.
  - apply Forall_forall. intros [l c] Hin. simpl.
    apply in_combine_r in Hin. rewrite Forall_forall in Hcols. auto.
  - intros Hne. unfold tolist. rewrite map_snd_combine by exact Hlen.
    assert (Hh : height (combine headers columns) = length data).
    { destruct headers as [ | h0 headers ]; [ congruence | ].
      unfold columns. simpl. apply length_map. }
    rewrite Hh. unfold columns.
    apply transpose_transpose. apply rectangular_Forall. exact Hrect.
Qed.

Lemma prepare_column_length (c : column) : length (prepare_column c) = length c.
Proof.
  unfold prepare_column. destruct (is_datetime c); rewrite !length_map; reflexivity.
Qed.

(** X10. What [upload_df_to_gsheet] writes for a frame, read back with
    [read_worksheet_to_df], is the frame [prepare_df_for_upload] made of
    it: same labels, same order, same text in every cell. *)
Theorem upload_read_round_trip (df : DataFrame) :
  table df ->
  read_worksheet_to_df (Some (upload_values df)) = Ok (prepare_df_for_upload df).
Proof.
  intros Ht. unfold upload_values, read_worksheet_to_df. cbv zeta. simpl.
  set (P := prepare_df_for_upload df).
  assert (Hl : length (labels P) = length (map snd P))
    by (unfold labels; rewrite !length_map; reflexivity).
  unfold tolist. rewrite Hl, transpose_rectangular. simpl.
  rewrite transpose_transpose.
  - unfold labels. rewrite combine_fst_snd. reflexivity.
  - assert (Hh : height P = height df).
    { unfold P, prepare_df_for_upload. destruct df as [ | [l c] df' ]; simpl;
        [ reflexivity | apply prepare_column_length ]. }
    rewrite Hh. unfold table in Ht. rewrite Forall_map.
    unfold P, prepare_df_for_upload. rewrite Forall_map. simpl.
    eapply Forall_impl; [ | exact Ht ].
    intros lc Hc. simpl in Hc. rewrite prepare_column_length. exact Hc.
Qed.

(** ** The requests main sends *)

Lemma accepted_app (w : World) (sent a b : list request) :
  accepted w sent (a ++ b) = accepted w sent a && accepted w (sent ++ a) b.
Proof.
  revert sent; induction a as [ | r a IH ]; intros sent; simpl.
  - rewrite app_nil_r. reflexivity.
  - rewrite IH, <- app_assoc, andb_assoc. reflexivity.
Qed.

Lemma upload_df_to_gsheet_spec (w : World) (df : DataFrame)
      (spreadsheet_id sheet_name : string) (sent : list request) :
  exists new,
    upload_df_to_gsheet w df spreadsheet_id sheet_name sent
    = (accepted w sent new, sent ++ new) /\
    filter is_clear new = [Clear spreadsheet_id (sheet_name ++ "!A1:ZZ")] /\
    (new = [Clear spreadsheet_id (sheet_name ++ "!A1:ZZ")] \/
     new = [Clear spreadsheet_id (sheet_name ++ "!A1:ZZ");
            Update spreadsheet_id (sheet_name ++ "!A1") (upload_values df)]).
Proof.
  unfold upload_df_to_gsheet. cbv zeta.
  destruct (service w sent (Clear spreadsheet_id (sheet_name ++ "!A1:ZZ"))) eqn:Ec.
  - exists [Clear spreadsheet_id (sheet_name ++ "!A1:ZZ");
            Update spreadsheet_id (sheet_name ++ "!A1") (upload_values df)].
    simpl. rewrite Ec. simpl.
    destruct (service w (sent ++ [Clear spreadsheet_id (sheet_name ++ "!A1:ZZ")]) _);
      auto.
  - exists [Clear spreadsheet_id (sheet_name ++ "!A1:ZZ")].
    simpl. rewrite Ec. auto.
Qed.

Lemma upload_all_spec (w : World) (output_spreadsheet_id : string)
      (tasks : list (DataFrame * string)) (success : bool) (sent : list request) :
  exists new,
    upload_all w output_spreadsheet_id tasks success sent
    = (success && accepted w sent new, sent ++ new) /\
    filter is_clear new
    = map (fun t => Clear output_spreadsheet_id (snd t ++ "!A1:ZZ")) tasks.
Proof.
  revert success sent; induction tasks as [ | [df sheet_name] tasks IH ];
    intros success sent.
  - exists []. simpl. rewrite andb_true_r, app_nil_r. auto.
  - destruct (upload_df_to_gsheet_spec w df output_spreadsheet_id sheet_name sent)
      as (new1 & Hup & Hclear & _).
    simpl. rewrite Hup.
    destruct (IH (if accepted w sent new1 then success else false) (sent ++ new1))
      as (new2 & Hall & Hclear2).
    exists (new1 ++ new2). rewrite Hall. split.
    + rewrite accepted_app, app_assoc. f_equal.
      destruct (accepted w sent new1), success; reflexivity.
    + rewrite filter_app, Hclear, Hclear2. reflexivity.
Qed.

Lemma requests_app (a b : list event) : requests (a ++ b) = requests a ++ requests b.
Proof.
  induction a as [ | e a IH ]; simpl; [ reflexivity | ].
  destruct e; simpl; rewrite IH; reflexivity.
Qed.

Lemma requests_Sent (sent : list request) : requests (map Sent sent) = sent.
Proof. induction sent as [ | r sent IH ]; simpl; [ | rewrite IH ]; reflexivity. Qed.

(** How a run of [main] that got to the uploads is made up. *)
Lemma main_anatomy (w : World) (r : request) :
  In (Sent r) (snd (main w)) ->
  let source := value (getenv w "SOURCE_SPREADSHEET_ID") in
  let output := value (getenv w "OUTPUT_SPREADSHEET_ID") in
  exists inflow_sheet release_sheet inflow release s success sent,
    unset (getenv w "SOURCE_SPREADSHEET_ID") = false /\
    unset (getenv w "OUTPUT_SPREADSHEET_ID") = false /\
    credentials_found w CREDENTIALS_FILE = true /\
    spreadsheet_opens w source = true /\
    service_builds w = true /\
    read_worksheet_to_df (get_all_values w source SHEET_STOCK_INFLOW) = Ok inflow_sheet /\
    read_worksheet_to_df (get_all_values w source SHEET_RELEASE) = Ok release_sheet /\
    process_sheets_data inflow_sheet release_sheet = Ok (inflow, release, s) /\
    upload_all w output
      [(inflow, SHEET_STOCK_INFLOW_CLEAN); (release, SHEET_RELEASE_CLEAN);
       (summary_frame s, SHEET_SUMMARY)] true [] = (success, sent) /\
    main w =
    (if success then Returned else Raised "Failed to upload one or more datasets",
     [Credentials CREDENTIALS_FILE; Connect source; Build;
      Worksheet source SHEET_STOCK_INFLOW; Worksheet source SHEET_RELEASE]
     ++ map Sent sent).
Proof.
  cbv zeta. unfold main.
  destruct (unset (getenv w "SOURCE_SPREADSHEET_ID")); [ intros [] | ].
  destruct (unset (getenv w "OUTPUT_SPREADSHEET_ID")); [ intros [] | ].
  destruct (credentials_found w CREDENTIALS_FILE); simpl negb; cbv iota;
    [ | simpl; intuition discriminate ].
  destruct (spreadsheet_opens w _); simpl negb; cbv iota;
    [ | simpl; intuition discriminate ].
  destruct (service_builds w); simpl negb; cbv iota;
    [ | simpl; intuition discriminate ].
  destruct (read_worksheet_to_df (get_all_values w _ SHEET_STOCK_INFLOW))
    as [inflow_sheet | msg] eqn:Eri; [ | simpl; intuition discriminate ].
  destruct (read_worksheet_to_df (get_all_values w _ SHEET_RELEASE))
    as [release_sheet | msg] eqn:Err; [ | simpl; intuition discriminate ].
  destruct (process_sheets_data inflow_sheet release_sheet)
    as [[[inflow release] s] | msg] eqn:Ep; [ | simpl; intuition discriminate ].
  destruct (upload_all w _ _ true []) as [success sent] eqn:Eup.
  intros _. exists inflow_sheet, release_sheet, inflow, release, s, success, sent.
  do 9 (split; [ first [ reflexivity | assumption ] | ]).
  destruct success; reflexivity.
Qed.

(** X11. [main] sends nothing to the output spreadsheet before both
    worksheets were read and [process_sheets_data] returned the three
    tables: a failure of the configuration, of the credentials, of the
    connection, of a worksheet or of the processing leaves the output
    spreadsheet as it was. *)
Theorem no_output_before_processing (w : World) (r : request) :
  In (Sent r) (snd (main w)) ->
  let source := value (getenv w "SOURCE_SPREADSHEET_ID") in
  unset (getenv w "SOURCE_SPREADSHEET_ID") = false /\
  unset (getenv w "OUTPUT_SPREADSHEET_ID") = false /\
  exists inflow_sheet release_sheet tables,
    read_worksheet_to_df (get_all_values w source SHEET_STOCK_INFLOW) = Ok inflow_sheet /\
    read_worksheet_to_df (get_all_values w source SHEET_RELEASE) = Ok release_sheet /\
    process_sheets_data inflow_sheet release_sheet = Ok tables.
Proof.
  intros Hin. apply main_anatomy in Hin. cbv zeta in *.
  destruct Hin as (inflow_sheet & release_sheet & inflow & release & s & success & sent &
                   Hs & Ho & _ & _ & _ & Hri & Hrr & Hp & _).
  split; [ exact Hs | ]. split; [ exact Ho | ].
  exists inflow_sheet, release_sheet, (inflow, release, s). auto.
Qed.

(** X12. Once the tables are computed, [main] tries all three uploads, in
    the order inflow, release, summary, whatever the service answers: a
    failed upload does not stop the later ones.  It returns when the
    service executed every request, and raises 'Failed to upload one or
    more datasets' otherwise. *)
Theorem every_upload_is_tried (w : World) (r : request) :
  In (Sent r) (snd (main w)) ->
  let output := value (getenv w "OUTPUT_SPREADSHEET_ID") in
  let sent := requests (snd (main w)) in
  filter is_clear sent =
    [Clear output "stock_inflow_clean!A1:ZZ"; Clear output "release_clean!A1:ZZ";
     Clear output "summary!A1:ZZ"] /\
  (accepted w [] sent = true -> fst (main w) = Returned) /\
  (accepted w [] sent = false ->
   fst (main w) = Raised "Failed to upload one or more datasets").
Proof.
  intros Hin. apply main_anatomy in Hin. cbv zeta in *.
  destruct Hin as (inflow_sheet & release_sheet & inflow & release & s & success & sent &
                   _ & _ & _ & _ & _ & _ & _ & _ & Hup & ->).
  cbn [fst snd]. rewrite requests_app, requests_Sent. cbn [requests app].
  destruct (upload_all_spec w (value (getenv w "OUTPUT_SPREADSHEET_ID"))
              [(inflow, SHEET_STOCK_INFLOW_CLEAN); (release, SHEET_RELEASE_CLEAN);
               (summary_frame s, SHEET_SUMMARY)] true []) as (new & Hall & Hclear).
  rewrite Hup in Hall. simpl in Hall. inversion Hall; subst success sent; clear Hall.
  split; [ exact Hclear | ].
  split; intros ->; reflexivity.
Qed.

(** X13. [main] checks its configuration before anything else: when the
    source or the output spreadsheet id is unset or empty it raises, naming
    the variable, and has made no call; in every other run the first call
    is for the credentials file. *)
Theorem configuration_is_checked_first (w : World) :
  (unset (getenv w "SOURCE_SPREADSHEET_ID") = true ->
   main w = (Raised "SOURCE_SPREADSHEET_ID environment variable not set", [])) /\
  (unset (getenv w "SOURCE_SPREADSHEET_ID") = false ->
   unset (getenv w "OUTPUT_SPREADSHEET_ID") = true ->
   main w = (Raised "OUTPUT_SPREADSHEET_ID environment variable not set", [])) /\
  (unset (getenv w "SOURCE_SPREADSHEET_ID") = false ->
   unset (getenv w "OUTPUT_SPREADSHEET_ID") = false ->
   hd_error (snd (main w)) = Some (Credentials "credentials.json")).
Proof.
  unfold main. split; [ | split ].
  - intros ->. reflexivity.
  - intros -> ->. reflexivity.
  - intros -> ->.
    destruct (credentials_found w CREDENTIALS_FILE); simpl negb; cbv iota;
      [ | reflexivity ].
    destruct (spreadsheet_opens w _); simpl negb; cbv iota; [ | reflexivity ].
    destruct (service_builds w); simpl negb; cbv iota; [ | reflexivity ].
    destruct (read_worksheet_to_df (get_all_values w _ SHEET_STOCK_INFLOW));
      [ | reflexivity ].
    destruct (read_worksheet_to_df (get_all_values w _ SHEET_RELEASE));
      [ | reflexivity ].
    destruct (process_sheets_data _ _) as [[[inflow release] s] | msg]; [ | reflexivity ].
    destruct (upload_all w _ _ true []) as [success sent].
    destruct success; reflexivity.
Qed.


(** ** The cells written to the output *)

Lemma digit_not_n (n : N) : Ascii.eqb (digit n) "n" = false.
Proof.
  destruct (Ascii.eqb_spec (digit n) "n"%char) as [E | E]; [ exfalso | reflexivity ].
  apply (f_equal N_of_ascii) in E. unfold digit in E.
  rewrite N_ascii_embedding in E by div_mod.
  change (N_of_ascii "n") with 110%N in E. div_mod.
Qed.

Lemma strftime_Ymd_not_nan (d : date) :
  (dt_year d < 10000)%N -> replace_nan (strftime_Ymd d) = strftime_Ymd d.
Proof.
  intros Hy. unfold replace_nan, strftime_Ymd, strftime_Y.
  apply N.ltb_lt in Hy. rewrite Hy. cbn [append String.eqb].
  rewrite digit_not_n. reflexivity.
Qed.

Lemma Forall2_map_In (A B : Type) (R : A -> B -> Prop) (f : A -> B) (l : list A) :
  (forall x, In x l -> R x (f x)) -> Forall2 R l (map f l).
Proof.
  induction l as [ | x l IH ]; intros H; simpl; constructor.
  - apply H. left; reflexivity.
  - apply IH. intros y Hy. apply H. right; exact Hy.
Qed.

(** X14. [prepare_df_for_upload] keeps the labels and the shape of the
    frame and writes every missing cell, NaN or NaT, as the empty text,
    never as 'nan' or 'NaT'; a timestamp of a datetime column as
    [YYYY-MM-DD]; and a text cell as it is, except the text 'nan', which is
    blanked as well. *)
Theorem missing_cells_are_blank (df : DataFrame) :
  Forall2 (fun lc out =>
    fst out = fst lc /\
    Forall2 (fun x y =>
      (isna x = true -> y = "") /\
      (forall s, x = Str s -> y = if String.eqb s "nan" then "" else s) /\
      (forall d, x = Timestamp d -> is_datetime (snd lc) = true ->
                 (dt_year d < 10000)%N -> y = strftime_Ymd d))
      (snd lc) (snd out))
    df (prepare_df_for_upload df).
Proof.
  unfold prepare_df_for_upload. apply Forall2_map_In. intros [l c] _.
  cbn [fst snd]. split; [ reflexivity | ].
  unfold prepare_column. destruct (is_datetime c) eqn:Edt.
  - rewrite map_map. apply Forall2_map_In. intros x Hin.
    assert (Hx : is_time x = true)
      by (unfold is_datetime in Edt; eapply (proj1 (forallb_forall _ _) Edt); exact Hin).
    destruct x; try discriminate; simpl.
    + split; [ discriminate | ]. split; [ discriminate | ].
      intros d0 Hd _ Hy. inversion Hd; subst d0. apply strftime_Ymd_not_nan. exact Hy.
    + split; [ reflexivity | ]. split; discriminate.
  - apply Forall2_map_In. intros x _.
    destruct x; simpl.
    + split; [ discriminate | ]. split; [ | discriminate ].
      intros s0 Hs. inversion Hs; subst s0. reflexivity.
    + split; [ discriminate | ]. split; discriminate.
    + split; [ reflexivity | ]. split; discriminate.
    + split; [ discriminate | ]. split; discriminate.
    + split; [ reflexivity | ]. split; discriminate.
Qed.

End MoreProperties.

(** * The model on concrete inputs *)

Module Checks.

Import Example.

Example strip_lower : clean "  Whole Chicken " = "whole chicken".
Proof. reflexivity. Qed.

Example label_of_header : canonical_label " Weight-at Delivery" = "weight_at_delivery".
Proof. reflexivity. Qed.

Example commas_removed : prepared "1,250,000" = "1250000".
Proof. reflexivity. Qed.

Example substring_any_case : Str.contains_nocase GIZZARD "chicken GIZZARD (frozen)" = true.
Proof. reflexivity. Qed.

Example bucket_key : strftime_Yb (2024, Jan)%N = "2024-Jan".
Proof. reflexivity. Qed.

Example bucket_key_read_back : strptime_Yb "2024-Jan" = Some (2024, Jan)%N.
Proof. reflexivity. Qed.

Example rendering : strftime_Ym (2023, Dec)%N = "2023-12".
Proof. reflexivity. Qed.

Example month_column : month_of_key (num := Z) "2024-Apr" = Str "apr".
Proof. reflexivity. Qed.

(** String order puts April before January; the sort by date does not. *)
Example string_order :
  sorted_set ["2024-Jan"; "2024-Apr"; "2023-Dec"; "2024-Jan"] =
  ["2023-Dec"; "2024-Apr"; "2024-Jan"].
Proof. reflexivity. Qed.

Example mixed_column_stays_text :
  standardize_column (num := Z) ["45"; "n/a"; ""] = [Str "45"; Str "n/a"; Str ""].
Proof. reflexivity. Qed.

Example numeric_column_with_blanks :
  standardize_column (num := Z) ["1,000"; " "; "12"] = [Num 1000%Z; NaN; Num 12%Z].
Proof. reflexivity. Qed.

(** The scenario of the specification: one inflow in January, one release
    in February; the summary lists February first. *)
Example specification_scenario :
  option_map (map (fun r : SummaryRow Z =>
                (year_month r,
                 (chicken_quantity_opening_stock r, chicken_weight_opening_stock r),
                 (total_chicken_inflow_quantity r, total_chicken_inflow_weight r),
                 (total_chicken_release_quantity r, total_chicken_release_weight r),
                 (chicken_quantity_stock_balance r, chicken_weight_stock_balance r))))
    (option_map snd (call (process_sheets_data inflow_sheet release_sheet))) =
  Some [("2024-02", (100, 150), (0, 0), (30, 45), (70, 105));
        ("2024-01", (0, 0), (100, 150), (0, 0), (100, 150))]%Z.
Proof. vm_compute. reflexivity. Qed.

Example months_in_calendar_order :
  map (@year_month Z) summary = ["2024-04"; "2024-02"; "2024-01"; "2023-12"].
Proof. reflexivity. Qed.

Example unparsed_date_stops_the_run :
  process_sheets_data (num := Z)
    [("Date", ["15 Jan 2024"; "someday"]); ("Product Type", ["gizzard"; "gizzard"]);
     ("Quantity", [""; ""]); ("Weight", ["3"; "4"])]
    release_sheet =
  DataProcessingError "Failed to process sheets data".
Proof. vm_compute. reflexivity. Qed.

End Checks.

(** * The theorems on the example ledgers *)

Module Witness.

Import Example.

Lemma balance_continuity_witness :
  create_summary_df inflow_ledger release_ledger = Ok summary /\
  (Permutation (chronological summary) summary /\
   StronglySorted (fun a b => (calendar_rank a < calendar_rank b)%N)
                  (chronological summary) /\
   (forall r q, nth_error (chronological summary) 0 = Some r ->
                opening_stock q r = zero) /\
   (forall i prev r q,
      nth_error (chronological summary) i = Some prev ->
      nth_error (chronological summary) (S i) = Some r ->
      opening_stock q r = stock_balance q prev)).
Proof.
  split; [ vm_compute; reflexivity | ].
  apply (balance_continuity inflow_ledger release_ledger). vm_compute. reflexivity.
Defined.

Lemma additive_consistency_witness :
  create_summary_df inflow_ledger release_ledger = Ok summary /\
  (forall r q, In r summary ->
     stock_balance q r =
     sub (add (opening_stock q r) (total_inflow q r)) (total_release q r)).
Proof.
  split; [ vm_compute; reflexivity | ].
  apply (additive_consistency inflow_ledger release_ledger). vm_compute. reflexivity.
Defined.

Lemma month_union_completeness_witness :
  create_summary_df inflow_ledger release_ledger = Ok summary /\
  exists inflow_keys release_keys months,
    get_col "year_month" inflow_ledger = Some inflow_keys /\
    get_col "year_month" release_ledger = Some release_keys /\
    NoDup months /\
    (forall c, In c (inflow_keys ++ release_keys) <->
               exists d, In d months /\ c = Str (strftime_Yb d)) /\
    Forall2 (fun r d =>
      year_month r = strftime_Ym d /\
      (~ has_record inflow_ledger "product_type" WHOLE_CHICKEN (strftime_Yb d) ->
       total_chicken_inflow_quantity r = zero /\ total_chicken_inflow_weight r = zero) /\
      (~ has_record release_ledger "product" WHOLE_CHICKEN (strftime_Yb d) ->
       total_chicken_release_quantity r = zero /\ total_chicken_release_weight r = zero) /\
      (~ has_record inflow_ledger "product_type" GIZZARD (strftime_Yb d) ->
       total_gizzard_inflow_weight r = zero) /\
      (~ has_record release_ledger "product" GIZZARD (strftime_Yb d) ->
       total_gizzard_release_weight r = zero)) summary months.
Proof.
  split; [ vm_compute; reflexivity | ].
  apply (month_union_completeness inflow_ledger release_ledger). vm_compute. reflexivity.
Defined.

Lemma gizzard_quantity_suppression_witness :
  process_sheets_data inflow_book release_book =
    Ok (inflow_ledger, release_ledger, summary) /\
  (create_summary_df inflow_ledger release_ledger = Ok summary /\
   exists products quantities,
     get_col "product" release_ledger = Some products /\
     get_col "quantity" release_ledger = Some quantities /\
     Forall (fun pq => forall p, fst pq = Str p ->
                       Str.contains_nocase GIZZARD p = true -> snd pq = Num zero)
            (combine products quantities) /\
     forall mask,
       sum_skipna (select mask (select (map is_gizzard products) quantities)) = Some zero).
Proof.
  split; [ vm_compute; reflexivity | ].
  apply (gizzard_quantity_suppression inflow_book release_book). vm_compute. reflexivity.
Defined.


Lemma column_coercion_witness :
  let sheet : RawFrame := [("Quantity", ["1,000"; " "; "12"]); ("Weight", ["45"; "n/a"])] in
  let df : DataFrame Z := [("quantity", [Num 1000%Z; NaN; Num 12%Z]);
                           ("weight", [Str "45"; Str "n/a"])] in
  standardize_dataframe sheet = Ok df /\
  Forall2 (fun rc lc => coercion_all_or_nothing (snd rc) (snd lc)) sheet df.
Proof.
  cbv zeta. split; [ vm_compute; reflexivity | ].
  apply column_coercion_all_or_nothing. vm_compute. reflexivity.
Defined.

Lemma delivery_weight_rename_witness :
  let df : DataFrame Z :=
    [("date", [Str "15 jan 2024"]); ("product_type", [Str "whole chicken"]);
     ("quantity", [Num 100%Z]); ("weight", [Num 150%Z]);
     ("weight_at_delivery", [Num 148%Z])] in
  let delivery : DataFrame Z :=
    [("date", [Str "15 jan 2024"]); ("product_type", [Str "whole chicken"]);
     ("quantity", [Num 100%Z]); ("weight", [Num 150%Z]); ("weight", [Num 148%Z])] in
  standardize_dataframe both_weights_sheet = Ok df /\
  get_col "weight_at_delivery" df = Some [Num 148%Z] /\
  inflow_renamed both_weights_sheet = Some delivery /\
  (forall generic_weight, get_col "weight" df = Some generic_weight ->
     In ("weight", generic_weight) delivery /\
     length (weight_columns delivery) = 2 /\
     get_col "weight" delivery = None).
Proof.
  cbv zeta.
  match goal with
  | |- ?A /\ ?B /\ ?C /\ _ =>
      assert (H1 : A) by (vm_compute; reflexivity);
      assert (H2 : B) by (vm_compute; reflexivity);
      assert (H3 : C) by (vm_compute; reflexivity)
  end.
  repeat (split; [ assumption | ]).
  exact (proj2 (proj2 (proj2 (proj2
           (delivery_weight_rename both_weights_sheet H1 H2 H3))))).
Defined.

Lemma output_order_and_rendering_witness :
  create_summary_df inflow_ledger release_ledger = Ok summary /\
  (StronglySorted (fun a b => (calendar_rank b < calendar_rank a)%N) summary /\
   (exists months,
      StronglySorted after months /\ map (@year_month Z) summary = map strftime_Ym months) /\
   (forall r, In r summary ->
      (exists y m, strptime_Ym (year_month r) = Some (y, m) /\ (1 <= m <= 12)%N) /\
      strptime_Yb (year_month r) = None /\
      (forall keys, get_col "year_month" inflow_ledger = Some keys \/
                    get_col "year_month" release_ledger = Some keys ->
                    ~ In (Str (year_month r)) keys))).
Proof.
  split; [ vm_compute; reflexivity | ].
  apply (output_order_and_rendering inflow_ledger release_ledger). vm_compute. reflexivity.
Defined.

Lemma exact_match_aggregation_witness :
  create_summary_df inflow_ledger release_ledger = Ok summary /\
  differs_in_untracked "product_type" inflow_ledger inflow_ledger' /\
  differs_in_untracked "product" release_ledger release_ledger /\
  create_summary_df inflow_ledger' release_ledger = Ok summary.
Proof.
  assert (Hs : create_summary_df inflow_ledger release_ledger = Ok summary)
    by (vm_compute; reflexivity).
  assert (Hi : differs_in_untracked "product_type" inflow_ledger inflow_ledger').
  { eexists. split; [ vm_compute; reflexivity | ].
    apply Forall2_cons; [ split; [ reflexivity | left; reflexivity ] | ].
    apply Forall2_cons; [ split; [ reflexivity | left; reflexivity ] | ].
    apply Forall2_cons.
    { split; [ reflexivity | right ]. split; [ left; reflexivity | ].
      split; [ reflexivity | ].
      intros [ | [ | [ | [ | i ] ] ] ] Hi; vm_compute in Hi; try discriminate; reflexivity. }
    apply Forall2_cons.
    { split; [ reflexivity | right ]. split; [ right; reflexivity | ].
      split; [ reflexivity | ].
      intros [ | [ | [ | [ | i ] ] ] ] Hi; vm_compute in Hi; try discriminate; reflexivity. }
    apply Forall2_cons; [ split; [ reflexivity | left; reflexivity ] | ].
    apply Forall2_cons; [ split; [ reflexivity | left; reflexivity ] | ].
    apply Forall2_nil. }
  assert (Hr : differs_in_untracked "product" release_ledger release_ledger).
  { eexists. split; [ vm_compute; reflexivity | ].
    repeat (apply Forall2_cons; [ split; [ reflexivity | left; reflexivity ] | ]).
    apply Forall2_nil. }
  split; [ exact Hs | ]. split; [ exact Hi | ]. split; [ exact Hr | ].
  exact (proj2 (exact_match_aggregation inflow_ledger release_ledger Hs) _ _ Hi Hr).
Defined.

Lemma empty_ledger_failure_witness :
  undated blank_release_sheet /\ lacks_bucket_key blank_release_sheet /\
  process_sheets_data (num := Z) inflow_sheet blank_release_sheet =
  DataProcessingError "Failed to process sheets data".
Proof.
  assert (Hun : undated blank_release_sheet).
  { intros l c Hin Hl. simpl in Hin.
    repeat (destruct Hin as [Hin | Hin];
            [ inversion Hin; subst; try (vm_compute in Hl; discriminate);
              repeat constructor | ]).
    destruct Hin. }
  assert (Hlack : lacks_bucket_key blank_release_sheet).
  { unfold lacks_bucket_key. vm_compute. intuition discriminate. }
  split; [ exact Hun | ]. split; [ exact Hlack | ].
  apply (proj2 (proj2 (empty_ledger_failure (num := Z) inflow_sheet blank_release_sheet))).
  right. split; assumption.
Defined.

(** C7. Delivery-weight precedence does not hold on the code.  On an
    inflow sheet with both weight columns the second rename only relabels:
    the ledger keeps two columns labelled [weight], the generic values
    first and the delivery values second, so no single weight column holds
    the delivery values; the lookup of [weight] fails and the run raises. *)
Theorem delivery_weight_defect :
  exists delivery : DataFrame Z,
    inflow_renamed both_weights_sheet = Some delivery /\
    weight_columns delivery = [("weight", [Num 150%Z]); ("weight", [Num 148%Z])] /\
    ~ (exists c, weight_columns delivery = [("weight", c)]) /\
    get_col "weight" delivery = None /\
    process_sheets_data (num := Z) both_weights_sheet release_sheet
    = DataProcessingError "Failed to process sheets data".
Proof.
  eexists. split; [ vm_compute; reflexivity | ]. split; [ reflexivity | ].
  split; [ intros [c Hc]; discriminate Hc | ].
  split; [ reflexivity | ].
  apply (both_weights_stop_the_run both_weights_sheet release_sheet
           (df := [("date", [Str "15 jan 2024"]); ("product_type", [Str "whole chicken"]);
                   ("quantity", [Num 100%Z]); ("weight", [Num 150%Z]);
                   ("weight_at_delivery", [Num 148%Z])])
           (generic_weight := [Num 150%Z]) (delivery_weight := [Num 148%Z]));
    vm_compute; reflexivity.
Qed.

(** C10, as the specification states it, fails: the release sheet has no
    row with a non-blank date, and a summary is produced from the inflow
    ledger alone. *)
Lemma empty_ledger_counterexample :
  undated undated_release_sheet /\
  exists inflow release row,
    process_sheets_data (num := Z) inflow_sheet undated_release_sheet =
      Ok (inflow, release, [row]) /\
    nrows release = 0 /\
    year_month row = "2024-01" /\
    total_chicken_inflow_quantity row = 100%Z.
Proof.
  split.
  - intros l c Hin Hl. simpl in Hin.
    repeat (destruct Hin as [Hin | Hin];
            [ inversion Hin; subst; try (vm_compute in Hl; discriminate);
              repeat constructor | ]).
    destruct Hin.
  - do 3 eexists. split; [ vm_compute; reflexivity | ]. repeat split.
Qed.

End Witness.

(** * The further properties on concrete inputs *)

Module FurtherWitness.

Import Example.

Lemma standardize_dataframe_outcome_witness :
  NoDup (final_labels inflow_sheet) /\
  exists df : DataFrame Z, standardize_dataframe inflow_sheet = Ok df.
Proof.
  assert (H : NoDup (final_labels inflow_sheet))
    by (apply unique_NoDup; vm_compute; reflexivity).
  split; [ exact H | ].
  exact (proj1 (standardize_dataframe_outcome (num := Z) inflow_sheet) H).
Defined.

Lemma text_cells_are_clean_witness :
  standardize_dataframe release_sheet = Ok release_standardized /\
  In ("product", [Str "whole chicken"]) release_standardized /\
  Str.strip "whole chicken" = "whole chicken" /\
  Str.lower "whole chicken" = "whole chicken".
Proof.
  assert (H : standardize_dataframe release_sheet = Ok release_standardized)
    by (vm_compute; reflexivity).
  assert (Hin : In ("product", [Str "whole chicken"]) release_standardized)
    by (right; left; reflexivity).
  split; [ exact H | ]. split; [ exact Hin | ].
  apply (text_cells_are_clean release_sheet H "product" [Str "whole chicken"]
                              "whole chicken" Hin).
  left; reflexivity.
Defined.

Lemma standardize_dates_derives_witness :
  NoDup (labels release_standardized) /\
  empty release_standardized = false /\
  standardize_dates release_standardized = Ok release_dated /\
  exists dates months keys,
    get_col "date" release_dated = Some dates /\
    get_col "month" release_dated = Some months /\
    get_col "year_month" release_dated = Some keys /\
    (forall i c, nth_error dates i = Some c ->
       exists d, c = Timestamp d /\
         nth_error months i = Some (Str (Str.lower (month_abbr (dt_month d)))) /\
         nth_error keys i = Some (Str (strftime_Yb (dt_year d, dt_month d))) /\
         ((dt_year d < 10000)%N ->
          strptime_Yb (strftime_Yb (dt_year d, dt_month d))
          = Some (dt_year d, dt_month d))) /\
    (forall l, l <> "date" -> l <> "month" -> l <> "year_month" ->
       get_col l release_dated = get_col l release_standardized).
Proof.
  assert (Hnd : NoDup (labels release_standardized))
    by (apply unique_NoDup; vm_compute; reflexivity).
  assert (H : standardize_dates release_standardized = Ok release_dated)
    by (vm_compute; reflexivity).
  split; [ exact Hnd | ]. split; [ reflexivity | ]. split; [ exact H | ].
  exact (standardize_dates_derives release_standardized Hnd eq_refl H).
Defined.

Lemma required_columns_witness :
  process_sheets_data inflow_book release_book
  = Ok (inflow_ledger, release_ledger, summary) /\
  (forall l, In l ["date"; "product_type"; "quantity"] ->
             In l (final_labels inflow_book)) /\
  (In "weight" (final_labels inflow_book) \/
   In "weight_at_delivery" (final_labels inflow_book)) /\
  (forall l, In l ["date"; "product"; "weight"] ->
             In l (final_labels release_book)).
Proof.
  assert (H : process_sheets_data inflow_book release_book
              = Ok (inflow_ledger, release_ledger, summary))
    by (vm_compute; reflexivity).
  split; [ exact H | ].
  exact (proj1 (required_columns (num := Z) inflow_book release_book) _ H).
Defined.

Lemma balance_is_cumulative_witness :
  create_summary_df inflow_ledger release_ledger = Ok summary /\
  (forall q i r, nth_error (chronological summary) i = Some r ->
     stock_balance q r = net_flow q (firstn (S i) (chronological summary))).
Proof.
  assert (H : create_summary_df inflow_ledger release_ledger = Ok summary)
    by (vm_compute; reflexivity).
  split; [ exact H | ].
  exact (balance_is_cumulative inflow_ledger release_ledger H).
Defined.

Lemma month_column_matches_witness :
  create_summary_df inflow_ledger release_ledger = Ok summary /\
  (forall r, In r summary ->
     exists d : year_month_t,
       (fst d < 10000)%N /\
       year_month r = strftime_Ym d /\
       month r = Str (Str.lower (month_abbr (snd d)))).
Proof.
  assert (H : create_summary_df inflow_ledger release_ledger = Ok summary)
    by (vm_compute; reflexivity).
  split; [ exact H | ].
  exact (month_column_matches inflow_ledger release_ledger H).
Defined.

Lemma aggregated_cells_are_numbers_witness :
  create_summary_df inflow_ledger release_ledger = Ok summary /\
  is_numeric (Num 100%Z) = true.
Proof.
  assert (H : create_summary_df inflow_ledger release_ledger = Ok summary)
    by (vm_compute; reflexivity).
  split; [ exact H | ].
  eapply (aggregated_cells_are_numbers H)
    with (df := inflow_ledger) (product_label := "product_type")
         (product := WHOLE_CHICKEN) (metric := "quantity") (i := 1) (k := "2024-Jan");
    [ left; reflexivity | reflexivity .. ].
Defined.

Lemma release_without_quantity_column_witness :
  process_sheets_data inflow_sheet release_by_weight
  = Ok (inflow_table, release_table, summary_by_weight) /\
  ~ In "quantity" (final_labels release_by_weight) /\
  nrows release_table <> 0 /\
  (exists products quantities,
     get_col "product" release_table = Some products /\
     get_col "quantity" release_table = Some quantities /\
     quantities = map (fun p => if is_gizzard p then Num zero else NaN) products) /\
  (forall r, In r summary_by_weight -> total_chicken_release_quantity r = zero).
Proof.
  assert (H : process_sheets_data inflow_sheet release_by_weight
              = Ok (inflow_table, release_table, summary_by_weight))
    by (vm_compute; reflexivity).
  assert (Hno : ~ In "quantity" (final_labels release_by_weight))
    by (vm_compute; intuition discriminate).
  split; [ exact H | ]. split; [ exact Hno | ].
  exact (release_without_quantity_column inflow_sheet release_by_weight H Hno).
Defined.

Lemma read_worksheet_keeps_cells_witness :
  exists df,
    read_worksheet_to_df (Some inflow_values) = Ok df /\
    labels df = ["Date"; "Product Type"; "Quantity"; "Weight in kg"] /\
    Forall (fun lc => length (snd lc) = 1) df /\
    (["Date"; "Product Type"; "Quantity"; "Weight in kg"] <> [] ->
     tolist df = [["15 Jan 2024"; "Whole Chicken"; "100"; "150"]]).
Proof.
  exact (read_worksheet_keeps_cells
           ["Date"; "Product Type"; "Quantity"; "Weight in kg"]
           [["15 Jan 2024"; "Whole Chicken"; "100"; "150"]] eq_refl).
Defined.

Lemma upload_read_round_trip_witness :
  table inflow_ledger /\
  read_worksheet_to_df (Some (upload_values inflow_ledger))
  = Ok (prepare_df_for_upload inflow_ledger).
Proof.
  assert (H : table inflow_ledger) by (repeat constructor).
  split; [ exact H | ].
  exact (upload_read_round_trip H).
Defined.

Lemma no_output_before_processing_witness :
  In (Sent (Clear "reports" "stock_inflow_clean!A1:ZZ")) (snd (main (office ""))) /\
  unset (getenv (office "") "SOURCE_SPREADSHEET_ID") = false /\
  unset (getenv (office "") "OUTPUT_SPREADSHEET_ID") = false /\
  exists inflow_sheet release_sheet (tables : DataFrame Z * DataFrame Z * list (SummaryRow Z)),
    read_worksheet_to_df
      (get_all_values (office "") (value (getenv (office "") "SOURCE_SPREADSHEET_ID"))
                      SHEET_STOCK_INFLOW) = Ok inflow_sheet /\
    read_worksheet_to_df
      (get_all_values (office "") (value (getenv (office "") "SOURCE_SPREADSHEET_ID"))
                      SHEET_RELEASE) = Ok release_sheet /\
    process_sheets_data inflow_sheet release_sheet = Ok tables.
Proof.
  assert (H : In (Sent (Clear "reports" "stock_inflow_clean!A1:ZZ"))
                 (snd (main (office ""))))
    by (vm_compute; do 5 right; left; reflexivity).
  split; [ exact H | ].
  exact (no_output_before_processing (office "") _ H).
Defined.

Lemma every_upload_is_tried_witness :
  let w := office "release_clean!A1:ZZ" in
  In (Sent (Clear "reports" "stock_inflow_clean!A1:ZZ")) (snd (main w)) /\
  filter is_clear (requests (snd (main w))) =
    [Clear (value (getenv w "OUTPUT_SPREADSHEET_ID")) "stock_inflow_clean!A1:ZZ";
     Clear (value (getenv w "OUTPUT_SPREADSHEET_ID")) "release_clean!A1:ZZ";
     Clear (value (getenv w "OUTPUT_SPREADSHEET_ID")) "summary!A1:ZZ"] /\
  (accepted w [] (requests (snd (main w))) = true -> fst (main w) = Returned) /\
  (accepted w [] (requests (snd (main w))) = false ->
   fst (main w) = Raised "Failed to upload one or more datasets").
Proof.
  cbv zeta.
  assert (H : In (Sent (Clear "reports" "stock_inflow_clean!A1:ZZ"))
                 (snd (main (office "release_clean!A1:ZZ"))))
    by (vm_compute; do 5 right; left; reflexivity).
  split; [ exact H | ].
  exact (every_upload_is_tried (office "release_clean!A1:ZZ") _ H).
Defined.

Lemma configuration_is_checked_first_witness :
  unset (getenv unconfigured "SOURCE_SPREADSHEET_ID") = false /\
  unset (getenv unconfigured "OUTPUT_SPREADSHEET_ID") = true /\
  main (num := Z) unconfigured
  = (Raised "OUTPUT_SPREADSHEET_ID environment variable not set", []).
Proof.
  split; [ reflexivity | ]. split; [ reflexivity | ].
  exact (proj1 (proj2 (configuration_is_checked_first (num := Z) unconfigured))
               eq_refl eq_refl).
Defined.

End FurtherWitness.
